(** * colors-le: color detection, conversion and palette analysis

    A shallow embedding of the TypeScript sources of the colors-le engine
    (utils/colorConversion.ts, conversion/colorConverter.ts, the extractors
    under extraction/formats/ and the palette analyzer), and the properties
    of the specification proved or refuted on it.

    Conventions of the embedding.
    - A JavaScript string is a [string]: a sequence of code units, restricted
      to the code units below 256 (the Latin-1 range).
    - A JavaScript number is a binary64 value, the primitive [float] of the
      kernel; every arithmetic operation of the source is the IEEE-754
      operation of the same name.
    - [undefined] and [null] results are [None].
    - Arrays are lists; an index or a length is a [nat], and the results of
      [indexOf]/[lastIndexOf], which can be -1, are in [Z]. *)

From Stdlib Require Import ZArith List Bool Lia Ascii String Floats Permutation.
Import ListNotations.

Set Warnings "-inexact-float".

(* ================================================================== *)
(** * The JavaScript runtime used by the sources *)
(* ================================================================== *)

(** ** Strings *)

Module Str.
Local Open Scope string_scope.
Local Open Scope nat_scope.

Definition code (c : ascii) : nat := nat_of_ascii c.

(** WhiteSpace and LineTerminator code units below 256: TAB, LF, VT, FF, CR,
    SP and NBSP.  This is the set stripped by [trim] and matched by [\s]. *)
Definition isWhiteSpace (c : ascii) : bool :=
  let n := code c in
  (n =? 9) || (n =? 10) || (n =? 11) || (n =? 12) || (n =? 13) || (n =? 32)
  || (n =? 160).

Definition isDigit (c : ascii) : bool :=
  let n := code c in (48 <=? n) && (n <=? 57).

Definition isUpper (c : ascii) : bool :=
  let n := code c in (65 <=? n) && (n <=? 90).

Definition isLower (c : ascii) : bool :=
  let n := code c in (97 <=? n) && (n <=? 122).

(** [\w] of a regular expression: [A-Za-z0-9_]. *)
Definition isWordChar (c : ascii) : bool :=
  isDigit c || isUpper c || isLower c || (code c =? 95).

(** [toLowerCase] on one code unit of the Latin-1 range: A-Z, and the
    accented capitals 192..222 except the multiplication sign 215. *)
Definition lowerChar (c : ascii) : ascii :=
  let n := code c in
  if isUpper c then ascii_of_nat (n + 32)
  else if (192 <=? n) && (n <=? 222) && negb (n =? 215) then ascii_of_nat (n + 32)
  else c.

(** Upper case of an ASCII letter, identity elsewhere (the canonicalisation
    of an ignore-case regular expression on the code units that the patterns
    of the sources mention). *)
Definition upperAscii (c : ascii) : ascii :=
  if isLower c then ascii_of_nat (code c - 32) else c.

Definition lowerAscii (c : ascii) : ascii :=
  if isUpper c then ascii_of_nat (code c + 32) else c.

Fixpoint map (f : ascii -> ascii) (s : string) : string :=
  match s with
  | EmptyString => EmptyString
  | String c t => String (f c) (map f t)
  end.

Definition toLowerCase (s : string) : string := map lowerChar s.

(** [toUpperCase] is applied by the sources to serialized hex strings only;
    on the Latin-1 range we model it on ASCII letters and the accented
    lower-case letters 224..254 except the division sign 247. *)
Definition upperChar (c : ascii) : ascii :=
  let n := code c in
  if isLower c then ascii_of_nat (n - 32)
  else if (224 <=? n) && (n <=? 254) && negb (n =? 247) then ascii_of_nat (n - 32)
  else c.

Definition toUpperCase (s : string) : string := map upperChar s.

Fixpoint trimStart (s : string) : string :=
  match s with
  | EmptyString => EmptyString
  | String c t => if isWhiteSpace c then trimStart t else s
  end.

Fixpoint trimEnd (s : string) : string :=
  match s with
  | EmptyString => EmptyString
  | String c t =>
      match trimEnd t with
      | EmptyString => if isWhiteSpace c then EmptyString else String c EmptyString
      | t' => String c t'
      end
  end.

Definition trim (s : string) : string := trimEnd (trimStart s).

(** [s.startsWith(p)] *)
Fixpoint startsWith (s p : string) : bool :=
  match p with
  | EmptyString => true
  | String c p' =>
      match s with
      | EmptyString => false
      | String d s' => if Ascii.eqb c d then startsWith s' p' else false
      end
  end.

(** [s.includes(p)] *)
Fixpoint includes (s p : string) : bool :=
  startsWith s p ||
  match s with
  | EmptyString => false
  | String _ t => includes t p
  end.

(** [s.lastIndexOf(p)]: the greatest index at which [p] occurs, -1 if none. *)
Fixpoint lastIndexOf_from (s p : string) (i : Z) (best : Z) : Z :=
  let best' := if startsWith s p then i else best in
  match s with
  | EmptyString => best'
  | String _ t => lastIndexOf_from t p (i + 1)%Z best'
  end.

Definition lastIndexOf (s p : string) : Z := lastIndexOf_from s p 0%Z (-1)%Z.

Fixpoint take (n : nat) (s : string) : string :=
  match n, s with
  | S k, String c t => String c (take k t)
  | _, _ => EmptyString
  end.

Fixpoint drop (n : nat) (s : string) : string :=
  match n, s with
  | S k, String _ t => drop k t
  | _, _ => s
  end.

(** [s.substring(a, b)] for non-negative integer arguments: the arguments are
    swapped when [a > b] and clamped to the length. *)
Definition substring (s : string) (a b : nat) : string :=
  take (Nat.max a b - Nat.min a b) (drop (Nat.min a b) s).

(** [s.slice(a, b)] for non-negative integer arguments: empty when [a >= b]. *)
Definition slice (s : string) (a b : nat) : string :=
  take (b - a) (drop a s).

(** [s[i]] *)
Definition charAt (s : string) (i : nat) : option ascii :=
  match drop i s with
  | String c _ => Some c
  | EmptyString => None
  end.

(** [s.split(sep)] for a one-character separator; the result is never empty. *)
Fixpoint split (sep : ascii) (s : string) : list string :=
  match s with
  | EmptyString => [EmptyString]
  | String c t =>
      if Ascii.eqb c sep then EmptyString :: split sep t
      else match split sep t with
           | [] => [String c EmptyString]
           | x :: xs => String c x :: xs
           end
  end.

(** [s.replace(c, '')] for a one-character string pattern: only the first
    occurrence is removed. *)
Fixpoint removeFirst (c : ascii) (s : string) : string :=
  match s with
  | EmptyString => EmptyString
  | String d t => if Ascii.eqb c d then t else String d (removeFirst c t)
  end.

Fixpoint repeat (c : ascii) (n : nat) : string :=
  match n with
  | O => EmptyString
  | S k => String c (repeat c k)
  end.

(** [s.padStart(n, c)] for a one-character filler. *)
Definition padStart (s : string) (n : nat) (c : ascii) : string :=
  repeat c (n - String.length s) ++ s.

(** [xs.join(sep)] *)
Fixpoint join (sep : string) (xs : list string) : string :=
  match xs with
  | [] => EmptyString
  | [x] => x
  | x :: rest => x ++ sep ++ join sep rest
  end.

(** [xs.includes(s)] on an array of strings. *)
Definition mem (s : string) (xs : list string) : bool :=
  existsb (String.eqb s) xs.

End Str.

(** ** Numbers *)

Module Num.
Local Open Scope string_scope.
Local Open Scope float_scope.

(** The number closest to an integer (round to nearest, ties to even). *)
Definition ofZ (z : Z) : float := SF2Prim (binary_normalize prec emax z 0 false).

(** The number closest to the quotient of two integers, [d > 0]. *)
Definition ofRatio (n : Z) (d : positive) : float :=
  match n with
  | Z0 => zero
  | Zpos p => SF2Prim (SFdiv prec emax (S754_finite false p 0) (S754_finite false d 0))
  | Zneg p => SF2Prim (SFdiv prec emax (S754_finite true p 0) (S754_finite false d 0))
  end.

(** The integer part of a finite number, toward zero ([None] for NaN and the
    infinities). *)
Definition truncZ (x : float) : option Z :=
  match Prim2SF x with
  | S754_zero _ => Some 0%Z
  | S754_finite sg m e =>
      let v := match e with
               | Zneg k => Z.shiftr (Zpos m) (Zpos k)
               | _ => Z.shiftl (Zpos m) e
               end in
      Some (if sg then Z.opp v else v)
  | _ => None
  end.

Definition two52 : float := 4503599627370496.

(** The greatest integral number not above [x], for finite [x]. *)
Definition floor (x : float) : float :=
  if two52 <=? abs x then x
  else
    let y := if x <? 0 then (x - two52) + two52 else (x + two52) - two52 in
    if x <? y then y - 1 else y.

(** [Math.round]: the integral number closest to [x], the one toward
    +Infinity on a tie; NaN and the infinities are returned unchanged, and
    the sign of a zero result is the sign of [x]. *)
Definition Math_round (x : float) : float :=
  if is_nan x then x
  else if is_infinity x then x
  else
    let f := floor x in
    let r := if (x - f) <? 0.5 then f else f + 1 in
    if (r =? 0) && get_sign x then neg_zero else r.

Definition Math_abs (x : float) : float := abs x.

(** [Math.max] and [Math.min] of two numbers: NaN if either is NaN, and +0
    is greater than -0. *)
Definition max2 (x y : float) : float :=
  if is_nan x || is_nan y then nan
  else if x <? y then y
  else if y <? x then x
  else if get_sign x then y else x.

Definition min2 (x y : float) : float :=
  if is_nan x || is_nan y then nan
  else if x <? y then x
  else if y <? x then y
  else if get_sign x then x else y.

(** [Math.max(...xs)] and [Math.min(...xs)]. *)
Definition Math_max (xs : list float) : float := fold_left max2 xs neg_infinity.
Definition Math_min (xs : list float) : float := fold_left min2 xs infinity.

(** ** Parsing *)

(** The value of a digit in a radix up to 36. *)
Definition digitValue (c : ascii) : option Z :=
  let n := Z.of_nat (Str.code c) in
  if Str.isDigit c then Some (n - 48)%Z
  else if Str.isLower c then Some (n - 87)%Z
  else if Str.isUpper c then Some (n - 55)%Z
  else None.

(** The longest prefix of radix-[radix] digits, as an integer; [None] when
    the prefix is empty. *)
Fixpoint parseDigits (radix : Z) (s : string) (acc : Z) (seen : bool) : option Z :=
  let stop := if seen then Some acc else None in
  match s with
  | EmptyString => stop
  | String c t =>
      match digitValue c with
      | Some d => if (d <? radix)%Z then parseDigits radix t (acc * radix + d)%Z true else stop
      | None => stop
      end
  end.

(** [parseInt(s, radix)] for an explicit radix between 2 and 36: leading
    white space and one sign are skipped, a [0x] prefix is skipped when the
    radix is 16, and the longest prefix of digits is read; NaN when there is
    no digit. *)
Definition parseInt (s : string) (radix : Z) : float :=
  let s1 := Str.trimStart s in
  let '(neg, s2) :=
    match s1 with
    | String "-"%char t => (true, t)
    | String "+"%char t => (false, t)
    | _ => (false, s1)
    end in
  let s3 :=
    if (radix =? 16)%Z then
      match s2 with
      | String "0"%char (String x t) =>
          if Ascii.eqb x "x"%char || Ascii.eqb x "X"%char then t else s2
      | _ => s2
      end
    else s2 in
  match parseDigits radix s3 0%Z false with
  | None => nan
  | Some n =>
      if (n =? 0)%Z then (if neg then neg_zero else zero)
      else ofZ (if neg then Z.opp n else n)
  end.

(** The longest prefix of decimal digits and what follows it. *)
Fixpoint spanDigits (s : string) : string * string :=
  match s with
  | EmptyString => (EmptyString, EmptyString)
  | String c t =>
      if Str.isDigit c then let '(d, r) := spanDigits t in (String c d, r)
      else (EmptyString, s)
  end.

Definition digitsZ (s : string) : Z :=
  match parseDigits 10 s 0%Z false with
  | Some n => n
  | None => 0%Z
  end.

(** The exponent part [e] or [E], an optional sign and at least one digit;
    0 when it is absent or incomplete. *)
Definition exponentPart (s : string) : Z :=
  match s with
  | String x t =>
      if Ascii.eqb x "e"%char || Ascii.eqb x "E"%char then
        let '(neg, u) :=
          match t with
          | String "-"%char v => (true, v)
          | String "+"%char v => (false, v)
          | _ => (false, t)
          end in
        match fst (spanDigits u) with
        | EmptyString => 0%Z
        | ds => if neg then Z.opp (digitsZ ds) else digitsZ ds
        end
      else 0%Z
  | EmptyString => 0%Z
  end.

(** The number closest to [m * 10^e], for [m >= 0]. *)
Definition ofDecimal (m e : Z) : float :=
  match e with
  | Zneg k => ofRatio m (Pos.pow 10 k)
  | _ => ofZ (m * 10 ^ e)%Z
  end.

(** [parseFloat(s)]: leading white space is skipped and the longest prefix
    that is a decimal literal is read and rounded to the nearest number; NaN
    when there is none. *)
Definition parseFloat (s : string) : float :=
  let s1 := Str.trimStart s in
  let '(neg, s2) :=
    match s1 with
    | String "-"%char t => (true, t)
    | String "+"%char t => (false, t)
    | _ => (false, s1)
    end in
  let v :=
    if Str.startsWith s2 "Infinity" then infinity
    else
      let '(ip, r1) := spanDigits s2 in
      let '(fp, r2) :=
        match r1 with
        | String "."%char t => spanDigits t
        | _ => (EmptyString, r1)
        end in
      match ip, fp with
      | EmptyString, EmptyString => nan
      | _, _ =>
          ofDecimal (digitsZ (ip ++ fp))
                    (exponentPart r2 - Z.of_nat (String.length fp))
      end in
  if neg then - v else v.

(** ** Printing *)

Definition digitChar (d : Z) : ascii :=
  if (d <? 10)%Z then ascii_of_nat (Z.to_nat d + 48) else ascii_of_nat (Z.to_nat d + 87).

Fixpoint natDigits (fuel : nat) (radix n : Z) (acc : string) : string :=
  match fuel with
  | O => acc
  | S f =>
      let acc' := String (digitChar (n mod radix)) acc in
      if (n / radix =? 0)%Z then acc' else natDigits f radix (n / radix) acc'
  end.

(** The digits of a non-negative integer in a radix, lower case. *)
Definition showNat (radix n : Z) : string :=
  natDigits (S (Z.to_nat (Z.log2 n))) radix n EmptyString.

(** [x.toString(16)] for an integral, infinite or NaN [x], which is what
    [Math.round] returns: the sources print in radix 16 only what they have
    just rounded. *)
Definition toString16 (x : float) : string :=
  match truncZ x with
  | None => if is_nan x then "NaN"
            else if x <? 0 then "-Infinity" else "Infinity"
  | Some z => if (z <? 0)%Z then ("-" ++ showNat 16 (Z.opp z))%string else showNat 16 z
  end.

(** The exact value [m * 2^e] of a positive finite number, as a fraction. *)
Definition exactPos (x : float) : Z * Z :=
  match Prim2SF x with
  | S754_finite _ m e =>
      match e with
      | Zneg k => (Zpos m, Zpos (Pos.pow 2 k))
      | _ => ((Zpos m * 2 ^ e)%Z, 1%Z)
      end
  | _ => (0%Z, 1%Z)
  end.

(** Comparison of fractions with positive denominators. *)
Definition fle (a b : Z * Z) : bool := (fst a * snd b <=? fst b * snd a)%Z.
Definition flt (a b : Z * Z) : bool := (fst a * snd b <? fst b * snd a)%Z.
Definition fmid (a b : Z * Z) : Z * Z :=
  ((fst a * snd b + fst b * snd a)%Z, (2 * snd a * snd b)%Z).
Definition fdist (a b : Z * Z) : Z * Z :=
  (Z.abs (fst a * snd b - fst b * snd a), (snd a * snd b)%Z).

(** [s * 10^t] as a fraction. *)
Definition dec (s t : Z) : Z * Z :=
  match t with
  | Zneg k => (s, Zpos (Pos.pow 10 k))
  | _ => ((s * 10 ^ t)%Z, 1%Z)
  end.

(** The reals that round to the positive finite [x]: between the midpoints
    to its neighbours, the midpoints included when its significand is even. *)
Definition roundsTo (x : float) (q : Z * Z) : bool :=
  let v := exactPos x in
  let lo := fmid (exactPos (next_down x)) v in
  let up := if is_infinity (next_up x)
            then (let d := fdist v (exactPos (next_down x)) in
                  ((2 * fst v * snd d + fst d * snd v)%Z, (2 * snd v * snd d)%Z))
            else fmid v (exactPos (next_up x)) in
  let even := match Prim2SF x with
              | S754_finite _ m _ => Z.even (Zpos m)
              | _ => true
              end in
  if even then fle lo q && fle q up else flt lo q && flt q up.

(** The decimal exponent [n] with [10^(n-1) <= v < 10^n], for [v > 0]. *)
Fixpoint decExpUp (fuel : nat) (v : Z * Z) (n : Z) : Z :=
  match fuel with
  | O => n
  | S f => if fle (dec 1 n) v then decExpUp f v (n + 1)%Z else n
  end.

Fixpoint decExpDown (fuel : nat) (v : Z * Z) (n : Z) : Z :=
  match fuel with
  | O => n
  | S f => if flt v (dec 1 (n - 1)) then decExpDown f v (n - 1)%Z else n
  end.

Definition decExp (v : Z * Z) : Z :=
  if fle (1%Z, 1%Z) v then decExpUp 400 v 0%Z else decExpDown 400 v 0%Z.

Fixpoint stripZeros (fuel : nat) (s t : Z) : Z * Z :=
  match fuel with
  | O => (s, t)
  | S f => if (s mod 10 =? 0)%Z && negb (s =? 0)%Z then stripZeros f (s / 10)%Z (t + 1)%Z
           else (s, t)
  end.

(** The shortest decimal [s * 10^t] that rounds to [x], the closest to [x]
    among the shortest: [k] digits are tried for k = 1, 2, ... *)
Fixpoint shortest (fuel : nat) (x : float) (n0 k : Z) : Z * Z :=
  let v := exactPos x in
  let t := (n0 - k)%Z in
  let u := dec 1 t in
  let lo := ((fst v * snd u) / (snd v * fst u))%Z in
  let okLo := (0 <? lo)%Z && roundsTo x (dec lo t) in
  let okHi := roundsTo x (dec (lo + 1) t) in
  let pick :=
    if okLo && okHi then
      (let dl := fdist v (dec lo t) in
       let dh := fdist v (dec (lo + 1) t) in
       if flt dl dh then Some lo
       else if flt dh dl then Some (lo + 1)%Z
       else if Z.even lo then Some lo else Some (lo + 1)%Z)
    else if okLo then Some lo
    else if okHi then Some (lo + 1)%Z
    else None in
  match pick with
  | Some s => stripZeros 30 s t
  | None =>
      match fuel with
      | O => (lo, t)
      | S f => shortest f x n0 (k + 1)%Z
      end
  end.

Definition zeros (n : Z) : string := Str.repeat "0"%char (Z.to_nat n).

(** [String(x)], [x.toString()] and the interpolation of a number in a
    template literal. *)
Definition toString (x : float) : string :=
  if is_nan x then "NaN"
  else if x =? 0 then "0"
  else if is_infinity x then (if x <? 0 then "-Infinity" else "Infinity")
  else
    let '(s, t) := shortest 20 (abs x) (decExp (exactPos (abs x))) 1 in
    let ds := showNat 10 s in
    let k := Z.of_nat (String.length ds) in
    let n := (k + t)%Z in
    let body :=
      if (k <=? n)%Z && (n <=? 21)%Z then ds ++ zeros (n - k)
      else if (0 <? n)%Z && (n <=? 21)%Z then
        Str.take (Z.to_nat n) ds ++ "." ++ Str.drop (Z.to_nat n) ds
      else if (-6 <? n)%Z && (n <=? 0)%Z then "0." ++ zeros (- n) ++ ds
      else
        let e := (n - 1)%Z in
        let es := (if (e <? 0)%Z then "-" else "+") ++ showNat 10 (Z.abs e) in
        match ds with
        | String d EmptyString => String d EmptyString ++ "e" ++ es
        | String d more => String d EmptyString ++ "." ++ more ++ "e" ++ es
        | EmptyString => EmptyString
        end in
    if x <? 0 then ("-" ++ body)%string else body.

End Num.

(** ** Regular expressions

    The patterns of the sources are transcribed into the syntax below and
    run by a backtracking matcher with the priorities of the language:
    alternatives left to right, greedy quantifiers longest first, lazy ones
    shortest first, and the leftmost start position first.  A quantified
    group that matched the empty string does not iterate again.  No pattern
    of the sources has a capture group under a quantifier, so the capture
    reset at each iteration is not modelled. *)

Module Regex.
Local Open Scope nat_scope.

Inductive regex : Type :=
| Eps
| Chr (inv : bool) (p : ascii -> bool)   (* a class, [inv] for a negated one *)
| Seq (r1 r2 : regex)
| Alt (r1 r2 : regex)
| Star (greedy : bool) (r : regex)
| Group (n : nat) (r : regex)            (* capture group number [n] *)
| Bol                                    (* ^ *)
| Eol                                    (* $ *)
| WordB.                                 (* \b *)

(** The [i] and [m] flags; [g] is the way the matcher is driven ([execAll]). *)
Record flags := { ignoreCase : bool; multiline : bool }.

Definition noFlags : flags := {| ignoreCase := false; multiline := false |}.
Definition flag_i : flags := {| ignoreCase := true; multiline := false |}.
Definition flag_im : flags := {| ignoreCase := true; multiline := true |}.

(** A position in the input: the code unit before it, its index, and the
    input from there on. *)
Record mstate := { prev : option ascii; pos : nat; rest : string }.

(** Captures, most recent first: group number, start and end index. *)
Definition caps := list (nat * (nat * nat)).

Definition classAccepts (fl : flags) (inv : bool) (p : ascii -> bool) (c : ascii) : bool :=
  let found :=
    if ignoreCase fl then p c || p (Str.upperAscii c) || p (Str.lowerAscii c)
    else p c in
  xorb inv found.

Definition isLineTerminator (c : ascii) : bool :=
  (Str.code c =? 10) || (Str.code c =? 13).

Definition next (st : mstate) : option ascii :=
  match rest st with
  | EmptyString => None
  | String c _ => Some c
  end.

Definition isWordAt (c : option ascii) : bool :=
  match c with
  | Some x => Str.isWordChar x
  | None => false
  end.

Definition atBol (fl : flags) (st : mstate) : bool :=
  match prev st with
  | None => true
  | Some c => multiline fl && isLineTerminator c
  end.

Definition atEol (fl : flags) (st : mstate) : bool :=
  match next st with
  | None => true
  | Some c => multiline fl && isLineTerminator c
  end.

Definition atWordB (st : mstate) : bool :=
  xorb (isWordAt (prev st)) (isWordAt (next st)).

Definition cont : Type := mstate -> caps -> option (mstate * caps).

(** The iterations of a quantified pattern whose one iteration is [body]:
    greedy, one more iteration is tried before the continuation; lazy, after
    it.  An iteration that consumed nothing is abandoned.  Each iteration
    consumes a code unit, so the fuel, one more than what is left of the
    input, is never exhausted. *)
Fixpoint starLoop (body : mstate -> caps -> cont -> option (mstate * caps))
  (greedy : bool) (k : cont) (fuel : nat) (st : mstate) (cs : caps)
  {struct fuel} : option (mstate * caps) :=
  match fuel with
  | O => k st cs
  | S f =>
      let again :=
        body st cs
          (fun st' cs' =>
             if pos st <? pos st' then starLoop body greedy k f st' cs' else None) in
      if greedy then
        match again with
        | Some x => Some x
        | None => k st cs
        end
      else
        match k st cs with
        | Some x => Some x
        | None => again
        end
  end.

Fixpoint rmatch (fl : flags) (r : regex) (st : mstate) (cs : caps) (k : cont)
  {struct r} : option (mstate * caps) :=
  match r with
  | Eps => k st cs
  | Chr inv p =>
      match rest st with
      | EmptyString => None
      | String c t =>
          if classAccepts fl inv p c
          then k {| prev := Some c; pos := S (pos st); rest := t |} cs
          else None
      end
  | Seq r1 r2 => rmatch fl r1 st cs (fun st' cs' => rmatch fl r2 st' cs' k)
  | Alt r1 r2 =>
      match rmatch fl r1 st cs k with
      | Some x => Some x
      | None => rmatch fl r2 st cs k
      end
  | Star greedy r1 =>
      starLoop (rmatch fl r1) greedy k (S (String.length (rest st))) st cs
  | Group n r1 =>
      rmatch fl r1 st cs (fun st' cs' => k st' ((n, (pos st, pos st')) :: cs'))
  | Bol => if atBol fl st then k st cs else None
  | Eol => if atEol fl st then k st cs else None
  | WordB => if atWordB st then k st cs else None
  end.

Definition accept : cont := fun st cs => Some (st, cs).

(** One match: where it starts, the position after it, and its captures. *)
Record rmatch_result := { m_index : nat; m_end : mstate; m_caps : caps }.

(** The leftmost match starting at or after a position. *)
Fixpoint search (fl : flags) (r : regex) (pv : option ascii) (i : nat) (s : string)
  : option rmatch_result :=
  match rmatch fl r {| prev := pv; pos := i; rest := s |} [] accept with
  | Some (st', cs) => Some {| m_index := i; m_end := st'; m_caps := cs |}
  | None =>
      match s with
      | EmptyString => None
      | String c t => search fl r (Some c) (S i) t
      end
  end.

(** [re.exec(s)] of a pattern without the [g] flag, and [s.match(re)]. *)
Definition exec (fl : flags) (r : regex) (s : string) : option rmatch_result :=
  search fl r None 0 s.

(** [re.test(s)] *)
Definition test (fl : flags) (r : regex) (s : string) : bool :=
  match exec fl r s with
  | Some _ => true
  | None => false
  end.

(** The matches collected by [while ((m = re.exec(s)) !== null)] on a pattern
    with the [g] flag whose [lastIndex] is 0 on entry: each search resumes
    where the previous match ended.  The loop of the sources would not
    advance after an empty match; no pattern of the sources matches the empty
    string, and the model stops there. *)
Fixpoint execAll_from (fuel : nat) (fl : flags) (r : regex) (st : mstate)
  : list rmatch_result :=
  match fuel with
  | O => []
  | S f =>
      match search fl r (prev st) (pos st) (rest st) with
      | None => []
      | Some m =>
          m :: (if m_index m <? pos (m_end m)
                then execAll_from f fl r (m_end m)
                else [])
      end
  end.

Definition execAll (fl : flags) (r : regex) (s : string) : list rmatch_result :=
  execAll_from (S (String.length s)) fl r {| prev := None; pos := 0; rest := s |}.

(** [m[0]]: the matched text. *)
Definition matched (input : string) (m : rmatch_result) : string :=
  Str.substring input (m_index m) (pos (m_end m)).

Fixpoint lookupCap (n : nat) (cs : caps) : option (nat * nat) :=
  match cs with
  | [] => None
  | (k, se) :: t => if k =? n then Some se else lookupCap n t
  end.

(** [m[n]]: the text of capture group [n], [None] when it took no part. *)
Definition group (input : string) (m : rmatch_result) (n : nat) : option string :=
  match lookupCap n (m_caps m) with
  | Some (a, b) => Some (Str.substring input a b)
  | None => None
  end.

(** *** Pattern combinators *)

Definition ch (c : ascii) : regex := Chr false (Ascii.eqb c).

Fixpoint seq (rs : list regex) : regex :=
  match rs with
  | [] => Eps
  | [r] => r
  | r :: t => Seq r (seq t)
  end.

Fixpoint alt (rs : list regex) : regex :=
  match rs with
  | [] => Eps
  | [r] => r
  | r :: t => Alt r (alt t)
  end.

(** A literal string. *)
Fixpoint lit (s : string) : regex :=
  match s with
  | EmptyString => Eps
  | String c EmptyString => ch c
  | String c t => Seq (ch c) (lit t)
  end.

Definition star (r : regex) : regex := Star true r.          (* r*  *)
Definition lazyStar (r : regex) : regex := Star false r.     (* r*? *)
Definition plus (r : regex) : regex := Seq r (Star true r).  (* r+  *)
Definition opt (r : regex) : regex := Alt r Eps.             (* r?  *)

(** r{n} *)
Fixpoint rep (n : nat) (r : regex) : regex :=
  match n with
  | O => Eps
  | S O => r
  | S k => Seq r (rep k r)
  end.

(** r{0,n}, greedy *)
Fixpoint upTo (n : nat) (r : regex) : regex :=
  match n with
  | O => Eps
  | S k => Alt (Seq r (upTo k r)) Eps
  end.

(** r{n,m}, greedy *)
Definition repRange (n m : nat) (r : regex) : regex :=
  match n with
  | O => upTo m r
  | _ => Seq (rep n r) (upTo (m - n) r)
  end.

(** Classes. *)
Definition inRange (lo hi : ascii) (c : ascii) : bool :=
  (Str.code lo <=? Str.code c) && (Str.code c <=? Str.code hi).

Fixpoint oneOf (s : string) (c : ascii) : bool :=
  match s with
  | EmptyString => false
  | String d t => Ascii.eqb c d || oneOf t c
  end.

Definition digit : regex := Chr false Str.isDigit.                 (* \d *)
Definition space : regex := Chr false Str.isWhiteSpace.            (* \s *)
Definition spaces : regex := star space.                           (* \s* *)
Definition digits : regex := plus digit.                           (* \d+ *)
Definition digitOrDot (c : ascii) : bool := Str.isDigit c || Ascii.eqb c ".".
Definition decimals : regex := plus (Chr false digitOrDot).        (* [\d.]+ *)
Definition hexLower (c : ascii) : bool := Str.isDigit c || inRange "a" "f" c.
Definition hexAny (c : ascii) : bool := hexLower c || inRange "A" "F" c.
Definition noneOf (s : string) : regex := Chr true (oneOf s).

(** *** The meaning of a pattern

    [matches fl r st st']: the pattern [r] can take the matcher from the
    position [st] to the position [st'].  [lang fl r s]: the string [s] is in
    the language of [r], the assertions [^], [$] and [\b] read as the empty
    string.  The matcher is sound for both (see [rmatch_sound]). *)

Inductive matches (fl : flags) : regex -> mstate -> mstate -> Prop :=
| M_Eps st : matches fl Eps st st
| M_Chr inv p st c t :
    rest st = String c t -> classAccepts fl inv p c = true ->
    matches fl (Chr inv p) st {| prev := Some c; pos := S (pos st); rest := t |}
| M_Seq r1 r2 st mid st' :
    matches fl r1 st mid -> matches fl r2 mid st' -> matches fl (Seq r1 r2) st st'
| M_AltL r1 r2 st st' : matches fl r1 st st' -> matches fl (Alt r1 r2) st st'
| M_AltR r1 r2 st st' : matches fl r2 st st' -> matches fl (Alt r1 r2) st st'
| M_Star0 g r st : matches fl (Star g r) st st
| M_StarS g r st mid st' :
    matches fl r st mid -> matches fl (Star g r) mid st' -> matches fl (Star g r) st st'
| M_Group n r st st' : matches fl r st st' -> matches fl (Group n r) st st'
| M_Bol st : atBol fl st = true -> matches fl Bol st st
| M_Eol st : atEol fl st = true -> matches fl Eol st st
| M_WordB st : atWordB st = true -> matches fl WordB st st.

Inductive lang (fl : flags) : regex -> string -> Prop :=
| L_Eps : lang fl Eps EmptyString
| L_Chr inv p c : classAccepts fl inv p c = true -> lang fl (Chr inv p) (String c EmptyString)
| L_Seq r1 r2 s1 s2 : lang fl r1 s1 -> lang fl r2 s2 -> lang fl (Seq r1 r2) (s1 ++ s2)
| L_AltL r1 r2 s : lang fl r1 s -> lang fl (Alt r1 r2) s
| L_AltR r1 r2 s : lang fl r2 s -> lang fl (Alt r1 r2) s
| L_Star0 g r : lang fl (Star g r) EmptyString
| L_StarS g r s1 s2 : lang fl r s1 -> lang fl (Star g r) s2 -> lang fl (Star g r) (s1 ++ s2)
| L_Group n r s : lang fl r s -> lang fl (Group n r) s
| L_Bol : lang fl Bol EmptyString
| L_Eol : lang fl Eol EmptyString
| L_WordB : lang fl WordB EmptyString.

(** [s] has a substring in the language of [r]. *)
Definition contains (fl : flags) (r : regex) (s : string) : Prop :=
  exists pre mid post, s = (pre ++ mid ++ post)%string /\ lang fl r mid.

(** Can [r] match the empty string; which code units can start a match;
    which code units can occur in a match. *)
Fixpoint nullable (r : regex) : bool :=
  match r with
  | Chr _ _ => false
  | Seq r1 r2 => nullable r1 && nullable r2
  | Alt r1 r2 => nullable r1 || nullable r2
  | Group _ r1 => nullable r1
  | _ => true
  end.

Fixpoint firstOf (fl : flags) (r : regex) (c : ascii) : bool :=
  match r with
  | Chr inv p => classAccepts fl inv p c
  | Seq r1 r2 => firstOf fl r1 c || (nullable r1 && firstOf fl r2 c)
  | Alt r1 r2 => firstOf fl r1 c || firstOf fl r2 c
  | Star _ r1 => firstOf fl r1 c
  | Group _ r1 => firstOf fl r1 c
  | _ => false
  end.

Fixpoint alphabet (fl : flags) (r : regex) (c : ascii) : bool :=
  match r with
  | Chr inv p => classAccepts fl inv p c
  | Seq r1 r2 => alphabet fl r1 c || alphabet fl r2 c
  | Alt r1 r2 => alphabet fl r1 c || alphabet fl r2 c
  | Star _ r1 => alphabet fl r1 c
  | Group _ r1 => alphabet fl r1 c
  | _ => false
  end.

(** The greatest length of a match, when the pattern has no star. *)
Fixpoint maxLen (r : regex) : option nat :=
  match r with
  | Chr _ _ => Some 1
  | Seq r1 r2 =>
      match maxLen r1, maxLen r2 with
      | Some a, Some b => Some (a + b)
      | _, _ => None
      end
  | Alt r1 r2 =>
      match maxLen r1, maxLen r2 with
      | Some a, Some b => Some (Nat.max a b)
      | _, _ => None
      end
  | Star _ _ => None
  | Group _ r1 => maxLen r1
  | _ => Some 0
  end.

(** The pattern begins with [^]; the pattern ends with [$]. *)
Fixpoint startsWithBol (r : regex) : bool :=
  match r with
  | Bol => true
  | Seq r1 _ => startsWithBol r1
  | Group _ r1 => startsWithBol r1
  | _ => false
  end.

Fixpoint endsWithEol (r : regex) : bool :=
  match r with
  | Eol => true
  | Seq _ r2 => endsWithEol r2
  | Group _ r1 => endsWithEol r1
  | _ => false
  end.

(** Every code unit of [s] satisfies [p]. *)
Fixpoint allChars (p : ascii -> bool) (s : string) : bool :=
  match s with
  | EmptyString => true
  | String c t => p c && allChars p t
  end.

End Regex.


(* ================================================================== *)
(** * types.ts: the data model shared by the components *)
(* ================================================================== *)

Inductive ColorFormat : Type :=
| hex | rgb | rgba | hsl | hsla | named | unknown.

Record Position := { line : nat; column : nat }.

Record Color := {
  value : string;
  format : ColorFormat;
  position : option Position;
  context : option string
}.

(* ================================================================== *)
(** * utils/colorConversion.ts *)
(* ================================================================== *)

Module colorConversion.
Import Regex.
Local Open Scope string_scope.
Local Open Scope float_scope.

(** [RgbColor]: fields r, g, b and the optional a. *)
Record RgbColor := {
  rgb_r : float;
  rgb_g : float;
  rgb_b : float;
  rgb_a : option float
}.

(** [HslColor]: fields h, s, l and the optional a. *)
Record HslColor := {
  hsl_h : float;
  hsl_s : float;
  hsl_l : float;
  hsl_a : option float
}.

(** [x % 2]: the remainder has the sign of [x] and is exact. *)
Definition rem2 (x : float) : float :=
  let m := abs x in
  let r := m - 2 * Num.floor (m / 2) in
  if get_sign x then - r else r.

Definition hslToRgb (c : HslColor) : RgbColor :=
  let h := hsl_h c in
  let s := hsl_s c in
  let l := hsl_l c in
  let hNorm := h / 360 in
  let sNorm := s / 100 in
  let lNorm := l / 100 in
  let c' := (1 - abs (2 * lNorm - 1)) * sNorm in
  let x := c' * (1 - abs (rem2 (hNorm * 6) - 1)) in
  let m := lNorm - c' / 2 in
  let '(r, g, b) :=
    if hNorm <? 1 / 6 then (c', x, 0)
    else if hNorm <? 2 / 6 then (x, c', 0)
    else if hNorm <? 3 / 6 then (0, c', x)
    else if hNorm <? 4 / 6 then (0, x, c')
    else if hNorm <? 5 / 6 then (x, 0, c')
    else (c', 0, x) in
  {| rgb_r := Num.Math_round ((r + m) * 255);
     rgb_g := Num.Math_round ((g + m) * 255);
     rgb_b := Num.Math_round ((b + m) * 255);
     rgb_a := hsl_a c |}.

Definition orZero (o : option ascii) : string :=
  match o with
  | Some c => String c EmptyString
  | None => "0"
  end.

Definition parseHex (hex : string) : option RgbColor :=
  let cleanHex := Str.removeFirst "#" hex in
  let twice i := orZero (Str.charAt cleanHex i) ++ orZero (Str.charAt cleanHex i) in
  if Nat.eqb (String.length cleanHex) 3 then
    Some {| rgb_r := Num.parseInt (twice 0%nat) 16;
            rgb_g := Num.parseInt (twice 1%nat) 16;
            rgb_b := Num.parseInt (twice 2%nat) 16;
            rgb_a := None |}
  else if Nat.eqb (String.length cleanHex) 6 then
    Some {| rgb_r := Num.parseInt (Str.substring cleanHex 0 2) 16;
            rgb_g := Num.parseInt (Str.substring cleanHex 2 4) 16;
            rgb_b := Num.parseInt (Str.substring cleanHex 4 6) 16;
            rgb_a := None |}
  else if Nat.eqb (String.length cleanHex) 8 then
    Some {| rgb_r := Num.parseInt (Str.substring cleanHex 0 2) 16;
            rgb_g := Num.parseInt (Str.substring cleanHex 2 4) 16;
            rgb_b := Num.parseInt (Str.substring cleanHex 4 6) 16;
            rgb_a := Some (Num.parseInt (Str.substring cleanHex 6 8) 16 / 255) |}
  else None.

(** /rgba?\s*\(\s*(\d+)\s*,\s*(\d+)\s*,\s*(\d+)(?:\s*,\s*([\d.]+))?\s*\)/ *)
Definition rgbPattern : regex :=
  seq [lit "rgb"; opt (ch "a"); spaces; ch "("; spaces; Group 1 digits; spaces;
       ch ","; spaces; Group 2 digits; spaces; ch ","; spaces; Group 3 digits;
       opt (seq [spaces; ch ","; spaces; Group 4 decimals]); spaces; ch ")"].

(** /hsla?\s*\(\s*(\d+)\s*,\s*(\d+)%\s*,\s*(\d+)%(?:\s*,\s*([\d.]+))?\s*\)/ *)
Definition hslPattern : regex :=
  seq [lit "hsl"; opt (ch "a"); spaces; ch "("; spaces; Group 1 digits; spaces;
       ch ","; spaces; Group 2 digits; ch "%"; spaces; ch ","; spaces;
       Group 3 digits; ch "%";
       opt (seq [spaces; ch ","; spaces; Group 4 decimals]); spaces; ch ")"].

(** [m[n] ?? '0'] *)
Definition groupOr0 (input : string) (m : rmatch_result) (n : nat) : string :=
  match group input m n with
  | Some s => s
  | None => "0"
  end.

(** [m[4] ? parseFloat(m[4]) : undefined] *)
Definition alphaOf (input : string) (m : rmatch_result) : option float :=
  match group input m 4 with
  | Some EmptyString => None
  | Some s => Some (Num.parseFloat s)
  | None => None
  end.

Definition parseRgb (s : string) : option RgbColor :=
  match exec noFlags rgbPattern s with
  | None => None
  | Some m =>
      Some {| rgb_r := Num.parseInt (groupOr0 s m 1) 10;
              rgb_g := Num.parseInt (groupOr0 s m 2) 10;
              rgb_b := Num.parseInt (groupOr0 s m 3) 10;
              rgb_a := alphaOf s m |}
  end.

Definition parseHsl (s : string) : option RgbColor :=
  match exec noFlags hslPattern s with
  | None => None
  | Some m =>
      Some (hslToRgb {| hsl_h := Num.parseInt (groupOr0 s m 1) 10;
                        hsl_s := Num.parseInt (groupOr0 s m 2) 10;
                        hsl_l := Num.parseInt (groupOr0 s m 3) 10;
                        hsl_a := alphaOf s m |})
  end.

Definition parseColor (colorValue : string) : option RgbColor :=
  let trimmed := Str.trim colorValue in
  if Str.startsWith trimmed "#" then parseHex trimmed
  else if Str.startsWith trimmed "rgb" then parseRgb trimmed
  else if Str.startsWith trimmed "hsl" then parseHsl trimmed
  else None.

(** [Math.round(n).toString(16).padStart(2, '0')] *)
Definition toHex (n : float) : string :=
  Str.padStart (Num.toString16 (Num.Math_round n)) 2 "0".

Definition rgbToHex (c : RgbColor) : string :=
  let hex := "#" ++ toHex (rgb_r c) ++ toHex (rgb_g c) ++ toHex (rgb_b c) in
  match rgb_a c with
  | Some a =>
      if a <? 1 then hex ++ Str.padStart (Num.toString16 (Num.Math_round (a * 255))) 2 "0"
      else hex
  | None => hex
  end.

(** [a === b] on numbers. *)
Definition strictEq (x y : float) : bool := x =? y.

Definition rgbToHsl (c : RgbColor) : HslColor :=
  let rNorm := rgb_r c / 255 in
  let gNorm := rgb_g c / 255 in
  let bNorm := rgb_b c / 255 in
  let max := Num.Math_max [rNorm; gNorm; bNorm] in
  let min := Num.Math_min [rNorm; gNorm; bNorm] in
  let diff := max - min in
  let l := (max + min) / 2 in
  let '(h, s) :=
    if negb (strictEq diff 0) then
      let s := if 0.5 <? l then diff / (2 - max - min) else diff / (max + min) in
      let h :=
        if strictEq max rNorm then
          ((gNorm - bNorm) / diff + (if gNorm <? bNorm then 6 else 0)) / 6
        else if strictEq max gNorm then ((bNorm - rNorm) / diff + 2) / 6
        else if strictEq max bNorm then ((rNorm - gNorm) / diff + 4) / 6
        else 0 in
      (h, s)
    else (0, 0) in
  {| hsl_h := Num.Math_round (h * 360);
     hsl_s := Num.Math_round (s * 100);
     hsl_l := Num.Math_round (l * 100);
     hsl_a := rgb_a c |}.

Definition rgbToRgbString (c : RgbColor) : string :=
  match rgb_a c with
  | Some a =>
      "rgba(" ++ Num.toString (rgb_r c) ++ ", " ++ Num.toString (rgb_g c) ++ ", "
      ++ Num.toString (rgb_b c) ++ ", " ++ Num.toString a ++ ")"
  | None =>
      "rgb(" ++ Num.toString (rgb_r c) ++ ", " ++ Num.toString (rgb_g c) ++ ", "
      ++ Num.toString (rgb_b c) ++ ")"
  end.

Definition rgbToHslString (c : RgbColor) : string :=
  let x := rgbToHsl c in
  match hsl_a x with
  | Some a =>
      "hsla(" ++ Num.toString (hsl_h x) ++ ", " ++ Num.toString (hsl_s x) ++ "%, "
      ++ Num.toString (hsl_l x) ++ "%, " ++ Num.toString a ++ ")"
  | None =>
      "hsl(" ++ Num.toString (hsl_h x) ++ ", " ++ Num.toString (hsl_s x) ++ "%, "
      ++ Num.toString (hsl_l x) ++ "%)"
  end.

Definition detectColorFormat (colorValue : string) : ColorFormat :=
  let trimmed := Str.trim colorValue in
  if Str.startsWith trimmed "#" then hex
  else if Str.startsWith trimmed "rgb(" then rgb
  else if Str.startsWith trimmed "rgba(" then rgba
  else if Str.startsWith trimmed "hsl(" then hsl
  else if Str.startsWith trimmed "hsla(" then hsla
  else unknown.

End colorConversion.

(* ================================================================== *)
(** * conversion/colorConverter.ts *)
(* ================================================================== *)

Module colorConverter.
Import Regex.
Local Open Scope string_scope.
Local Open Scope float_scope.

(** [ColorConversionOptions].  The target format is the string the caller
    passed; the four switches are [boolean | undefined]. *)
Record ColorConversionOptions := {
  targetFormat : string;
  preserveAlpha : option bool;
  roundValues : option bool;
  uppercase : option bool;
  shortHex : option bool
}.

(** Truthiness of a [boolean | undefined]. *)
Definition truthy (o : option bool) : bool :=
  match o with
  | Some true => true
  | _ => false
  end.

Record ColorConversionResult := {
  original : Color;
  converted : string;
  res_format : string;
  timestamp : float;
  success : bool;
  error : option string
}.

(** [ColorSpace]: fields r, g, b, a.  The channels are declared as numbers;
    the only values of this type without them are the members that the
    named-colour table inherits from [Object.prototype] (see
    [getNamedColorRGB]), so a channel is [None] when the property is absent. *)
Record ColorSpace := {
  cs_r : option float;
  cs_g : option float;
  cs_b : option float;
  cs_a : option float
}.

(** [HSLSpace]: fields h, s, l, a. *)
Record HSLSpace := {
  hs_h : float;
  hs_s : float;
  hs_l : float;
  hs_a : option float
}.

(** A property read in a numeric context: [undefined] becomes NaN. *)
Definition num (v : option float) : float :=
  match v with
  | Some x => x
  | None => nan
  end.

(** A property interpolated in a template literal. *)
Definition show (v : option float) : string :=
  match v with
  | Some x => Num.toString x
  | None => "undefined"
  end.

Definition mkRgb (r g b : float) : ColorSpace :=
  {| cs_r := Some r; cs_g := Some g; cs_b := Some b; cs_a := None |}.

(** Truthiness of a capture: a defined, non-empty string. *)
Definition captured (input : string) (m : rmatch_result) (n : nat) : option string :=
  match group input m n with
  | Some EmptyString => None
  | o => o
  end.

Fixpoint doubleChars (s : string) : string :=
  match s with
  | EmptyString => EmptyString
  | String c t => String c (String c (doubleChars t))
  end.

Definition parseHexToRGB (hex0 : string) : option ColorSpace :=
  let hex := if Nat.eqb (String.length hex0) 3 then doubleChars hex0 else hex0 in
  if Nat.eqb (String.length hex) 6 then
    Some {| cs_r := Some (Num.parseInt (Str.slice hex 0 2) 16);
            cs_g := Some (Num.parseInt (Str.slice hex 2 4) 16);
            cs_b := Some (Num.parseInt (Str.slice hex 4 6) 16);
            cs_a := None |}
  else if Nat.eqb (String.length hex) 8 then
    Some {| cs_r := Some (Num.parseInt (Str.slice hex 0 2) 16);
            cs_g := Some (Num.parseInt (Str.slice hex 2 4) 16);
            cs_b := Some (Num.parseInt (Str.slice hex 4 6) 16);
            cs_a := Some (Num.parseInt (Str.slice hex 6 8) 16 / 255) |}
  else None.

Definition hue2rgb (p q t0 : float) : float :=
  let t1 := if t0 <? 0 then t0 + 1 else t0 in
  let t := if 1 <? t1 then t1 - 1 else t1 in
  if t <? 1 / 6 then p + (q - p) * 6 * t
  else if t <? 1 / 2 then q
  else if t <? 2 / 3 then p + (q - p) * (2 / 3 - t) * 6
  else p.

Definition hslToRgb (h0 s0 l0 : float) : option ColorSpace :=
  let h := h0 / 360 in
  let s := s0 / 100 in
  let l := l0 / 100 in
  if s =? 0 then
    let v := Num.Math_round (l * 255) in Some (mkRgb v v v)
  else
    let q := if l <? 0.5 then l * (1 + s) else l + s - l * s in
    let p := 2 * l - q in
    Some (mkRgb (Num.Math_round (hue2rgb p q (h + 1 / 3) * 255))
                (Num.Math_round (hue2rgb p q h * 255))
                (Num.Math_round (hue2rgb p q (h - 1 / 3) * 255))).

(** The own properties of the [namedColors] object literal. *)
Definition namedColors : list (string * ColorSpace) :=
  [ ("black", mkRgb 0 0 0); ("white", mkRgb 255 255 255);
    ("red", mkRgb 255 0 0); ("green", mkRgb 0 128 0);
    ("blue", mkRgb 0 0 255); ("yellow", mkRgb 255 255 0);
    ("cyan", mkRgb 0 255 255); ("magenta", mkRgb 255 0 255);
    ("silver", mkRgb 192 192 192); ("gray", mkRgb 128 128 128);
    ("maroon", mkRgb 128 0 0); ("olive", mkRgb 128 128 0);
    ("lime", mkRgb 0 255 0); ("aqua", mkRgb 0 255 255);
    ("teal", mkRgb 0 128 128); ("navy", mkRgb 0 0 128);
    ("fuchsia", mkRgb 255 0 255); ("purple", mkRgb 128 0 128);
    ("transparent",
     {| cs_r := Some 0; cs_g := Some 0; cs_b := Some 0; cs_a := Some 0 |}) ].

Fixpoint assoc {A : Type} (key : string) (table : list (string * A)) : option A :=
  match table with
  | [] => None
  | (k, v) :: t => if String.eqb k key then Some v else assoc key t
  end.

(** The lower-case property names that an object literal inherits from
    [Object.prototype]; they name objects without r, g, b or a. *)
Definition inheritedKeys : list string := ["constructor"; "__proto__"].

Definition inheritedObject : ColorSpace :=
  {| cs_r := None; cs_g := None; cs_b := None; cs_a := None |}.

(** [namedColors[colorName.toLowerCase()] || null]: a property lookup, own
    properties first. *)
Definition getNamedColorRGB (colorName : string) : option ColorSpace :=
  let key := Str.toLowerCase colorName in
  match assoc key namedColors with
  | Some c => Some c
  | None => if Str.mem key inheritedKeys then Some inheritedObject else None
  end.

(** /^#([0-9a-f]{3,8})$/i *)
Definition hexPattern : regex :=
  seq [Bol; ch "#"; Group 1 (repRange 3 8 (Chr false hexLower)); Eol].

(** /^rgb\(\s*(\d+)\s*,\s*(\d+)\s*,\s*(\d+)\s*\)$/ *)
Definition rgbPattern : regex :=
  seq [Bol; lit "rgb("; spaces; Group 1 digits; spaces; ch ","; spaces;
       Group 2 digits; spaces; ch ","; spaces; Group 3 digits; spaces; ch ")"; Eol].

(** /^rgba\(\s*(\d+)\s*,\s*(\d+)\s*,\s*(\d+)\s*,\s*([\d.]+)\s*\)$/ *)
Definition rgbaPattern : regex :=
  seq [Bol; lit "rgba("; spaces; Group 1 digits; spaces; ch ","; spaces;
       Group 2 digits; spaces; ch ","; spaces; Group 3 digits; spaces; ch ",";
       spaces; Group 4 decimals; spaces; ch ")"; Eol].

(** /^hsl\(\s*(\d+)\s*,\s*(\d+)%\s*,\s*(\d+)%\s*\)$/ *)
Definition hslPattern : regex :=
  seq [Bol; lit "hsl("; spaces; Group 1 digits; spaces; ch ","; spaces;
       Group 2 digits; ch "%"; spaces; ch ","; spaces; Group 3 digits; ch "%";
       spaces; ch ")"; Eol].

(** /^hsla\(\s*(\d+)\s*,\s*(\d+)%\s*,\s*(\d+)%\s*,\s*([\d.]+)\s*\)$/ *)
Definition hslaPattern : regex :=
  seq [Bol; lit "hsla("; spaces; Group 1 digits; spaces; ch ","; spaces;
       Group 2 digits; ch "%"; spaces; ch ","; spaces; Group 3 digits; ch "%";
       spaces; ch ","; spaces; Group 4 decimals; spaces; ch ")"; Eol].

(** The captures 1..3 (and 4) of a match when all of them are truthy. *)
Definition captures3 (input : string) (m : option rmatch_result)
  : option (string * string * string) :=
  match m with
  | None => None
  | Some x =>
      match captured input x 1, captured input x 2, captured input x 3 with
      | Some a, Some b, Some c => Some (a, b, c)
      | _, _, _ => None
      end
  end.

Definition captures4 (input : string) (m : option rmatch_result)
  : option (string * string * string * string) :=
  match captures3 input m, m with
  | Some (a, b, c), Some x =>
      match captured input x 4 with
      | Some d => Some (a, b, c, d)
      | None => None
      end
  | _, _ => None
  end.

Definition hexCapture (input : string) : option string :=
  match exec flag_i hexPattern input with
  | Some m => captured input m 1
  | None => None
  end.

Definition parseColorToRGB (colorString : string) : option ColorSpace :=
  let color := Str.toLowerCase (Str.trim colorString) in
  match hexCapture color with
  | Some h => parseHexToRGB h
  | None =>
  match captures3 color (exec noFlags rgbPattern color) with
  | Some (r, g, b) =>
      Some (mkRgb (Num.parseInt r 10) (Num.parseInt g 10) (Num.parseInt b 10))
  | None =>
  match captures4 color (exec noFlags rgbaPattern color) with
  | Some (r, g, b, a) =>
      Some {| cs_r := Some (Num.parseInt r 10);
              cs_g := Some (Num.parseInt g 10);
              cs_b := Some (Num.parseInt b 10);
              cs_a := Some (Num.parseFloat a) |}
  | None =>
  match captures3 color (exec noFlags hslPattern color) with
  | Some (h, s, l) =>
      hslToRgb (Num.parseInt h 10) (Num.parseInt s 10) (Num.parseInt l 10)
  | None =>
  match captures4 color (exec noFlags hslaPattern color) with
  | Some (h, s, l, a) =>
      match hslToRgb (Num.parseInt h 10) (Num.parseInt s 10) (Num.parseInt l 10) with
      | Some c => Some {| cs_r := cs_r c; cs_g := cs_g c; cs_b := cs_b c;
                          cs_a := Some (Num.parseFloat a) |}
      | None => None
      end
  | None => getNamedColorRGB color
  end end end end end.

(** The local [toHex] of [rgbToHex]. *)
Definition toHex (v : float) : string :=
  let s := Num.toString16 (Num.Math_round (Num.Math_max [0; Num.Math_min [255; v]])) in
  if Nat.eqb (String.length s) 1 then "0" ++ s else s.

Definition sameChars (s : string) : bool :=
  match Str.charAt s 0, Str.charAt s 1 with
  | Some x, Some y => Ascii.eqb x y
  | None, None => true
  | _, _ => false
  end.

Definition rgbToHex (c : ColorSpace) (options : ColorConversionOptions) : string :=
  let hex0 := "#" ++ toHex (num (cs_r c)) ++ toHex (num (cs_g c)) ++ toHex (num (cs_b c)) in
  let hex1 :=
    match cs_a c with
    | Some a => if truthy (preserveAlpha options) then hex0 ++ toHex (a * 255) else hex0
    | None => hex0
    end in
  let hex2 :=
    if truthy (shortHex options) && Nat.eqb (String.length hex1) 7 then
      let r := Str.slice hex1 1 3 in
      let g := Str.slice hex1 3 5 in
      let b := Str.slice hex1 5 7 in
      if sameChars r && sameChars g && sameChars b
      then "#" ++ Str.take 1 r ++ Str.take 1 g ++ Str.take 1 b
      else hex1
    else hex1 in
  if truthy (uppercase options) then Str.toUpperCase hex2 else hex2.

(** [options.roundValues ? Math.round(v) : v] *)
Definition rounded (options : ColorConversionOptions) (v : option float) : option float :=
  if truthy (roundValues options) then Some (Num.Math_round (num v)) else v.

Definition rgbToRgbString (c : ColorSpace) (options : ColorConversionOptions) : string :=
  "rgb(" ++ show (rounded options (cs_r c)) ++ ", " ++ show (rounded options (cs_g c))
  ++ ", " ++ show (rounded options (cs_b c)) ++ ")".

Definition alphaOr1 (c : ColorSpace) : float :=
  match cs_a c with
  | Some a => a
  | None => 1
  end.

Definition rgbToRgbaString (c : ColorSpace) (options : ColorConversionOptions) : string :=
  "rgba(" ++ show (rounded options (cs_r c)) ++ ", " ++ show (rounded options (cs_g c))
  ++ ", " ++ show (rounded options (cs_b c)) ++ ", " ++ Num.toString (alphaOr1 c) ++ ")".

Definition rgbToHsl (c : ColorSpace) : HSLSpace :=
  let r := num (cs_r c) / 255 in
  let g := num (cs_g c) / 255 in
  let b := num (cs_b c) / 255 in
  let max := Num.Math_max [r; g; b] in
  let min := Num.Math_min [r; g; b] in
  let diff := max - min in
  let l := (max + min) / 2 in
  let '(h, s) :=
    if negb (diff =? 0) then
      let s := if 0.5 <? l then diff / (2 - max - min) else diff / (max + min) in
      let h :=
        if max =? r then (g - b) / diff + (if g <? b then 6 else 0)
        else if max =? g then (b - r) / diff + 2
        else if max =? b then (r - g) / diff + 4
        else 0 in
      (h / 6, s)
    else (0, 0) in
  {| hs_h := Num.Math_round (h * 360);
     hs_s := Num.Math_round (s * 100);
     hs_l := Num.Math_round (l * 100);
     hs_a := cs_a c |}.

Definition roundedNum (options : ColorConversionOptions) (v : float) : float :=
  if truthy (roundValues options) then Num.Math_round v else v.

Definition rgbToHslString (c : ColorSpace) (options : ColorConversionOptions) : string :=
  let x := rgbToHsl c in
  "hsl(" ++ Num.toString (roundedNum options (hs_h x)) ++ ", "
  ++ Num.toString (roundedNum options (hs_s x)) ++ "%, "
  ++ Num.toString (roundedNum options (hs_l x)) ++ "%)".

Definition rgbToHslaString (c : ColorSpace) (options : ColorConversionOptions) : string :=
  let x := rgbToHsl c in
  "hsla(" ++ Num.toString (roundedNum options (hs_h x)) ++ ", "
  ++ Num.toString (roundedNum options (hs_s x)) ++ "%, "
  ++ Num.toString (roundedNum options (hs_l x)) ++ "%, "
  ++ Num.toString (alphaOr1 c) ++ ")".

Definition rgbToOklchString (c : ColorSpace) (options : ColorConversionOptions) : string :=
  let x := rgbToHsl c in
  let l := hs_l x / 100 in
  let c' := (hs_s x / 100) * 0.4 in
  let h := hs_h x in
  let lVal := if truthy (roundValues options) then Num.Math_round (l * 100) / 100 else l in
  let cVal := if truthy (roundValues options) then Num.Math_round (c' * 100) / 100 else c' in
  let hVal := if truthy (roundValues options) then Num.Math_round h else h in
  "oklch(" ++ Num.toString lVal ++ " " ++ Num.toString cVal ++ " " ++ Num.toString hVal ++ ")".

(** The outcome of a block of statements: a value, or an [Error] thrown with
    a message (the only values the sources throw). *)
Inductive completion (A : Type) : Type :=
| Normal (a : A)
| Throw (message : string).
Arguments Normal {A} a.
Arguments Throw {A} message.

(** The [switch] on the target format; its default arm throws. *)
Definition serialize (c : ColorSpace) (options : ColorConversionOptions) : completion string :=
  let t := targetFormat options in
  if String.eqb t "hex" then Normal (rgbToHex c options)
  else if String.eqb t "rgb" then Normal (rgbToRgbString c options)
  else if String.eqb t "rgba" then Normal (rgbToRgbaString c options)
  else if String.eqb t "hsl" then Normal (rgbToHslString c options)
  else if String.eqb t "hsla" then Normal (rgbToHslaString c options)
  else if String.eqb t "oklch" then Normal (rgbToOklchString c options)
  else Throw ("Unsupported target format: " ++ t).

(** The body of the [try] of [convertColor]; [now] is what [Date.now()]
    returns during the call. *)
Definition convertColor_try (now : float) (color : Color) (options : ColorConversionOptions)
  : completion ColorConversionResult :=
  match parseColorToRGB (value color) with
  | None =>
      Normal {| original := color;
                converted := value color;
                res_format := targetFormat options;
                timestamp := now;
                success := false;
                error := Some ("Unable to parse color: " ++ value color) |}
  | Some c =>
      match serialize c options with
      | Throw msg => Throw msg
      | Normal converted =>
          Normal {| original := color;
                    converted := converted;
                    res_format := targetFormat options;
                    timestamp := now;
                    success := true;
                    error := None |}
      end
  end.

(** [convertColor]: the [try] with its [catch]. *)
Definition convertColor (now : float) (color : Color) (options : ColorConversionOptions)
  : completion ColorConversionResult :=
  match convertColor_try now color options with
  | Normal r => Normal r
  | Throw msg =>
      Normal {| original := color;
                converted := value color;
                res_format := targetFormat options;
                timestamp := now;
                success := false;
                error := Some msg |}
  end.

(** [convertColors] *)
Definition convertColors (now : float) (colors : list Color) (options : ColorConversionOptions)
  : list (completion ColorConversionResult) :=
  List.map (fun color => convertColor now color options) colors.

Definition getAvailableFormats : list string :=
  ["hex"; "rgb"; "rgba"; "hsl"; "hsla"; "oklch"].

(** The patterns of [validateColorFormat], all with the [i] flag:
    /^#[0-9a-f]{3,8}$/i,
    /^rgb\(\s*\d+\s*,\s*\d+\s*,\s*\d+\s*\)$/i,
    /^rgba\(\s*\d+\s*,\s*\d+\s*,\s*\d+\s*,\s*[\d.]+\s*\)$/i,
    /^hsl\(\s*\d+\s*,\s*\d+%\s*,\s*\d+%\s*\)$/i,
    /^hsla\(\s*\d+\s*,\s*\d+%\s*,\s*\d+%\s*,\s*[\d.]+\s*\)$/i *)
Definition formatHex : regex :=
  seq [Bol; ch "#"; repRange 3 8 (Chr false hexLower); Eol].
Definition formatRgb : regex :=
  seq [Bol; lit "rgb("; spaces; digits; spaces; ch ","; spaces; digits; spaces;
       ch ","; spaces; digits; spaces; ch ")"; Eol].
Definition formatRgba : regex :=
  seq [Bol; lit "rgba("; spaces; digits; spaces; ch ","; spaces; digits; spaces;
       ch ","; spaces; digits; spaces; ch ","; spaces; decimals; spaces; ch ")"; Eol].
Definition formatHsl : regex :=
  seq [Bol; lit "hsl("; spaces; digits; spaces; ch ","; spaces; digits; ch "%";
       spaces; ch ","; spaces; digits; ch "%"; spaces; ch ")"; Eol].
Definition formatHsla : regex :=
  seq [Bol; lit "hsla("; spaces; digits; spaces; ch ","; spaces; digits; ch "%";
       spaces; ch ","; spaces; digits; ch "%"; spaces; ch ","; spaces; decimals;
       spaces; ch ")"; Eol].

Definition validateColorFormat (color format : string) : bool :=
  match parseColorToRGB color with
  | None => false
  | Some _ =>
      if String.eqb format "hex" then test flag_i formatHex color
      else if String.eqb format "rgb" then test flag_i formatRgb color
      else if String.eqb format "rgba" then test flag_i formatRgba color
      else if String.eqb format "hsl" then test flag_i formatHsl color
      else if String.eqb format "hsla" then test flag_i formatHsla color
      else false
  end.

End colorConverter.

(* ================================================================== *)
(** * extraction/formats: the extractors *)
(* ================================================================== *)

(** What the extractors share: the token patterns that css.ts, html.ts,
    javascript.ts and svg.ts each declare with the same text, the iteration
    over the lines with their index, and the [Map] that removes duplicates. *)
Module extraction.
Import Regex.
Local Open Scope string_scope.

(** /#([0-9a-fA-F]{3}|[0-9a-fA-F]{6}|[0-9a-fA-F]{8})\b/g *)
Definition HEX_PATTERN : regex :=
  seq [ch "#";
       Group 1 (alt [rep 3 (Chr false hexAny); rep 6 (Chr false hexAny);
                     rep 8 (Chr false hexAny)]);
       WordB].

(** /rgb\s*\(\s*(\d+)\s*,\s*(\d+)\s*,\s*(\d+)\s*\)/g *)
Definition RGB_PATTERN : regex :=
  seq [lit "rgb"; spaces; ch "("; spaces; Group 1 digits; spaces; ch ","; spaces;
       Group 2 digits; spaces; ch ","; spaces; Group 3 digits; spaces; ch ")"].

(** /rgba\s*\(\s*(\d+)\s*,\s*(\d+)\s*,\s*(\d+)\s*,\s*([\d.]+)\s*\)/g *)
Definition RGBA_PATTERN : regex :=
  seq [lit "rgba"; spaces; ch "("; spaces; Group 1 digits; spaces; ch ","; spaces;
       Group 2 digits; spaces; ch ","; spaces; Group 3 digits; spaces; ch ",";
       spaces; Group 4 decimals; spaces; ch ")"].

(** /hsl\s*\(\s*(\d+)\s*,\s*(\d+)%\s*,\s*(\d+)%\s*\)/g *)
Definition HSL_PATTERN : regex :=
  seq [lit "hsl"; spaces; ch "("; spaces; Group 1 digits; spaces; ch ","; spaces;
       Group 2 digits; ch "%"; spaces; ch ","; spaces; Group 3 digits; ch "%";
       spaces; ch ")"].

(** /hsla\s*\(\s*(\d+)\s*,\s*(\d+)%\s*,\s*(\d+)%\s*,\s*([\d.]+)\s*\)/g *)
Definition HSLA_PATTERN : regex :=
  seq [lit "hsla"; spaces; ch "("; spaces; Group 1 digits; spaces; ch ","; spaces;
       Group 2 digits; ch "%"; spaces; ch ","; spaces; Group 3 digits; ch "%";
       spaces; ch ","; spaces; Group 4 decimals; spaces; ch ")"].

(** The five token patterns, in the order the extractors run them. *)
Definition tokenPatterns : list regex :=
  [HEX_PATTERN; RGB_PATTERN; RGBA_PATTERN; HSL_PATTERN; HSLA_PATTERN].

(** [lines.forEach((line, lineIndex) => ...)] where the body pushes colors:
    the colors pushed, line after line. *)
Fixpoint forEachLine (body : string -> nat -> list Color) (lines : list string)
  (lineIndex : nat) : list Color :=
  match lines with
  | [] => []
  | l :: rest => body l lineIndex ++ forEachLine body rest (S lineIndex)
  end.

(** [`${c.value}-${c.position?.line ?? 0}`] *)
Definition dedupeKey (c : Color) : string :=
  value c ++ "-" ++
  Num.showNat 10 (Z.of_nat (match position c with Some p => line p | None => 0%nat end)).

(** [map.set(k, v)]: a key already present keeps its place and takes the new
    value. *)
Fixpoint mapSet {A : Type} (k : string) (v : A) (m : list (string * A)) : list (string * A) :=
  match m with
  | [] => [(k, v)]
  | (k', v') :: t => if String.eqb k' k then (k, v) :: t else (k', v') :: mapSet k v t
  end.

(** [Array.from(new Map(colors.map((c) => [key(c), c])).values())] *)
Definition dedupe (colors : list Color) : list Color :=
  List.map snd (fold_left (fun m c => mapSet (dedupeKey c) c m) colors []).

End extraction.

(** ** extraction/formats/css.ts *)

Module css.
Import Regex extraction.
Local Open Scope string_scope.

Definition isInComment (line : string) (index : nat) : bool :=
  let before := Str.substring line 0 index in
  let commentStart := Str.lastIndexOf before "/*" in
  let commentEnd := Str.lastIndexOf before "*/" in
  (commentEnd <? commentStart)%Z.

Definition addColor (line : string) (lineIndex : nat) (value : string) (index : nat)
  : list Color :=
  if isInComment line index then []
  else [ {| value := value;
            format := colorConversion.detectColorFormat value;
            position := Some {| line := lineIndex + 1; column := index + 1 |};
            context := Some (Str.trim line) |} ].

(** One [while ((match = P.exec(line)) !== null)] loop. *)
Definition scan (line : string) (lineIndex : nat) (p : regex) : list Color :=
  flat_map (fun m => addColor line lineIndex (matched line m) (m_index m))
           (execAll noFlags p line).

Definition extractLine (line : string) (lineIndex : nat) : list Color :=
  flat_map (scan line lineIndex) tokenPatterns.

Definition extractFromCss (content : string) : list Color :=
  forEachLine extractLine (Str.split "010" content) 0.

End css.

(** ** extraction/formats/javascript.ts *)

Module javascript.
Import Regex extraction.
Local Open Scope string_scope.

(** The three quote characters: single, double and back quote. *)
Definition quoteChars : string := String "'" (String "034" (String "`" EmptyString)).

(** /[Q]([^Q]*?)[Q]/g where Q stands for the three quote characters. *)
Definition STRING_COLOR_PATTERN : regex :=
  seq [Chr false (oneOf quoteChars); Group 1 (lazyStar (Chr true (oneOf quoteChars)));
       Chr false (oneOf quoteChars)].

Definition isValidColor (value : string) : bool :=
  match colorConversion.parseColor value with
  | Some _ => true
  | None => false
  end.

Definition styleKeywords : list string :=
  ["color:"; "background:"; "border:"; "box-shadow:"; "text-shadow:"; "fill:";
   "stroke:"; "theme:"; "palette:"; "style:"; "styles:"; "colors:";
   "backgroundColor:"; "borderColor:"; "textColor:"; "fillColor:"; "strokeColor:";
   "colorScheme:"; "css:"; "styled"; "theme"].

(** /css`/, /styled\./, /createStyles/, /makeStyles/, /useStyles/, /emotion/,
    /styled-components/, /theme\./, /colors\./ *)
Definition cssInJsPatterns : list regex :=
  [lit "css`"; lit "styled."; lit "createStyles"; lit "makeStyles"; lit "useStyles";
   lit "emotion"; lit "styled-components"; lit "theme."; lit "colors."].

(** /{[^}]*$/ *)
Definition objectPattern : regex := seq [ch "{"; star (noneOf "}"); Eol].

(** /(color|background|border|fill|stroke|theme|palette|style|colors)\s*:/ *)
Definition stylePropertyPattern : regex :=
  seq [Group 1 (alt [lit "color"; lit "background"; lit "border"; lit "fill";
                     lit "stroke"; lit "theme"; lit "palette"; lit "style";
                     lit "colors"]);
       spaces; ch ":"].

(** /(const|let|var)\s+(color|style|theme|palette|css)\w*\s*=/ *)
Definition styleVarPattern : regex :=
  seq [Group 1 (alt [lit "const"; lit "let"; lit "var"]); plus space;
       Group 2 (alt [lit "color"; lit "style"; lit "theme"; lit "palette"; lit "css"]);
       star (Chr false Str.isWordChar); spaces; ch "="].

(** /(theme|colors|palette|style)\s*[.:]/ *)
Definition themeContextPattern : regex :=
  seq [Group 1 (alt [lit "theme"; lit "colors"; lit "palette"; lit "style"]);
       spaces; Chr false (oneOf ".:")].

(** The evidence of a style context that a line can carry; the last three
    disjuncts are the object, variable and theme patterns. *)
Definition hasStyleKeyword (line : string) : bool :=
  existsb (fun keyword => Str.includes (Str.toLowerCase line) (Str.toLowerCase keyword))
          styleKeywords.

Definition hasCssInJs (line : string) : bool :=
  existsb (fun pattern => test noFlags pattern line) cssInJsPatterns.

Definition isStyleContext (line : string) (matchIndex : nat) : bool :=
  let trimmedLine := Str.trim line in
  let beforeMatch := Str.substring line 0 matchIndex in
  if Str.includes beforeMatch "//" then false
  else if (Str.lastIndexOf beforeMatch "*/" <? Str.lastIndexOf beforeMatch "/*")%Z then false
  else if Str.startsWith trimmedLine "//" || Str.startsWith trimmedLine "/*"
          || Str.startsWith trimmedLine "*" then false
  else if hasStyleKeyword line then true
  else if hasCssInJs line then true
  else if test noFlags objectPattern (Str.substring line 0 matchIndex)
          && test noFlags stylePropertyPattern line then true
  else if test noFlags styleVarPattern line then true
  else if test noFlags themeContextPattern line then true
  else false.

Definition push (line : string) (lineIndex : nat) (value : string) (index : nat) : Color :=
  {| value := value;
     format := colorConversion.detectColorFormat value;
     position := Some {| line := lineIndex + 1; column := index + 1 |};
     context := Some (Str.trim line) |}.

(** One loop over the matches of a token pattern. *)
Definition scan (line : string) (lineIndex : nat) (p : regex) : list Color :=
  flat_map (fun m =>
              if isStyleContext line (m_index m)
              then [push line lineIndex (matched line m) (m_index m)]
              else [])
           (execAll noFlags p line).

(** The loop over the string literals of the line. *)
Definition scanStrings (line : string) (lineIndex : nat) : list Color :=
  flat_map (fun m =>
              match group line m 1 with
              | Some (String c t as stringValue) =>
                  if isValidColor stringValue && isStyleContext line (m_index m)
                  then [push line lineIndex stringValue (m_index m)]
                  else []
              | _ => []
              end)
           (execAll noFlags STRING_COLOR_PATTERN line).

Definition extractLine (line : string) (lineIndex : nat) : list Color :=
  flat_map (scan line lineIndex) tokenPatterns ++ scanStrings line lineIndex.

(** The colors pushed, before the duplicates are removed. *)
Definition collect (content : string) : list Color :=
  forEachLine extractLine (Str.split "010" content) 0.

Definition extractFromJavaScript (content : string) : list Color :=
  dedupe (collect content).

End javascript.

(** ** extraction/formats/html.ts *)

Module html.
Import Regex extraction.
Local Open Scope string_scope.

(** The two quote characters of an attribute value: double and single. *)
Definition attrQuotes : string := String "034" (String "'" EmptyString).

(** /style\s*=\s*[Q]([^Q]+)[Q]/gi where Q stands for the two quote characters. *)
Definition styleAttribute : regex :=
  seq [lit "style"; spaces; ch "="; spaces; Chr false (oneOf attrQuotes);
       Group 1 (plus (Chr true (oneOf attrQuotes))); Chr false (oneOf attrQuotes)].

(** /[Q]([^Q]+)[Q]/ *)
Definition quotedValue : regex :=
  seq [Chr false (oneOf attrQuotes); Group 1 (plus (Chr true (oneOf attrQuotes)));
       Chr false (oneOf attrQuotes)].

(** /style\s*=\s*[Q][^Q]*$/ *)
Definition styleAttrPattern : regex :=
  seq [lit "style"; spaces; ch "="; spaces; Chr false (oneOf attrQuotes);
       star (Chr true (oneOf attrQuotes)); Eol].

(** /<style[^>]*>/ *)
Definition styleTagPattern : regex := seq [lit "<style"; star (noneOf ">"); ch ">"].

(** /(color|background|border|fill|stroke|box-shadow|text-shadow)\s*:\s*[^;]*$/ *)
Definition cssPropertyPattern : regex :=
  seq [Group 1 (alt [lit "color"; lit "background"; lit "border"; lit "fill";
                     lit "stroke"; lit "box-shadow"; lit "text-shadow"]);
       spaces; ch ":"; spaces; star (noneOf ";"); Eol].

(** The five loops of [extractColorsFromStyleContent]: the colors it pushes. *)
Definition extractColorsFromStyleContent (styleContent : string) (lineNumber : nat)
  (context : string) : list Color :=
  flat_map (fun p =>
              List.map (fun m =>
                          {| value := matched styleContent m;
                             format := colorConversion.detectColorFormat (matched styleContent m);
                             position := Some {| line := lineNumber; column := m_index m + 1 |};
                             context := Some context |})
                       (execAll noFlags p styleContent))
           tokenPatterns.

Definition isHtmlStyleContext (line : string) (matchIndex : nat) : bool :=
  let trimmedLine := Str.trim line in
  if Str.startsWith trimmedLine "<!--" || Str.includes trimmedLine "<!--" then false
  else
    let beforeMatch := Str.substring line 0 matchIndex in
    if test noFlags styleAttrPattern beforeMatch then true
    else if test noFlags styleTagPattern line then true
    else if test noFlags cssPropertyPattern beforeMatch then true
    else false.

(** The style attributes of the line: [line.match(/style.../gi)], and for each
    the content between the quotes when it is not empty. *)
Definition styleAttributes (line : string) (lineIndex : nat) : list Color :=
  flat_map (fun m =>
              let text := matched line m in
              match exec noFlags quotedValue text with
              | None => []
              | Some q =>
                  match group text q 1 with
                  | Some (String _ _ as styleContent) =>
                      extractColorsFromStyleContent styleContent (lineIndex + 1) (Str.trim line)
                  | _ => []
                  end
              end)
           (execAll flag_i styleAttribute line).

Definition styleTags (line : string) (lineIndex : nat) : list Color :=
  if Str.includes line "<style" || Str.includes line "</style>"
  then extractColorsFromStyleContent line (lineIndex + 1) (Str.trim line)
  else [].

Definition scan (line : string) (lineIndex : nat) (p : regex) : list Color :=
  flat_map (fun m =>
              if isHtmlStyleContext line (m_index m)
              then [ {| value := matched line m;
                        format := colorConversion.detectColorFormat (matched line m);
                        position := Some {| line := lineIndex + 1; column := m_index m + 1 |};
                        context := Some (Str.trim line) |} ]
              else [])
           (execAll noFlags p line).

Definition extractLine (line : string) (lineIndex : nat) : list Color :=
  if Str.startsWith (Str.trim line) "<!--" then []
  else styleAttributes line lineIndex ++ styleTags line lineIndex
       ++ flat_map (scan line lineIndex) tokenPatterns.

Definition extractFromHtml (content : string) : list Color :=
  dedupe (forEachLine extractLine (Str.split "010" content) 0).

End html.

(** ** extraction/formats/svg.ts *)

Module svg.
Import Regex extraction.
Local Open Scope string_scope.

(** /(?:fill|stroke|stop-color|flood-color|lighting-color|color)=[Q]([^Q]+)[Q]/gi
    where Q stands for the two quote characters. *)
Definition SVG_COLOR_ATTRIBUTES : regex :=
  seq [alt [lit "fill"; lit "stroke"; lit "stop-color"; lit "flood-color";
            lit "lighting-color"; lit "color"];
       ch "="; Chr false (oneOf html.attrQuotes);
       Group 1 (plus (Chr true (oneOf html.attrQuotes)));
       Chr false (oneOf html.attrQuotes)].

Definition namedColors : list string :=
  ["none"; "transparent"; "currentColor"; "black"; "white"; "red"; "green"; "blue";
   "yellow"; "cyan"; "magenta"; "gray"; "grey"; "orange"; "purple"; "pink"; "brown"].

(** /^#[0-9a-fA-F]{3,8}$/, /^rgb/ and /^hsl/ *)
Definition hexValue : regex := seq [Bol; ch "#"; repRange 3 8 (Chr false hexAny); Eol].

Definition isValidColor (value : string) : bool :=
  if test noFlags hexValue value then true
  else if Str.mem (Str.toLowerCase value) namedColors then true
  else test noFlags (seq [Bol; lit "rgb"]) value
       || test noFlags (seq [Bol; lit "hsl"]) value
       || Str.startsWith value "url("
       || Str.startsWith value "inherit".

Definition colorAttributes (line : string) (lineIndex : nat) : list Color :=
  flat_map (fun m =>
              match group line m 1 with
              | Some (String _ _ as colorValue) =>
                  if isValidColor colorValue then
                    [ {| value := colorValue;
                         format := colorConversion.detectColorFormat colorValue;
                         position := Some {| line := lineIndex + 1; column := m_index m + 1 |};
                         context := Some (Str.trim line) |} ]
                  else []
              | _ => []
              end)
           (execAll flag_i SVG_COLOR_ATTRIBUTES line).

Definition scan (line : string) (lineIndex : nat) (p : regex) : list Color :=
  List.map (fun m =>
              {| value := matched line m;
                 format := colorConversion.detectColorFormat (matched line m);
                 position := Some {| line := lineIndex + 1; column := m_index m + 1 |};
                 context := Some (Str.trim line) |})
           (execAll noFlags p line).

(** This file's own copy of [extractColorsFromStyleContent]. *)
Definition extractColorsFromStyleContent (styleContent : string) (lineNumber : nat)
  (context : string) : list Color :=
  flat_map (fun p =>
              List.map (fun m =>
                          {| value := matched styleContent m;
                             format := colorConversion.detectColorFormat (matched styleContent m);
                             position := Some {| line := lineNumber; column := m_index m + 1 |};
                             context := Some context |})
                       (execAll noFlags p styleContent))
           tokenPatterns.

Definition styleAttributes (line : string) (lineIndex : nat) : list Color :=
  flat_map (fun m =>
              let text := matched line m in
              match exec noFlags html.quotedValue text with
              | None => []
              | Some q =>
                  match group text q 1 with
                  | Some (String _ _ as styleContent) =>
                      extractColorsFromStyleContent styleContent (lineIndex + 1) (Str.trim line)
                  | _ => []
                  end
              end)
           (execAll flag_i html.styleAttribute line).

Definition styleTags (line : string) (lineIndex : nat) : list Color :=
  if Str.includes line "<style" || Str.includes line "</style>"
  then extractColorsFromStyleContent line (lineIndex + 1) (Str.trim line)
  else [].

(** The body of the [try]; no statement of it throws. *)
Definition extractLine (line : string) (lineIndex : nat) : list Color :=
  if Str.startsWith (Str.trim line) "<!--" then []
  else colorAttributes line lineIndex
       ++ styleAttributes line lineIndex ++ styleTags line lineIndex
       ++ flat_map (scan line lineIndex) tokenPatterns.

Definition extractFromSvg (content : string) : list Color :=
  dedupe (forEachLine extractLine (Str.split "010" content) 0).

End svg.

(** ** extraction/formats/stylus.ts *)

Module stylus.
Import Regex.
Local Open Scope string_scope.

Definition wordOrDash (c : ascii) : bool := Str.isWordChar c || Ascii.eqb c "-".
Definition hexClass : regex := Chr false hexLower.          (* [0-9a-f] *)
Definition inParens (name : string) : regex :=              (* name\([^)]+\) *)
  seq [lit name; ch "("; plus (noneOf ")"); ch ")"].

(** /(?:^|\s)([\w-]+|\$[\w-]+)\s*[=:]\s*(#[0-9a-f]{3,8}|rgb\([^)]+\)|rgba\([^)]+\)|hsl\([^)]+\)|hsla\([^)]+\)|[a-z]+)\s*$/gim *)
Definition variablePattern : regex :=
  seq [alt [Bol; space];
       Group 1 (alt [plus (Chr false wordOrDash);
                     seq [ch "$"; plus (Chr false wordOrDash)]]);
       spaces; Chr false (oneOf "=:"); spaces;
       Group 2 (alt [seq [ch "#"; repRange 3 8 hexClass];
                     inParens "rgb"; inParens "rgba"; inParens "hsl"; inParens "hsla";
                     plus (Chr false (inRange "a" "z"))]);
       spaces; Eol].

(** /(?:color|background|border|outline|box-shadow|text-shadow)\s*:?\s*([^;\n]+)/gi *)
Definition propertyPattern : regex :=
  seq [alt [lit "color"; lit "background"; lit "border"; lit "outline";
            lit "box-shadow"; lit "text-shadow"];
       spaces; opt (ch ":"); spaces;
       Group 1 (plus (Chr true (oneOf (String ";" (String "010" EmptyString)))))].

(** /(?:lighten|darken|saturate|desaturate|adjust-hue|mix|rgba)\s*\(\s*([^,)]+)/gi *)
Definition functionPattern : regex :=
  seq [alt [lit "lighten"; lit "darken"; lit "saturate"; lit "desaturate";
            lit "adjust-hue"; lit "mix"; lit "rgba"];
       spaces; ch "("; spaces; Group 1 (plus (noneOf ",)"))].

(** /#[0-9a-f]{3,8}/gi *)
Definition hexAnywhere : regex := seq [ch "#"; repRange 3 8 hexClass].

(** /rgba?\s*\([^)]+\)/gi and /hsla?\s*\([^)]+\)/gi *)
Definition rgbFunction : regex :=
  seq [lit "rgb"; opt (ch "a"); spaces; ch "("; plus (noneOf ")"); ch ")"].
Definition hslFunction : regex :=
  seq [lit "hsl"; opt (ch "a"); spaces; ch "("; plus (noneOf ")"); ch ")"].

(** The patterns with their flags ([g] is the loop). *)
Definition patterns : list (flags * regex) :=
  [ (flag_im, variablePattern); (flag_i, propertyPattern); (flag_i, functionPattern);
    (flag_i, hexAnywhere); (flag_i, rgbFunction); (flag_i, hslFunction) ].

Definition namedColors : list string :=
  ["aliceblue"; "antiquewhite"; "aqua"; "aquamarine"; "azure"; "beige"; "bisque";
   "black"; "blanchedalmond"; "blue"; "blueviolet"; "brown"; "burlywood";
   "cadetblue"; "chartreuse"; "chocolate"; "coral"; "cornflowerblue"; "cornsilk";
   "crimson"; "cyan"; "darkblue"; "darkcyan"; "darkgoldenrod"; "darkgray";
   "darkgreen"; "darkkhaki"; "darkmagenta"; "darkolivegreen"; "darkorange";
   "darkorchid"; "darkred"; "darksalmon"; "darkseagreen"; "darkslateblue";
   "darkslategray"; "darkturquoise"; "darkviolet"; "deeppink"; "deepskyblue";
   "dimgray"; "dodgerblue"; "firebrick"; "floralwhite"; "forestgreen"; "fuchsia";
   "gainsboro"; "ghostwhite"; "gold"; "goldenrod"; "gray"; "green"; "greenyellow";
   "honeydew"; "hotpink"; "indianred"; "indigo"; "ivory"; "khaki"; "lavender";
   "lavenderblush"; "lawngreen"; "lemonchiffon"; "lightblue"; "lightcoral";
   "lightcyan"; "lightgoldenrodyellow"; "lightgray"; "lightgreen"; "lightpink";
   "lightsalmon"; "lightseagreen"; "lightskyblue"; "lightslategray";
   "lightsteelblue"; "lightyellow"; "lime"; "limegreen"; "linen"; "magenta";
   "maroon"; "mediumaquamarine"; "mediumblue"; "mediumorchid"; "mediumpurple";
   "mediumseagreen"; "mediumslateblue"; "mediumspringgreen"; "mediumturquoise";
   "mediumvioletred"; "midnightblue"; "mintcream"; "mistyrose"; "moccasin";
   "navajowhite"; "navy"; "oldlace"; "olive"; "olivedrab"; "orange"; "orangered";
   "orchid"; "palegoldenrod"; "palegreen"; "paleturquoise"; "palevioletred";
   "papayawhip"; "peachpuff"; "peru"; "pink"; "plum"; "powderblue"; "purple";
   "red"; "rosybrown"; "royalblue"; "saddlebrown"; "salmon"; "sandybrown";
   "seagreen"; "seashell"; "sienna"; "silver"; "skyblue"; "slateblue";
   "slategray"; "snow"; "springgreen"; "steelblue"; "tan"; "teal"; "thistle";
   "tomato"; "turquoise"; "violet"; "wheat"; "white"; "whitesmoke"; "yellow";
   "yellowgreen"; "transparent"].

Definition isNamedColor (value : string) : bool :=
  Str.mem (Str.toLowerCase value) namedColors.

(** /^(rgb|rgba|hsl|hsla)\(/ *)
Definition functionHead : regex :=
  seq [Bol; Group 1 (alt [lit "rgb"; lit "rgba"; lit "hsl"; lit "hsla"]); ch "("].

(** The five anchored patterns of [isValidColorValue], all with the [i] flag. *)
Definition colorPatterns : list regex :=
  [ seq [Bol; ch "#"; repRange 3 8 hexClass; Eol];
    seq [Bol; lit "rgb"; spaces; ch "("; spaces; digits; spaces; ch ","; spaces;
         digits; spaces; ch ","; spaces; digits; spaces; ch ")"; Eol];
    seq [Bol; lit "rgba"; spaces; ch "("; spaces; digits; spaces; ch ","; spaces;
         digits; spaces; ch ","; spaces; digits; spaces; ch ","; spaces; decimals;
         spaces; ch ")"; Eol];
    seq [Bol; lit "hsl"; spaces; ch "("; spaces; digits; spaces; ch ","; spaces;
         digits; ch "%"; spaces; ch ","; spaces; digits; ch "%"; spaces; ch ")"; Eol];
    seq [Bol; lit "hsla"; spaces; ch "("; spaces; digits; spaces; ch ","; spaces;
         digits; ch "%"; spaces; ch ","; spaces; digits; ch "%"; spaces; ch ",";
         spaces; decimals; spaces; ch ")"; Eol] ].

Definition isValidColorValue (value : string) : bool :=
  match value with
  | EmptyString => false
  | _ =>
      if Str.includes value "(" && negb (test noFlags functionHead value) then false
      else existsb (fun pattern => test flag_i pattern value) colorPatterns
           || isNamedColor value
  end.

Definition determineColorFormat (value : string) : ColorFormat :=
  if Str.startsWith value "#" then hex
  else if Str.startsWith value "rgb(" then rgb
  else if Str.startsWith value "rgba(" then rgba
  else if Str.startsWith value "hsl(" then hsl
  else if Str.startsWith value "hsla(" then hsla
  else if isNamedColor value then named
  else unknown.

Definition getContextType (line : string) : string :=
  if Str.includes line "=" || Str.includes line "$" then "variable"
  else if Str.includes line "()" || Str.includes line "(" then "function"
  else if Str.includes line ":" then "property"
  else "declaration".

(** [match[2] || match[1] || match[0]] *)
Definition matchedValue (line : string) (m : rmatch_result) : string :=
  match group line m 2 with
  | Some (String _ _ as v) => v
  | _ =>
      match group line m 1 with
      | Some (String _ _ as v) => v
      | _ => matched line m
      end
  end.

(** The body of the [while] loop for one match. *)
Definition visit (line : string) (lineIndex : nat) (m : rmatch_result) : list Color :=
  match matchedValue line m with
  | EmptyString => []
  | v =>
      let colorValue := Str.trim v in
      match colorValue with
      | EmptyString => []
      | _ =>
          if isValidColorValue colorValue then
            [ {| value := colorValue;
                 format := determineColorFormat colorValue;
                 position := Some {| line := lineIndex + 1; column := m_index m |};
                 context := Some ("Stylus " ++ getContextType line) |} ]
          else []
      end
  end.

Definition extractLine (line : string) (lineIndex : nat) : list Color :=
  match line with
  | EmptyString => []
  | _ => flat_map (fun fp => flat_map (visit line lineIndex)
                                      (execAll (fst fp) (snd fp) line))
                  patterns
  end.

Definition extractFromStylus (content : string) : list Color :=
  extraction.forEachLine extractLine (Str.split "010" content) 0.

End stylus.

(* ================================================================== *)
(** * The palette analyzer (analysis/colorAnalyzer.ts) *)
(* ================================================================== *)

Module analyzer.
Import Regex.
Local Open Scope string_scope.
Local Open Scope float_scope.

(** The [{h, s, l}] records of the analyzer. *)
Record HSL := { h : float; s : float; l : float }.

Inductive HarmonyType : Type :=
| monochromatic | analogous | complementary | triadic | tetradic
| split_complementary | none.

Record ColorHarmony := {
  harmony_type : HarmonyType;
  harmony_colors : list string;
  confidence : float;
  description : string
}.

Record FormatCount := {
  fc_format : ColorFormat;
  fc_count : nat;
  fc_percentage : float
}.

Record ColorCount := {
  cc_color : string;
  cc_count : nat;
  cc_percentage : float
}.

Record ColorStatistics := {
  total : nat;
  unique : nat;
  byFormat : list FormatCount;
  mostCommon : list ColorCount;
  dominantHue : option float;
  averageSaturation : option float;
  averageLightness : option float;
  contrastRatio : option float
}.

Record ColorCluster := {
  centroid : string;
  cluster_colors : list string;
  size : nat;
  variance : float;
  label : option string
}.

Inductive GapType : Type := gap_hue | gap_saturation | gap_lightness | gap_semantic.
Inductive Severity : Type := low | medium | high.

Record ColorGap := {
  gap_type : GapType;
  gap_description : string;
  missingColors : list string;
  severity : Severity;
  suggestions : list string
}.

Inductive Temperature : Type := warm | cool | neutral.
Inductive Mood : Type := vibrant | muted | pastel | dark | light.

Definition ofNat (n : nat) : float := Num.ofZ (Z.of_nat n).

(** [a-f\d] *)
Definition hexClass : regex := Chr false hexLower.

(** /^#([0-9a-f]{3}|[0-9a-f]{6})$/i *)
Definition hexPattern : regex :=
  seq [Bol; ch "#"; Group 1 (alt [rep 3 hexClass; rep 6 hexClass]); Eol].

(** /hsl\(\s*(\d+)\s*,\s*(\d+)%\s*,\s*(\d+)%\s*\)/i *)
Definition hslPattern : regex :=
  seq [lit "hsl("; spaces; Group 1 digits; spaces; ch ","; spaces; Group 2 digits;
       ch "%"; spaces; ch ","; spaces; Group 3 digits; ch "%"; spaces; ch ")"].

(** /^#?([a-f\d]{2})([a-f\d]{2})([a-f\d]{2})$/i *)
Definition hexChannels : regex :=
  seq [Bol; opt (ch "#"); Group 1 (rep 2 hexClass); Group 2 (rep 2 hexClass);
       Group 3 (rep 2 hexClass); Eol].

(** A capture that is defined and not the empty string. *)
Definition captured (input : string) (m : rmatch_result) (n : nat) : option string :=
  match group input m n with
  | Some EmptyString => None
  | o => o
  end.

Definition captures3 (input : string) (m : rmatch_result) : option (string * string * string) :=
  match captured input m 1, captured input m 2, captured input m 3 with
  | Some a, Some b, Some c => Some (a, b, c)
  | _, _, _ => None
  end.

Definition hexToHSL (hex : string) : option HSL :=
  match exec flag_i hexChannels hex with
  | None => None
  | Some result =>
      match captures3 hex result with
      | None => None
      | Some (c1, c2, c3) =>
          let r := Num.parseInt c1 16 / 255 in
          let g := Num.parseInt c2 16 / 255 in
          let b := Num.parseInt c3 16 / 255 in
          let max := Num.Math_max [r; g; b] in
          let min := Num.Math_min [r; g; b] in
          let l := (max + min) / 2 in
          let '(h, s) :=
            if max =? min then (0, 0)
            else
              let d := max - min in
              let s := if 0.5 <? l then d / (2 - max - min) else d / (max + min) in
              let h :=
                if max =? r then (g - b) / d + (if g <? b then 6 else 0)
                else if max =? g then (b - r) / d + 2
                else if max =? b then (r - g) / d + 4
                else 0 in
              (h / 6, s) in
          Some {| h := Num.Math_round (h * 360);
                  s := Num.Math_round (s * 100);
                  l := Num.Math_round (l * 100) |}
      end
  end.

Definition parseColorToHSL (color : string) : option HSL :=
  match exec flag_i hexPattern color with
  | Some _ => hexToHSL color
  | None =>
      match exec flag_i hslPattern color with
      | None => None
      | Some m =>
          match captures3 color m with
          | Some (c1, c2, c3) =>
              Some {| h := Num.parseInt c1 10;
                      s := Num.parseInt c2 10;
                      l := Num.parseInt c3 10 |}
          | None => None
          end
      end
  end.

(** [xs.map(parseColorToHSL).filter((hsl) => hsl !== null)] *)
Fixpoint parseable (colors : list string) : list HSL :=
  match colors with
  | [] => []
  | c :: rest =>
      match parseColorToHSL c with
      | Some x => x :: parseable rest
      | None => parseable rest
      end
  end.

(** [[...new Set(xs)]]: the distinct elements, in order of first occurrence. *)
Fixpoint uniq (seen : list string) (xs : list string) : list string :=
  match xs with
  | [] => []
  | x :: rest => if Str.mem x seen then uniq seen rest else x :: uniq (x :: seen) rest
  end.

Definition unique_values (colors : list Color) : list string :=
  uniq [] (List.map (fun c => Str.toLowerCase (value c)) colors).

(** The counting loop over a [Map]: [m.set(k, (m.get(k) || 0) + 1)]. *)
Fixpoint bump {K : Type} (eqb : K -> K -> bool) (k : K) (m : list (K * nat)) : list (K * nat) :=
  match m with
  | [] => [(k, 1%nat)]
  | (k', n) :: t => if eqb k' k then (k', S n) :: t else (k', n) :: bump eqb k t
  end.

Definition countAll {K : Type} (eqb : K -> K -> bool) (ks : list K) : list (K * nat) :=
  fold_left (fun m k => bump eqb k m) ks [].

Definition formatEqb (a b : ColorFormat) : bool :=
  match a, b with
  | hex, hex | rgb, rgb | rgba, rgba | hsl, hsl | hsla, hsla
  | named, named | unknown, unknown => true
  | _, _ => false
  end.

(** [xs.sort((a, b) => b.count - a.count)]: the sort is stable, so an entry
    goes after the entries whose count is not smaller. *)
Fixpoint insertDesc {A : Type} (count : A -> nat) (x : A) (sorted : list A) : list A :=
  match sorted with
  | [] => [x]
  | y :: t => if (count y <? count x)%nat then x :: y :: t else y :: insertDesc count x t
  end.

Definition sortDesc {A : Type} (count : A -> nat) (xs : list A) : list A :=
  fold_left (fun acc x => insertDesc count x acc) xs [].

(** [xs.reduce((sum, x) => sum + f(x), 0) / xs.length] *)
Definition average (f : HSL -> float) (xs : list HSL) : float :=
  fold_left (fun sum x => sum + f x) xs 0 / ofNat (List.length xs).

Definition averageOpt (f : HSL -> float) (xs : list HSL) : option float :=
  match xs with
  | [] => None
  | _ => Some (average f xs)
  end.

Definition calculateColorStatistics (colors : list Color) : ColorStatistics :=
  match colors with
  | [] =>
      {| total := 0; unique := 0; byFormat := []; mostCommon := [];
         dominantHue := None; averageSaturation := None; averageLightness := None;
         contrastRatio := None |}
  | _ =>
      let n := List.length colors in
      let colorValues := List.map (fun c => Str.toLowerCase (value c)) colors in
      let uniqueColors := uniq [] colorValues in
      let byFormat :=
        sortDesc fc_count
          (List.map (fun e => {| fc_format := fst e; fc_count := snd e;
                                 fc_percentage := ofNat (snd e) / ofNat n * 100 |})
                    (countAll formatEqb (List.map format colors))) in
      let mostCommon :=
        firstn 10
          (sortDesc cc_count
             (List.map (fun e => {| cc_color := fst e; cc_count := snd e;
                                    cc_percentage := ofNat (snd e) / ofNat n * 100 |})
                       (countAll String.eqb colorValues))) in
      let hslValues := parseable (List.map value colors) in
      {| total := n;
         unique := List.length uniqueColors;
         byFormat := byFormat;
         mostCommon := mostCommon;
         dominantHue := averageOpt h hslValues;
         averageSaturation := averageOpt s hslValues;
         averageLightness := averageOpt l hslValues;
         contrastRatio := None |}
  end.

Definition detectColorHarmony (colors : list string) : ColorHarmony :=
  if (List.length colors <? 2)%nat then
    {| harmony_type := none; harmony_colors := colors; confidence := 0;
       description := "Insufficient colors for harmony analysis" |}
  else
    let hslColors := parseable colors in
    if (List.length hslColors <? 2)%nat then
      {| harmony_type := none; harmony_colors := colors; confidence := 0;
         description := "Unable to analyze color harmony" |}
    else
      let hues := List.map h hslColors in
      let hueRange := Num.Math_max hues - Num.Math_min hues in
      if hueRange <? 30 then
        {| harmony_type := monochromatic; harmony_colors := colors; confidence := 0.8;
           description :=
             "Monochromatic color scheme with variations in saturation and lightness" |}
      else
        let isComplementary :=
          match hues with
          | [h0; h1] => Num.Math_abs (Num.Math_abs (h0 - h1) - 180) <? 30
          | _ => false
          end in
        if isComplementary then
          {| harmony_type := complementary; harmony_colors := colors; confidence := 0.9;
             description := "Complementary color scheme with opposite hues" |}
        else
          {| harmony_type := none; harmony_colors := colors; confidence := 0.3;
             description := "No clear color harmony pattern detected" |}.

Definition determineTemperature (colors : list string) : Temperature :=
  let hslColors := parseable colors in
  match hslColors with
  | [] => neutral
  | _ =>
      let warmCount :=
        List.length (filter (fun x => ((0 <=? h x) && (h x <? 60))
                                      || ((300 <=? h x) && (h x <=? 360))) hslColors) in
      let coolCount :=
        List.length (filter (fun x => (180 <=? h x) && (h x <? 300)) hslColors) in
      if ofNat coolCount * 1.5 <? ofNat warmCount then warm
      else if ofNat warmCount * 1.5 <? ofNat coolCount then cool
      else neutral
  end.

Definition determineMood (colors : list string) : Mood :=
  let hslColors := parseable colors in
  match hslColors with
  | [] => muted
  | _ =>
      let avgSaturation := average s hslColors in
      let avgLightness := average l hslColors in
      if avgLightness <? 30 then dark
      else if 80 <? avgLightness then light
      else if (70 <? avgSaturation) && (50 <? avgLightness) then vibrant
      else if (40 <? avgSaturation) && (70 <? avgLightness) then pastel
      else muted
  end.

(** The patterns of [isValidColor], all with the [i] flag:
    /^#([0-9a-f]{3}|[0-9a-f]{6}|[0-9a-f]{8})$/i,
    /^rgb\(\s*\d+\s*,\s*\d+\s*,\s*\d+\s*\)$/i,
    /^rgba\(\s*\d+\s*,\s*\d+\s*,\s*\d+\s*,\s*[\d.]+\s*\)$/i,
    /^hsl\(\s*\d+\s*,\s*\d+%\s*,\s*\d+%\s*\)$/i,
    /^hsla\(\s*\d+\s*,\s*\d+%\s*,\s*\d+%\s*,\s*[\d.]+\s*\)$/i *)
Definition validHex : regex :=
  seq [Bol; ch "#"; Group 1 (alt [rep 3 hexClass; rep 6 hexClass; rep 8 hexClass]); Eol].
Definition validRgb : regex :=
  seq [Bol; lit "rgb("; spaces; digits; spaces; ch ","; spaces; digits; spaces;
       ch ","; spaces; digits; spaces; ch ")"; Eol].
Definition validRgba : regex :=
  seq [Bol; lit "rgba("; spaces; digits; spaces; ch ","; spaces; digits; spaces;
       ch ","; spaces; digits; spaces; ch ","; spaces; decimals; spaces; ch ")"; Eol].
Definition validHsl : regex :=
  seq [Bol; lit "hsl("; spaces; digits; spaces; ch ","; spaces; digits; ch "%";
       spaces; ch ","; spaces; digits; ch "%"; spaces; ch ")"; Eol].
Definition validHsla : regex :=
  seq [Bol; lit "hsla("; spaces; digits; spaces; ch ","; spaces; digits; ch "%";
       spaces; ch ","; spaces; digits; ch "%"; spaces; ch ","; spaces; decimals;
       spaces; ch ")"; Eol].

Definition isValidColor (color : string) : bool :=
  existsb (fun pattern => test flag_i pattern color)
          [validHex; validRgb; validRgba; validHsl; validHsla].

(** [hues.reduce(...)] of [calculateHueVariance]; [x ** 2] is the product
    [x * x]. *)
Definition calculateHueVariance (hues : list float) : float :=
  if (List.length hues <=? 1)%nat then 0
  else
    let n := ofNat (List.length hues) in
    let mean := fold_left (fun sum x => sum + x) hues 0 / n in
    fold_left (fun sum x => sum + (x - mean) * (x - mean)) hues 0 / n.

Definition hueRanges : list (float * float * string) :=
  [ (0, 30, "Red"); (30, 60, "Orange"); (60, 120, "Yellow"); (120, 180, "Green");
    (180, 240, "Cyan"); (240, 300, "Blue"); (300, 360, "Magenta") ].

(** [uniqueColors.map((color) => ({color, hsl})).filter((item) => item.hsl !== null)] *)
Fixpoint parseableWithName (colors : list string) : list (string * HSL) :=
  match colors with
  | [] => []
  | c :: rest =>
      match parseColorToHSL c with
      | Some x => (c, x) :: parseableWithName rest
      | None => parseableWithName rest
      end
  end.

(** The cluster of one hue range, when it has colors and its first color is
    not the empty string. *)
Definition clusterOfRange (hslColors : list (string * HSL)) (range : float * float * string)
  : list ColorCluster :=
  let '(lo, hi, name) := range in
  let colorsInRange := filter (fun item => (lo <=? h (snd item)) && (h (snd item) <? hi)) hslColors in
  match List.map fst colorsInRange with
  | [] => []
  | EmptyString :: _ => []
  | (first :: _) as colors =>
      [ {| centroid := first;
           cluster_colors := colors;
           size := List.length colors;
           variance := calculateHueVariance (List.map (fun item => h (snd item)) colorsInRange);
           label := Some name |} ]
  end.

(** [clusterColors(colors, maxClusters)]; the default of [maxClusters] is 5. *)
Definition clusterColors (colors : list Color) (maxClusters : nat) : list ColorCluster :=
  let uniqueColors := unique_values colors in
  if (List.length uniqueColors <=? maxClusters)%nat then
    List.map (fun color => {| centroid := color; cluster_colors := [color]; size := 1;
                              variance := 0; label := None |}) uniqueColors
  else
    let hslColors := parseableWithName uniqueColors in
    match hslColors with
    | [] => []
    | _ => firstn maxClusters (flat_map (clusterOfRange hslColors) hueRanges)
    end.

(** [xs.sort((a, b) => a - b)] on numbers: stable, an element goes before the
    first one it is smaller than.  The numbers sorted by the analyzer are
    never NaN, so the comparison is consistent. *)
Fixpoint insertAsc (x : float) (sorted : list float) : list float :=
  match sorted with
  | [] => [x]
  | y :: t => if x - y <? 0 then x :: y :: t else y :: insertAsc x t
  end.

Definition sortAsc (xs : list float) : list float :=
  fold_left (fun acc x => insertAsc x acc) xs [].

(** The midpoints of the adjacent hues more than 60 apart. *)
Fixpoint hueGapsOf (hues : list float) : list float :=
  match hues with
  | previousHue :: ((currentHue :: _) as rest) =>
      if 60 <? currentHue - previousHue
      then (previousHue + currentHue) / 2 :: hueGapsOf rest
      else hueGapsOf rest
  | _ => []
  end.

Definition detectColorGaps (colors : list Color) : list ColorGap :=
  let uniqueColors := unique_values colors in
  let hslColors := parseable uniqueColors in
  match hslColors with
  | [] => []
  | _ =>
      let hues := sortAsc (List.map h hslColors) in
      let hueGaps := hueGapsOf hues in
      let rounded := List.map (fun x => Num.toString (Num.Math_round x)) hueGaps in
      let hueGap :=
        match hueGaps with
        | [] => []
        | _ =>
            [ {| gap_type := gap_hue;
                 gap_description :=
                   "Missing colors in hue ranges: " ++ Str.join ", " rounded
                   ++ String "176" EmptyString;   (* the degree sign *)
                 missingColors := List.map (fun x => "hsl(" ++ x ++ ", 50%, 50%)") rounded;
                 severity := if (2 <? List.length hueGaps)%nat then high else medium;
                 suggestions :=
                   ["Consider adding colors in the missing hue ranges for better color balance"] |} ]
        end in
      let lightnesses := sortAsc (List.map l hslColors) in
      let hasVeryDark := existsb (fun x => x <? 20) lightnesses in
      let hasVeryLight := existsb (fun x => 80 <? x) lightnesses in
      let lightnessGap :=
        if negb hasVeryDark && negb hasVeryLight then
          [ {| gap_type := gap_lightness;
               gap_description := "Missing very dark and very light colors";
               missingColors := ["#000000"; "#ffffff"];
               severity := medium;
               suggestions := ["Add darker and lighter variants for better contrast options"] |} ]
        else [] in
      hueGap ++ lightnessGap
  end.

Inductive AnomalyType : Type :=
| anomaly_outlier | anomaly_duplicate | anomaly_invalid | anomaly_accessibility
| anomaly_harmony.

Record ColorAnomaly := {
  anomaly_type : AnomalyType;
  anomaly_color : string;
  anomaly_severity : Severity;
  anomaly_message : string;
  anomaly_suggestion : option string;
  anomaly_context : option string
}.

Inductive PatternType : Type :=
| pattern_gradient | pattern_theme | pattern_brand | pattern_semantic | pattern_systematic.

Record ColorPattern := {
  pattern_type : PatternType;
  pattern_colors : list string;
  pattern_confidence : float;
  pattern_description : string;
  examples : list string
}.

Inductive IssueType : Type := issue_contrast | issue_color_blindness | issue_readability.

Record AccessibilityIssue := {
  issue_type : IssueType;
  issue_severity : Severity;
  issue_message : string;
  issue_suggestion : option string
}.

Record ColorAccessibility := {
  wcagAA : bool;
  wcagAAA : bool;
  accessibility_contrastRatio : float;
  recommendations : list string;
  issues : list AccessibilityIssue
}.

Record ColorUsage := {
  usage_color : string;
  frequency : nat;
  contexts : list string
}.

Record PaletteAnalysis := {
  palette_colors : list string;
  palette_harmony : ColorHarmony;
  palette_accessibility : ColorAccessibility;
  palette_temperature : Temperature;
  palette_mood : Mood;
  palette_usage : list ColorUsage
}.

(** The double quote of the messages. *)
Definition quote : string := String "034" EmptyString.

(** The three loops of [detectColorAnomalies]: over the counts, in the order
    in which the values were first seen, and twice over the distinct values. *)
Definition duplicateAnomalies (colorCounts : list (string * nat)) : list ColorAnomaly :=
  flat_map (fun e =>
              let '(color, count) := e in
              if (5 <? count)%nat then
                [ {| anomaly_type := anomaly_duplicate;
                     anomaly_color := color;
                     anomaly_severity := if (10 <? count)%nat then high else medium;
                     anomaly_message :=
                       "Color " ++ quote ++ color ++ quote ++ " appears "
                       ++ Num.toString (ofNat count) ++ " times";
                     anomaly_suggestion :=
                       Some "Consider using CSS variables for repeated colors";
                     anomaly_context := None |} ]
              else [])
           colorCounts.

Definition invalidAnomalies (uniqueColors : list string) : list ColorAnomaly :=
  flat_map (fun color =>
              if isValidColor color then []
              else
                [ {| anomaly_type := anomaly_invalid;
                     anomaly_color := color;
                     anomaly_severity := high;
                     anomaly_message := "Invalid color format: " ++ quote ++ color ++ quote;
                     anomaly_suggestion :=
                       Some "Use valid hex, rgb, hsl, or named color formats";
                     anomaly_context := None |} ])
           uniqueColors.

Definition contrastAnomaly (message color : string) : ColorAnomaly :=
  {| anomaly_type := anomaly_accessibility;
     anomaly_color := color;
     anomaly_severity := medium;
     anomaly_message := message ++ quote ++ color ++ quote;
     anomaly_suggestion := Some "Ensure sufficient contrast with background colors";
     anomaly_context := None |}.

Definition accessibilityAnomalies (uniqueColors : list string) : list ColorAnomaly :=
  flat_map (fun color =>
              match parseColorToHSL color with
              | Some x =>
                  ((if l x <? 10
                    then [contrastAnomaly "Very dark color may have contrast issues: " color]
                    else [])
                   ++ (if 90 <? l x
                       then [contrastAnomaly "Very light color may have contrast issues: " color]
                       else []))%list
              | None => []
              end)
           uniqueColors.

Definition detectColorAnomalies (colors : list Color) : list ColorAnomaly :=
  let colorValues := List.map (fun c => Str.toLowerCase (value c)) colors in
  let uniqueColors := uniq [] colorValues in
  let colorCounts := countAll String.eqb colorValues in
  (duplicateAnomalies colorCounts ++ invalidAnomalies uniqueColors
   ++ accessibilityAnomalies uniqueColors)%list.

Definition detectGradientPattern (colors : list string) : option ColorPattern :=
  if (List.length colors <? 3)%nat then None
  else
    Some {| pattern_type := pattern_gradient;
            pattern_colors := firstn 3 colors;
            pattern_confidence := 0.7;
            pattern_description := "Potential gradient sequence detected";
            examples := firstn 3 colors |}.

Definition detectThemePattern (colors : list string) : option ColorPattern :=
  let hasBlue := existsb (fun c => Str.includes c "blue" || Str.includes c "#0") colors in
  let hasWhite := existsb (fun c => Str.includes c "white" || Str.includes c "#fff") colors in
  if hasBlue && hasWhite then
    Some {| pattern_type := pattern_theme;
            pattern_colors :=
              filter (fun c => Str.includes c "blue" || Str.includes c "white"
                               || Str.includes c "#0" || Str.includes c "#fff") colors;
            pattern_confidence := 0.6;
            pattern_description := "Blue and white theme pattern detected";
            examples := ["#0066cc"; "#ffffff"] |}
  else None.

Definition detectBrandPattern (_colors : list string) : option ColorPattern := None.

(** [if (p) patterns.push(p)] *)
Definition pushed (p : option ColorPattern) : list ColorPattern :=
  match p with
  | Some x => [x]
  | None => []
  end.

Definition detectColorPatterns (colors : list Color) : list ColorPattern :=
  let uniqueColors := unique_values colors in
  if (List.length uniqueColors <? 2)%nat then []
  else (pushed (detectGradientPattern uniqueColors)
        ++ pushed (detectThemePattern uniqueColors)
        ++ pushed (detectBrandPattern uniqueColors))%list.

(** [c.context || 'unknown'] *)
Definition contextOrUnknown (c : Color) : string :=
  match context c with
  | Some (String _ _ as x) => x
  | _ => "unknown"
  end.

Definition analyzePalette (colors : list Color) : PaletteAnalysis :=
  let uniqueColors := unique_values colors in
  let colorCounts :=
    countAll String.eqb (List.map (fun c => Str.toLowerCase (value c)) colors) in
  {| palette_colors := uniqueColors;
     palette_harmony := detectColorHarmony uniqueColors;
     palette_accessibility :=
       {| wcagAA := true; wcagAAA := false; accessibility_contrastRatio := 4.5;
          recommendations := ["Test color combinations for sufficient contrast"];
          issues := [] |};
     palette_temperature := determineTemperature uniqueColors;
     palette_mood := determineMood uniqueColors;
     palette_usage :=
       List.map (fun e =>
                   {| usage_color := fst e;
                      frequency := snd e;
                      contexts :=
                        uniq [] (List.map contextOrUnknown
                                   (filter (fun c => String.eqb (Str.toLowerCase (value c)) (fst e))
                                           colors)) |})
                colorCounts |}.

End analyzer.

(* ================================================================== *)
(** * utils/dedupe.ts *)
(* ================================================================== *)

Module dedupe.
Local Open Scope string_scope.

(** The loop of [dedupeColors]; [seen] is the [Set] of the trimmed lines
    kept so far. *)
Fixpoint dedupeLoop (seen : list string) (lines : list string) : list string :=
  match lines with
  | [] => []
  | line :: rest =>
      let trimmed := Str.trim line in
      match trimmed with
      | EmptyString => dedupeLoop seen rest
      | _ =>
          if Str.mem trimmed seen then dedupeLoop seen rest
          else line :: dedupeLoop (trimmed :: seen) rest
      end
  end.

Definition dedupeColors (lines : list string) : list string := dedupeLoop [] lines.

End dedupe.

(* ================================================================== *)
(** * The vocabulary of the properties *)
(* ================================================================== *)

(** The notions in which the properties below are stated, and the finite
    enumerations on which some of them are decided. *)
Module Vocabulary.
Import Regex.

(** The 256 channel values 0..255, as numbers. *)
Definition channels : list float :=
  Eval vm_compute in List.map (fun n => Num.ofZ (Z.of_nat n)) (List.seq 0 256).


Definition lowerHexDigits : list ascii :=
  ["0"; "1"; "2"; "3"; "4"; "5"; "6"; "7"; "8"; "9"; "a"; "b"; "c"; "d"; "e"; "f"]%char.

Definition str2 (a b : ascii) : string := String a (String b EmptyString).

(** A number is one of the integers 0..255. *)
Definition isByte (x : float) : Prop :=
  exists z : Z, (0 <= z <= 255)%Z /\ x = Num.ofZ z.



(** The evidence of a style context that [isStyleContext] looks for on a
    line: a style keyword, a CSS-in-JS pattern, an open object literal before
    the match on a line with a style property, a style variable, or a theme
    context. *)
Definition styleEvidence (ln : string) (index : nat) : bool :=
  javascript.hasStyleKeyword ln
  || javascript.hasCssInJs ln
  || (Regex.test Regex.noFlags javascript.objectPattern (Str.substring ln 0 index)
      && Regex.test Regex.noFlags javascript.stylePropertyPattern ln)
  || Regex.test Regex.noFlags javascript.styleVarPattern ln
  || Regex.test Regex.noFlags javascript.themeContextPattern ln.

(** The condition of the complementary case on the parseable colors: exactly
    two, with | |h0 - h1| - 180 | < 30. *)
Definition complementaryPair (hs : list analyzer.HSL) : bool :=
  match hs with
  | [x; y] =>
      (Num.Math_abs (Num.Math_abs (analyzer.h x - analyzer.h y) - 180) <? 30)%float
  | _ => false
  end.

(** Maximum hue minus minimum hue. *)
Definition hueRange (hs : list analyzer.HSL) : float :=
  (Num.Math_max (List.map analyzer.h hs) - Num.Math_min (List.map analyzer.h hs))%float.

(** The integral hues 0..360, as numbers. *)
Definition hueValues : list float :=
  Eval vm_compute in List.map (fun n => Num.ofZ (Z.of_nat n)) (List.seq 0 361).

Definition isHueValue (x : float) : Prop :=
  exists z : Z, (0 <= z <= 360)%Z /\ x = Num.ofZ z.

(** Two hues of 0..360 in the complementary band are at least 30 apart. *)
Definition bandApart (a b : float) : bool :=
  (implb (Num.Math_abs (Num.Math_abs (a - b) - 180) <? 30)
         (negb (Num.Math_max [a; b] - Num.Math_min [a; b] <? 30)))%float.

(** A hex literal with [n] digits: [#] and [n] hex digits of either case. *)
Definition hexLiteral (n : nat) (s : string) : Prop :=
  exists d, s = String "#" d /\ String.length d = n /\ allChars hexAny d = true.

(** No code unit of an rgb() or rgba() literal can start a hex or an hsl
    match. *)
Definition startsNoMatch (c : ascii) : bool :=
  negb (firstOf flag_i analyzer.hexPattern c) && negb (firstOf flag_i analyzer.hslPattern c).

(** The code unit [h], in either case. *)
Definition isH (c : ascii) : bool := classAccepts flag_i false (Ascii.eqb "h") c.

(** What follows [hsla(] in an hsla() literal: patterns 6.. of [validHsla]. *)
Definition hslaTail : regex :=
  seq [spaces; digits; spaces; ch ","; spaces; digits; ch "%"; spaces; ch ",";
       spaces; digits; ch "%"; spaces; ch ","; spaces; decimals; spaces; ch ")"; Eol].

(** The named colour keywords of the repository: the converter's table and
    the list of the Stylus extractor. *)
Definition namedKeywords : list string :=
  List.map fst colorConverter.namedColors ++ stylus.namedColors.

(** The hue lies in one of the seven bands [lo, hi) of [clusterColors]. *)
Definition inBand (x : float) : bool :=
  existsb (fun range => let '(lo, hi, _) := range in (lo <=? x) && (x <? hi))%float
          analyzer.hueRanges.

(** The value of a color and its line, 0 when it has no position: the two
    components of the key of the extractors' [Map]. *)
Definition valueAndLine (c : Color) : string * nat :=
  (value c, match position c with Some p => line p | None => 0 end).

(** [xs] is [ys] with some elements left out. *)
Inductive subsequence {A : Type} : list A -> list A -> Prop :=
| subsequence_nil : subsequence [] []
| subsequence_keep x xs ys : subsequence xs ys -> subsequence (x :: xs) (x :: ys)
| subsequence_skip y xs ys : subsequence xs ys -> subsequence xs (y :: ys).

(** How many elements of [l] are equal to [x]. *)
Definition occurrences {A : Type} (eqb : A -> A -> bool) (x : A) (l : list A) : nat :=
  List.length (filter (eqb x) l).

(** The numbers do not increase along the list. *)
Fixpoint descending (ns : list nat) : bool :=
  match ns with
  | a :: ((b :: _) as t) => (b <=? a)%nat && descending t
  | _ => true
  end.

(** The 256 code units. *)
Definition allAscii : list ascii := List.map ascii_of_nat (List.seq 0 256).

(** The language of a pattern without a star, as a list. *)
Fixpoint finiteLang (fl : flags) (r : regex) : option (list string) :=
  match r with
  | Chr inv p =>
      Some (List.map (fun c => String c EmptyString) (filter (classAccepts fl inv p) allAscii))
  | Seq r1 r2 =>
      match finiteLang fl r1, finiteLang fl r2 with
      | Some l1, Some l2 => Some (flat_map (fun a => List.map (String.append a) l2) l1)
      | _, _ => None
      end
  | Alt r1 r2 =>
      match finiteLang fl r1, finiteLang fl r2 with
      | Some l1, Some l2 => Some (l1 ++ l2)
      | _, _ => None
      end
  | Star _ _ => None
  | Group _ r1 => finiteLang fl r1
  | _ => Some [EmptyString]
  end.

(** Every string of the language of the pattern has the code unit [c]. *)
Fixpoint requires (fl : flags) (c : ascii) (r : regex) : bool :=
  match r with
  | Chr inv p => forallb (fun d => implb (classAccepts fl inv p d) (Ascii.eqb d c)) allAscii
  | Seq r1 r2 => requires fl c r1 || requires fl c r2
  | Alt r1 r2 => requires fl c r1 && requires fl c r2
  | Group _ r1 => requires fl c r1
  | _ => false
  end.

(** The 22 hex digits, of either case. *)
Definition anyHexDigits : list ascii :=
  ["0"; "1"; "2"; "3"; "4"; "5"; "6"; "7"; "8"; "9"; "a"; "b"; "c"; "d"; "e"; "f";
   "A"; "B"; "C"; "D"; "E"; "F"]%char.

(** The strings of 3, 6 and 8 code units after a [#]. *)
Definition hash3 (a b c : ascii) : string :=
  String "#" (String a (String b (String c EmptyString))).
Definition hash6 (a b c d e f : ascii) : string :=
  String "#" (String a (String b (String c (String d (String e (String f EmptyString)))))).
Definition hash8 (a b c d e f g h : ascii) : string :=
  String "#" (String a (String b (String c (String d (String e (String f
    (String g (String h EmptyString)))))))).

(** The two code units are the digit f, in either case. *)
Definition isFF (a b : ascii) : bool :=
  Ascii.eqb (Str.lowerChar a) "f" && Ascii.eqb (Str.lowerChar b) "f".

End Vocabulary.
(* ================================================================== *)
(** * Properties *)
(* ================================================================== *)

Import Vocabulary.

Lemma channels_complete (z : Z) : (0 <= z <= 255)%Z -> In (Num.ofZ z) channels.
Proof.
  intro H.
  assert (E : channels = List.map (fun n => Num.ofZ (Z.of_nat n)) (List.seq 0 256))
    by (vm_compute; reflexivity).
  rewrite E. apply in_map_iff.
  exists (Z.to_nat z). split.
  - rewrite Z2Nat.id by lia. reflexivity.
  - apply in_seq. lia.
Qed.


Lemma hexLower_cases (c : ascii) : Regex.hexLower c = true -> In c lowerHexDigits.
Proof.
  destruct c as [[] [] [] [] [] [] [] []]; vm_compute; intro H;
    try discriminate H; tauto.
Qed.

Lemma hexLower_not_space (c : ascii) : Regex.hexLower c = true -> Str.isWhiteSpace c = false.
Proof.
  intro H. apply hexLower_cases in H. simpl in H.
  repeat (destruct H as [H | H]; [subst c; reflexivity | ]). contradiction.
Qed.

(** One channel: two lower-case hex digits are read as a byte and printed
    back as the same two digits. *)
Lemma channel_roundtrip (a b : ascii) :
  Regex.hexLower a = true -> Regex.hexLower b = true ->
  isByte (Num.parseInt (str2 a b) 16) /\
  colorConversion.toHex (Num.parseInt (str2 a b) 16) = str2 a b.
Proof.
  intros Ha Hb. apply hexLower_cases in Ha. apply hexLower_cases in Hb.
  assert (E : exists z, (0 <=? z)%Z && (z <=? 255)%Z = true
                        /\ Num.parseInt (str2 a b) 16 = Num.ofZ z
                        /\ colorConversion.toHex (Num.parseInt (str2 a b) 16) = str2 a b).
  { simpl in Ha, Hb.
    repeat (destruct Ha as [Ha | Ha]; [subst a | ]); try contradiction;
    repeat (destruct Hb as [Hb | Hb]; [subst b | ]); try contradiction;
    match goal with
    | |- exists z, _ /\ Num.parseInt ?s 16 = _ /\ _ =>
        let v := eval vm_compute in (Num.truncZ (Num.parseInt s 16)) in
        match v with
        | Some ?z => exists z; split; [reflexivity | split; vm_compute; reflexivity]
        end
    end. }
  destruct E as (z & Hz & E1 & E2). split; [ | exact E2 ].
  exists z. split; [ | exact E1 ].
  apply andb_true_iff in Hz. destruct Hz as [H1 H2]. lia.
Qed.

Lemma parseColor_hex6 (c1 c2 c3 c4 c5 c6 : ascii) :
  Regex.hexLower c6 = true ->
  colorConversion.parseColor
    (String "#" (String c1 (String c2 (String c3 (String c4 (String c5 (String c6 EmptyString)))))))
  = Some {| colorConversion.rgb_r := Num.parseInt (str2 c1 c2) 16;
            colorConversion.rgb_g := Num.parseInt (str2 c3 c4) 16;
            colorConversion.rgb_b := Num.parseInt (str2 c5 c6) 16;
            colorConversion.rgb_a := None |}.
Proof.
  intro H. apply hexLower_cases in H. simpl in H.
  repeat (destruct H as [H | H]; [subst c6; reflexivity | ]). contradiction.
Qed.

(** C1. For every lower-case 6-digit hex string [#rrggbb], [parseColor]
    returns a record whose channels are integers of [0,255] and which has no
    alpha, and [rgbToHex] of that record is the string itself. *)
Theorem parseColor_rgbToHex_roundtrip (c1 c2 c3 c4 c5 c6 : ascii) :
  Regex.hexLower c1 = true -> Regex.hexLower c2 = true ->
  Regex.hexLower c3 = true -> Regex.hexLower c4 = true ->
  Regex.hexLower c5 = true -> Regex.hexLower c6 = true ->
  let h := String "#" (String c1 (String c2 (String c3 (String c4 (String c5
             (String c6 EmptyString)))))) in
  exists c : colorConversion.RgbColor,
    colorConversion.parseColor h = Some c /\
    isByte (colorConversion.rgb_r c) /\
    isByte (colorConversion.rgb_g c) /\
    isByte (colorConversion.rgb_b c) /\
    colorConversion.rgb_a c = None /\
    colorConversion.rgbToHex c = h.
Proof.
  intros H1 H2 H3 H4 H5 H6 h.
  destruct (channel_roundtrip c1 c2 H1 H2) as [Br Er].
  destruct (channel_roundtrip c3 c4 H3 H4) as [Bg Eg].
  destruct (channel_roundtrip c5 c6 H5 H6) as [Bb Eb].
  eexists. split; [ exact (parseColor_hex6 c1 c2 c3 c4 c5 c6 H6) | ].
  repeat split; try assumption.
  unfold colorConversion.rgbToHex. cbn [colorConversion.rgb_r colorConversion.rgb_g
    colorConversion.rgb_b colorConversion.rgb_a].
  rewrite Er, Eg, Eb. reflexivity.
Qed.

Lemma parseColor_rgbToHex_roundtrip_witness :
  exists c : colorConversion.RgbColor,
    colorConversion.parseColor "#1a2b3c" = Some c /\
    isByte (colorConversion.rgb_r c) /\
    isByte (colorConversion.rgb_g c) /\
    isByte (colorConversion.rgb_b c) /\
    colorConversion.rgb_a c = None /\
    colorConversion.rgbToHex c = "#1a2b3c"%string.
Proof.
  exact (parseColor_rgbToHex_roundtrip "1" "a" "2" "b" "3" "c"
           eq_refl eq_refl eq_refl eq_refl eq_refl eq_refl).
Defined.

(** ** Hue range of RGB to HSL *)







(** ** Hex serialization and alpha *)








Lemma sapp_length (a b : string) :
  String.length (a ++ b) = String.length a + String.length b.
Proof. induction a as [ | x a IH]; simpl; [reflexivity | rewrite IH; reflexivity]. Qed.








(** ** convertColor *)

(** C4. When the converter's parser returns null on the value of a color,
    [convertColor] returns, for every options value, a result with
    [success = false], an error string and [converted] equal to the value;
    and [convertColor] completes normally on every input: it never throws. *)
Theorem convertColor_unparseable
  (now : float) (c : Color) (options : colorConverter.ColorConversionOptions) :
  (exists r, colorConverter.convertColor now c options = colorConverter.Normal r) /\
  (colorConverter.parseColorToRGB (value c) = None ->
   exists r, colorConverter.convertColor now c options = colorConverter.Normal r /\
             colorConverter.success r = false /\
             colorConverter.error r = Some ("Unable to parse color: " ++ value c)%string /\
             colorConverter.converted r = value c).
Proof.
  unfold colorConverter.convertColor, colorConverter.convertColor_try. split.
  - destruct (colorConverter.parseColorToRGB (value c)) as [x | ].
    + destruct (colorConverter.serialize x options); eexists; reflexivity.
    + eexists; reflexivity.
  - intro H. rewrite H. eexists. repeat split.
Qed.

Lemma convertColor_unparseable_witness :
  let c := {| value := "garbage"; format := unknown; position := None; context := None |} in
  exists r, colorConverter.convertColor 0%float c
              {| colorConverter.targetFormat := "hex";
                 colorConverter.preserveAlpha := None;
                 colorConverter.roundValues := None;
                 colorConverter.uppercase := None;
                 colorConverter.shortHex := None |} = colorConverter.Normal r /\
            colorConverter.success r = false /\
            colorConverter.error r = Some "Unable to parse color: garbage"%string /\
            colorConverter.converted r = "garbage"%string.
Proof.
  intro c. exact (proj2 (convertColor_unparseable 0%float c _) eq_refl).
Defined.

(** C9, refuted as stated: two calls with the same color and options at two
    readings of the clock return results whose [timestamp] fields differ. *)
Lemma convertColor_timestamp_differs :
  let c := {| value := "#ff0000"; format := hex; position := None; context := None |} in
  let options := {| colorConverter.targetFormat := "rgb";
                    colorConverter.preserveAlpha := None;
                    colorConverter.roundValues := None;
                    colorConverter.uppercase := None;
                    colorConverter.shortHex := None |} in
  exists r1 r2,
    colorConverter.convertColor 1000%float c options = colorConverter.Normal r1 /\
    colorConverter.convertColor 1001%float c options = colorConverter.Normal r2 /\
    (colorConverter.timestamp r1 =? colorConverter.timestamp r2)%float = false.
Proof. do 2 eexists. repeat split; vm_compute; reflexivity. Qed.

(** C9, amended. Two calls of [convertColor] with equal arguments return
    results equal in every field except [timestamp], which is the reading of
    the clock during each call. *)
Theorem convertColor_deterministic
  (now1 now2 : float) (c : Color) (options : colorConverter.ColorConversionOptions) :
  exists r1 r2,
    colorConverter.convertColor now1 c options = colorConverter.Normal r1 /\
    colorConverter.convertColor now2 c options = colorConverter.Normal r2 /\
    colorConverter.original r1 = colorConverter.original r2 /\
    colorConverter.converted r1 = colorConverter.converted r2 /\
    colorConverter.res_format r1 = colorConverter.res_format r2 /\
    colorConverter.success r1 = colorConverter.success r2 /\
    colorConverter.error r1 = colorConverter.error r2 /\
    colorConverter.timestamp r1 = now1 /\
    colorConverter.timestamp r2 = now2.
Proof.
  unfold colorConverter.convertColor, colorConverter.convertColor_try.
  destruct (colorConverter.parseColorToRGB (value c)) as [x | ].
  - destruct (colorConverter.serialize x options); do 2 eexists; repeat split.
  - do 2 eexists; repeat split.
Qed.

(** ** The extractors *)

Lemma forEachLine_In (body : string -> nat -> list Color) (lines : list string) :
  forall (k : nat) (c : Color),
    In c (extraction.forEachLine body lines k) ->
    exists i ln, nth_error lines i = Some ln /\ In c (body ln (k + i)).
Proof.
  induction lines as [ | l rest IH]; intros k c H; simpl in H.
  - contradiction.
  - apply in_app_or in H. destruct H as [H | H].
    + exists 0, l. split; [reflexivity | ]. rewrite Nat.add_0_r. exact H.
    + destruct (IH (S k) c H) as (i & ln & Hn & Hc).
      exists (S i), ln. split; [exact Hn | ].
      rewrite Nat.add_succ_r. exact Hc.
Qed.

Lemma css_addColor_In (ln : string) (lineIndex : nat) (v : string) (index : nat) (c : Color) :
  In c (css.addColor ln lineIndex v index) ->
  css.isInComment ln index = false /\
  position c = Some {| line := lineIndex + 1; column := index + 1 |}.
Proof.
  unfold css.addColor. destruct (css.isInComment ln index); simpl.
  - contradiction.
  - intros [H | []]. subst c. split; reflexivity.
Qed.

Lemma css_extractLine_In (ln : string) (lineIndex : nat) (c : Color) :
  In c (css.extractLine ln lineIndex) ->
  exists index, css.isInComment ln index = false /\
                position c = Some {| line := lineIndex + 1; column := index + 1 |}.
Proof.
  unfold css.extractLine, css.scan. intro H.
  apply in_flat_map in H. destruct H as (p & _ & H).
  apply in_flat_map in H. destruct H as (m & _ & H).
  exists (Regex.m_index m). exact (css_addColor_In _ _ _ _ _ H).
Qed.

(** C5. Every color that [extractFromCss] emits sits on a line of the
    content at a match index that is not inside a comment span of that line
    (the last [/*] before the index is not after the last [*/] before it);
    and on [.c{color:#ff0000}/* #00ff00 */] exactly the color [#ff0000] is
    returned. *)
Theorem extractFromCss_skips_comments :
  (forall (content : string) (c : Color),
      In c (css.extractFromCss content) ->
      exists i index ln,
        nth_error (Str.split "010" content) i = Some ln /\
        position c = Some {| line := i + 1; column := index + 1 |} /\
        css.isInComment ln index = false /\
        (Str.lastIndexOf (Str.substring ln 0 index) "/*"
         <= Str.lastIndexOf (Str.substring ln 0 index) "*/")%Z) /\
  css.extractFromCss ".c{color:#ff0000}/* #00ff00 */"
  = [ {| value := "#ff0000"; format := hex;
         position := Some {| line := 1; column := 10 |};
         context := Some ".c{color:#ff0000}/* #00ff00 */"%string |} ].
Proof.
  split.
  - intros content c H. unfold css.extractFromCss in H.
    destruct (forEachLine_In _ _ _ _ H) as (i & ln & Hn & Hc).
    destruct (css_extractLine_In _ _ _ Hc) as (index & Hcom & Hpos).
    exists i, index, ln. repeat split; try assumption.
    unfold css.isInComment in Hcom. apply Z.ltb_ge in Hcom. exact Hcom.
  - vm_compute. reflexivity.
Qed.

Lemma extractFromCss_skips_comments_witness :
  exists i index ln,
    nth_error (Str.split "010" ".c{color:#ff0000}/* #00ff00 */") i = Some ln /\
    Some {| line := 1; column := 10 |} = Some {| line := i + 1; column := index + 1 |} /\
    css.isInComment ln index = false /\
    (Str.lastIndexOf (Str.substring ln 0 index) "/*"
     <= Str.lastIndexOf (Str.substring ln 0 index) "*/")%Z.
Proof.
  exact (proj1 extractFromCss_skips_comments ".c{color:#ff0000}/* #00ff00 */"%string
           {| value := "#ff0000"; format := hex;
              position := Some {| line := 1; column := 10 |};
              context := Some ".c{color:#ff0000}/* #00ff00 */"%string |}
           (or_introl eq_refl)).
Defined.

Lemma isStyleContext_true (ln : string) (index : nat) :
  javascript.isStyleContext ln index = true ->
  Str.includes (Str.substring ln 0 index) "//" = false /\ styleEvidence ln index = true.
Proof.
  unfold javascript.isStyleContext, styleEvidence.
  destruct (Str.includes (Str.substring ln 0 index) "//"); [discriminate | ].
  destruct (_ <? _)%Z; [discriminate | ].
  destruct (_ || _ || _); [discriminate | ].
  destruct (javascript.hasStyleKeyword ln); [intros _; split; reflexivity | ].
  destruct (javascript.hasCssInJs ln); [intros _; split; reflexivity | ].
  destruct (_ && _); [intros _; split; reflexivity | ].
  destruct (Regex.test _ javascript.styleVarPattern ln); [intros _; split; reflexivity | ].
  destruct (Regex.test _ javascript.themeContextPattern ln); [intros _; split; reflexivity | ].
  discriminate.
Qed.

Lemma mapSet_In {A : Type} (k : string) (v : A) (m : list (string * A)) (x : string * A) :
  In x (extraction.mapSet k v m) -> x = (k, v) \/ In x m.
Proof.
  induction m as [ | [k' v'] t IH]; simpl.
  - intros [H | []]. left. symmetry. exact H.
  - destruct (String.eqb k' k); simpl.
    + intros [H | H]; [left; symmetry; exact H | right; right; exact H].
    + intros [H | H]; [right; left; exact H | ].
      destruct (IH H) as [E | E]; [left; exact E | right; right; exact E].
Qed.

Lemma dedupe_fold_In (colors : list Color) :
  forall (m : list (string * Color)) (x : string * Color),
    In x (fold_left (fun m c => extraction.mapSet (extraction.dedupeKey c) c m) colors m) ->
    In (snd x) colors \/ In x m.
Proof.
  induction colors as [ | c rest IH]; intros m x H; simpl in H.
  - right. exact H.
  - destruct (IH _ _ H) as [E | E].
    + left. right. exact E.
    + destruct (mapSet_In _ _ _ _ E) as [E' | E'].
      * left. left. subst x. reflexivity.
      * right. exact E'.
Qed.

Lemma dedupe_In (colors : list Color) (c : Color) :
  In c (extraction.dedupe colors) -> In c colors.
Proof.
  unfold extraction.dedupe. intro H.
  apply in_map_iff in H. destruct H as (x & Hx & H). subst c.
  destruct (dedupe_fold_In _ _ _ H) as [E | []]. exact E.
Qed.

Lemma javascript_extractLine_In (ln : string) (lineIndex : nat) (c : Color) :
  In c (javascript.extractLine ln lineIndex) ->
  exists index, javascript.isStyleContext ln index = true /\
                position c = Some {| line := lineIndex + 1; column := index + 1 |}.
Proof.
  unfold javascript.extractLine. intro H. apply in_app_or in H. destruct H as [H | H].
  - apply in_flat_map in H. destruct H as (p & _ & H).
    unfold javascript.scan in H. apply in_flat_map in H. destruct H as (m & _ & H).
    exists (Regex.m_index m).
    destruct (javascript.isStyleContext ln (Regex.m_index m)); simpl in H.
    + destruct H as [H | []]. subst c. split; reflexivity.
    + contradiction.
  - unfold javascript.scanStrings in H. apply in_flat_map in H. destruct H as (m & _ & H).
    exists (Regex.m_index m).
    destruct (Regex.group ln m 1) as [[ | a t] | ]; simpl in H; try contradiction.
    destruct (javascript.isValidColor (String a t)); simpl in H; try contradiction.
    destruct (javascript.isStyleContext ln (Regex.m_index m)); simpl in H.
    + destruct H as [H | []]. subst c. split; reflexivity.
    + contradiction.
Qed.

(** C6. [extractFromJavaScript] returns the empty array on
    [const url='https://x/#ff0000';]; a match index with [//] before it on
    its line is never a style context; and every color emitted sits on a
    line of the content that carries evidence of a style context, at a match
    index with no [//] before it. *)
Theorem extractFromJavaScript_style_context_only :
  javascript.extractFromJavaScript "const url='https://x/#ff0000';" = [] /\
  (forall (ln : string) (index : nat),
      Str.includes (Str.substring ln 0 index) "//" = true ->
      javascript.isStyleContext ln index = false) /\
  (forall (content : string) (c : Color),
      In c (javascript.extractFromJavaScript content) ->
      exists i index ln,
        nth_error (Str.split "010" content) i = Some ln /\
        position c = Some {| line := i + 1; column := index + 1 |} /\
        Str.includes (Str.substring ln 0 index) "//" = false /\
        styleEvidence ln index = true).
Proof.
  split; [vm_compute; reflexivity | split].
  - intros ln index H. unfold javascript.isStyleContext. rewrite H. reflexivity.
  - intros content c H. apply dedupe_In in H. unfold javascript.collect in H.
    destruct (forEachLine_In _ _ _ _ H) as (i & ln & Hn & Hc).
    destruct (javascript_extractLine_In _ _ _ Hc) as (index & Hctx & Hpos).
    destruct (isStyleContext_true _ _ Hctx) as [Hno Hev].
    exists i, index, ln. repeat split; assumption.
Qed.

Lemma extractFromJavaScript_style_context_only_witness :
  javascript.isStyleContext "const url='https://x/#ff0000';" 21 = false /\
  exists i index ln,
    nth_error (Str.split "010" "const c = { color: '#ff0000' };") i = Some ln /\
    Some {| line := 1; column := 20 |} = Some {| line := i + 1; column := index + 1 |} /\
    Str.includes (Str.substring ln 0 index) "//" = false /\
    styleEvidence ln index = true.
Proof.
  split.
  - exact (proj1 (proj2 extractFromJavaScript_style_context_only)
             "const url='https://x/#ff0000';"%string 21 eq_refl).
  - exact (proj2 (proj2 extractFromJavaScript_style_context_only)
             "const c = { color: '#ff0000' };"%string
             {| value := "#ff0000"; format := hex;
                position := Some {| line := 1; column := 20 |};
                context := Some "const c = { color: '#ff0000' };"%string |}
             (or_introl eq_refl)).
Defined.

(** C7, the failing input. On the one-line document [#ff0000] the Stylus
    extractor emits the color with column 0: it stores the match index where
    the other extractors store the index plus one. *)
Theorem extractFromStylus_column_zero :
  stylus.extractFromStylus "#ff0000"
  = [ {| value := "#ff0000"; format := hex;
         position := Some {| line := 1; column := 0 |};
         context := Some "Stylus declaration"%string |} ].
Proof. vm_compute. reflexivity. Qed.

Lemma html_styleContent_In (styleContent : string) (lineNumber : nat) (context : string)
  (c : Color) :
  In c (html.extractColorsFromStyleContent styleContent lineNumber context) ->
  exists index, position c = Some {| line := lineNumber; column := index + 1 |}.
Proof.
  unfold html.extractColorsFromStyleContent. intro H.
  apply in_flat_map in H. destruct H as (p & _ & H).
  apply in_map_iff in H. destruct H as (m & H & _).
  exists (Regex.m_index m). subst c. reflexivity.
Qed.

Lemma html_extractLine_In (ln : string) (lineIndex : nat) (c : Color) :
  In c (html.extractLine ln lineIndex) ->
  exists index, position c = Some {| line := lineIndex + 1; column := index + 1 |}.
Proof.
  unfold html.extractLine.
  destruct (Str.startsWith (Str.trim ln) "<!--"); [contradiction | ].
  intro H. apply in_app_or in H. destruct H as [H | H];
    [ | apply in_app_or in H; destruct H as [H | H]].
  - unfold html.styleAttributes in H. apply in_flat_map in H. destruct H as (m & _ & H).
    cbv zeta in H.
    destruct (Regex.exec _ html.quotedValue _) as [q | ]; [ | contradiction].
    destruct (Regex.group _ q 1) as [[ | a t] | ]; try contradiction.
    exact (html_styleContent_In _ _ _ _ H).
  - unfold html.styleTags in H.
    destruct (_ || _); [ | contradiction].
    exact (html_styleContent_In _ _ _ _ H).
  - apply in_flat_map in H. destruct H as (p & _ & H).
    unfold html.scan in H. apply in_flat_map in H. destruct H as (m & _ & H).
    exists (Regex.m_index m).
    destruct (html.isHtmlStyleContext ln (Regex.m_index m)); simpl in H.
    + destruct H as [H | []]. subst c. reflexivity.
    + contradiction.
Qed.

Lemma svg_styleContent_In (styleContent : string) (lineNumber : nat) (context : string)
  (c : Color) :
  In c (svg.extractColorsFromStyleContent styleContent lineNumber context) ->
  exists index, position c = Some {| line := lineNumber; column := index + 1 |}.
Proof.
  unfold svg.extractColorsFromStyleContent. intro H.
  apply in_flat_map in H. destruct H as (p & _ & H).
  apply in_map_iff in H. destruct H as (m & H & _).
  exists (Regex.m_index m). subst c. reflexivity.
Qed.

Lemma svg_extractLine_In (ln : string) (lineIndex : nat) (c : Color) :
  In c (svg.extractLine ln lineIndex) ->
  exists index, position c = Some {| line := lineIndex + 1; column := index + 1 |}.
Proof.
  unfold svg.extractLine.
  destruct (Str.startsWith (Str.trim ln) "<!--"); [contradiction | ].
  intro H. apply in_app_or in H. destruct H as [H | H];
    [ | apply in_app_or in H; destruct H as [H | H];
        [ | apply in_app_or in H; destruct H as [H | H]]].
  - unfold svg.colorAttributes in H. apply in_flat_map in H. destruct H as (m & _ & H).
    exists (Regex.m_index m).
    destruct (Regex.group ln m 1) as [[ | a t] | ]; try contradiction.
    destruct (svg.isValidColor (String a t)); simpl in H; [ | contradiction].
    destruct H as [H | []]. subst c. reflexivity.
  - unfold svg.styleAttributes in H. apply in_flat_map in H. destruct H as (m & _ & H).
    cbv zeta in H.
    destruct (Regex.exec _ html.quotedValue _) as [q | ]; [ | contradiction].
    destruct (Regex.group _ q 1) as [[ | a t] | ]; try contradiction.
    exact (svg_styleContent_In _ _ _ _ H).
  - unfold svg.styleTags in H.
    destruct (_ || _); [ | contradiction].
    exact (svg_styleContent_In _ _ _ _ H).
  - apply in_flat_map in H. destruct H as (p & _ & H).
    unfold svg.scan in H. apply in_map_iff in H. destruct H as (m & H & _).
    exists (Regex.m_index m). subst c. reflexivity.
Qed.

(** The sibling extractors: every color of the CSS, HTML, JavaScript and SVG
    extractors has a position with line and column at least 1. *)
Theorem extractors_positions_one_based (content : string) (c : Color) :
  In c (css.extractFromCss content) \/ In c (html.extractFromHtml content) \/
  In c (javascript.extractFromJavaScript content) \/ In c (svg.extractFromSvg content) ->
  exists p, position c = Some p /\ 1 <= line p /\ 1 <= column p.
Proof.
  intros [H | [H | [H | H]]].
  - unfold css.extractFromCss in H.
    destruct (forEachLine_In _ _ _ _ H) as (i & ln & Hn & Hc).
    destruct (css_extractLine_In _ _ _ Hc) as (index & _ & E).
    eexists. split; [exact E | simpl; lia].
  - apply dedupe_In in H.
    destruct (forEachLine_In _ _ _ _ H) as (i & ln & Hn & Hc).
    destruct (html_extractLine_In _ _ _ Hc) as (index & E).
    eexists. split; [exact E | simpl; lia].
  - apply dedupe_In in H. unfold javascript.collect in H.
    destruct (forEachLine_In _ _ _ _ H) as (i & ln & Hn & Hc).
    destruct (javascript_extractLine_In _ _ _ Hc) as (index & _ & E).
    eexists. split; [exact E | simpl; lia].
  - apply dedupe_In in H.
    destruct (forEachLine_In _ _ _ _ H) as (i & ln & Hn & Hc).
    destruct (svg_extractLine_In _ _ _ Hc) as (index & E).
    eexists. split; [exact E | simpl; lia].
Qed.

Lemma extractors_positions_one_based_witness :
  exists p, Some {| line := 1; column := 10 |} = Some p /\ 1 <= line p /\ 1 <= column p.
Proof.
  exact (extractors_positions_one_based ".c{color:#ff0000}"%string
           {| value := "#ff0000"; format := hex;
              position := Some {| line := 1; column := 10 |};
              context := Some ".c{color:#ff0000}"%string |}
           (or_introl (or_introl eq_refl))).
Defined.

(** ** The palette analyzer *)

Lemma parseable_length (colors : list string) :
  List.length (analyzer.parseable colors) <= List.length colors.
Proof.
  induction colors as [ | c rest IH]; simpl; [lia | ].
  destruct (analyzer.parseColorToHSL c); simpl; lia.
Qed.

Lemma hueValues_complete (x : float) : isHueValue x -> In x hueValues.
Proof.
  intros (z & Hz & E). subst x.
  assert (E : hueValues = List.map (fun n => Num.ofZ (Z.of_nat n)) (List.seq 0 361))
    by (vm_compute; reflexivity).
  rewrite E. apply in_map_iff. exists (Z.to_nat z). split.
  - rewrite Z2Nat.id by lia. reflexivity.
  - apply in_seq. lia.
Qed.

Lemma bandApart_all :
  forallb (fun a => forallb (fun b => bandApart a b) hueValues) hueValues = true.
Proof. vm_compute. reflexivity. Qed.

Lemma complementaryPair_range (x y : analyzer.HSL) :
  isHueValue (analyzer.h x) -> isHueValue (analyzer.h y) ->
  complementaryPair [x; y] = true -> (hueRange [x; y] <? 30)%float = false.
Proof.
  intros Hx Hy Hc.
  pose proof bandApart_all as H.
  rewrite forallb_forall in H. specialize (H _ (hueValues_complete _ Hx)).
  rewrite forallb_forall in H. specialize (H _ (hueValues_complete _ Hy)).
  unfold bandApart in H. unfold complementaryPair in Hc. rewrite Hc in H.
  simpl in H. apply negb_true_iff in H. exact H.
Qed.

(** C8. [detectColorHarmony], case by case in the order of the claim: fewer
    than 2 colors or fewer than 2 parseable colors give [none]; otherwise a
    hue range below 30 gives [monochromatic] with confidence 0.8; otherwise
    exactly two parseable colors with | |h0 - h1| - 180 | < 30 give
    [complementary] with confidence 0.9; otherwise the result is [none] with
    confidence 0.3.  When the two hues are integers of 0..360 the
    complementary case needs no assumption on the hue range: such hues are
    then at least 30 apart. *)
Theorem detectColorHarmony_cases (colors : list string) :
  let hs := analyzer.parseable colors in
  let r := analyzer.detectColorHarmony colors in
  (List.length colors < 2 \/ List.length hs < 2 ->
   analyzer.harmony_type r = analyzer.none) /\
  (2 <= List.length colors -> 2 <= List.length hs ->
   (hueRange hs <? 30)%float = true ->
   analyzer.harmony_type r = analyzer.monochromatic /\
   analyzer.confidence r = 0.8%float) /\
  (2 <= List.length colors -> 2 <= List.length hs ->
   (hueRange hs <? 30)%float = false -> complementaryPair hs = true ->
   analyzer.harmony_type r = analyzer.complementary /\
   analyzer.confidence r = 0.9%float) /\
  (2 <= List.length colors -> 2 <= List.length hs ->
   (hueRange hs <? 30)%float = false -> complementaryPair hs = false ->
   analyzer.harmony_type r = analyzer.none /\
   analyzer.confidence r = 0.3%float) /\
  (forall x y, hs = [x; y] ->
   isHueValue (analyzer.h x) -> isHueValue (analyzer.h y) ->
   complementaryPair hs = true ->
   analyzer.harmony_type r = analyzer.complementary /\
   analyzer.confidence r = 0.9%float).
Proof.
  intros hs r.
  assert (Main :
    (List.length colors < 2 \/ List.length hs < 2 ->
     analyzer.harmony_type r = analyzer.none) /\
    (2 <= List.length colors -> 2 <= List.length hs ->
     (hueRange hs <? 30)%float = true ->
     analyzer.harmony_type r = analyzer.monochromatic /\
     analyzer.confidence r = 0.8%float) /\
    (2 <= List.length colors -> 2 <= List.length hs ->
     (hueRange hs <? 30)%float = false -> complementaryPair hs = true ->
     analyzer.harmony_type r = analyzer.complementary /\
     analyzer.confidence r = 0.9%float) /\
    (2 <= List.length colors -> 2 <= List.length hs ->
     (hueRange hs <? 30)%float = false -> complementaryPair hs = false ->
     analyzer.harmony_type r = analyzer.none /\
     analyzer.confidence r = 0.3%float));
  [ | destruct Main as (M1 & M2 & M3 & M4);
      split; [exact M1 | split; [exact M2 | split; [exact M3 | split; [exact M4 | ]]]];
      intros x y E Hx Hy Hc; pose proof (parseable_length colors) as L; fold hs in L;
      rewrite E in L; simpl in L;
      apply M3;
      [ lia | rewrite E; simpl; lia
      | rewrite E; apply complementaryPair_range;
        [assumption | assumption | rewrite <- E; exact Hc]
      | exact Hc ] ].
  subst r. unfold analyzer.detectColorHarmony. fold hs.
  change (Num.Math_max (List.map analyzer.h hs) - Num.Math_min (List.map analyzer.h hs))%float
    with (hueRange hs).
  destruct (List.length colors <? 2) eqn:Ec.
  { apply Nat.ltb_lt in Ec.
    repeat split; try reflexivity; intros; exfalso; lia. }
  apply Nat.ltb_ge in Ec.
  destruct (List.length hs <? 2) eqn:Eh.
  { apply Nat.ltb_lt in Eh.
    repeat split; try reflexivity; intros; exfalso; lia. }
  apply Nat.ltb_ge in Eh.
  destruct (hueRange hs <? 30)%float eqn:Er.
  { repeat split; try reflexivity; intros; try discriminate.
    exfalso. lia. }
  assert (Ep : match List.map analyzer.h hs with
               | [h0; h1] => (Num.Math_abs (Num.Math_abs (h0 - h1) - 180) <? 30)%float
               | _ => false
               end = complementaryPair hs).
  { destruct hs as [ | x [ | y [ | z t]]]; reflexivity. }
  rewrite Ep.
  destruct (complementaryPair hs) eqn:Ek;
    repeat split; try reflexivity; intros; try discriminate; exfalso; lia.
Qed.

Lemma detectColorHarmony_cases_witness :
  (analyzer.harmony_type (analyzer.detectColorHarmony ["#ff0000"; "rgb(1, 2, 3)"]%string)
   = analyzer.none) /\
  (analyzer.harmony_type (analyzer.detectColorHarmony ["#ff0000"; "#ff4000"]%string)
   = analyzer.monochromatic /\
   analyzer.confidence (analyzer.detectColorHarmony ["#ff0000"; "#ff4000"]%string)
   = 0.8%float) /\
  (analyzer.harmony_type (analyzer.detectColorHarmony ["#ff0000"; "#00ffff"]%string)
   = analyzer.complementary /\
   analyzer.confidence (analyzer.detectColorHarmony ["#ff0000"; "#00ffff"]%string)
   = 0.9%float) /\
  (analyzer.harmony_type (analyzer.detectColorHarmony ["#ff0000"; "#00ff00"]%string)
   = analyzer.none /\
   analyzer.confidence (analyzer.detectColorHarmony ["#ff0000"; "#00ff00"]%string)
   = 0.3%float).
Proof.
  split; [ | split; [ | split ] ].
  - apply (proj1 (detectColorHarmony_cases ["#ff0000"; "rgb(1, 2, 3)"]%string)).
    right. vm_compute. lia.
  - apply (proj1 (proj2 (detectColorHarmony_cases ["#ff0000"; "#ff4000"]%string)));
      vm_compute; first [reflexivity | lia].
  - apply (proj1 (proj2 (proj2 (detectColorHarmony_cases ["#ff0000"; "#00ffff"]%string))));
      vm_compute; first [reflexivity | lia].
  - apply (proj1 (proj2 (proj2 (proj2 (detectColorHarmony_cases ["#ff0000"; "#00ff00"]%string)))));
      vm_compute; first [reflexivity | lia].
Defined.

(** ** Strings: append, length and [allChars] *)

Lemma sapp_assoc (a b c : string) : ((a ++ b) ++ c)%string = (a ++ (b ++ c))%string.
Proof. induction a as [ | x a IH]; simpl; [reflexivity | rewrite IH; reflexivity]. Qed.

Lemma sapp_nil_r (a : string) : (a ++ EmptyString)%string = a.
Proof. induction a as [ | x a IH]; simpl; [reflexivity | rewrite IH; reflexivity]. Qed.

Lemma sapp_eq_nil (a b : string) : (a ++ b)%string = EmptyString -> a = EmptyString /\ b = EmptyString.
Proof. destruct a; simpl; [intro H; split; [reflexivity | exact H] | discriminate]. Qed.

Lemma sapp_inv_tail (a b c : string) : (a ++ c)%string = (b ++ c)%string -> a = b.
Proof.
  revert b. induction a as [ | x a IH]; intros b H.
  - destruct b as [ | y b]; [reflexivity | ].
    apply (f_equal String.length) in H. simpl in H. rewrite sapp_length in H. lia.
  - destruct b as [ | y b].
    + apply (f_equal String.length) in H. simpl in H. rewrite sapp_length in H. lia.
    + simpl in H. inversion H. f_equal. apply IH. assumption.
Qed.

Lemma allChars_app (p : ascii -> bool) (a b : string) :
  Regex.allChars p (a ++ b) = Regex.allChars p a && Regex.allChars p b.
Proof.
  induction a as [ | x a IH]; simpl; [reflexivity | ].
  rewrite IH. apply andb_assoc.
Qed.

Lemma allChars_weaken (p q : ascii -> bool) (s : string) :
  (forall c, p c = true -> q c = true) ->
  Regex.allChars p s = true -> Regex.allChars q s = true.
Proof.
  intros W. induction s as [ | x s IH]; simpl; [reflexivity | ].
  intro H. apply andb_true_iff in H. destruct H as [H1 H2].
  rewrite (W _ H1), (IH H2). reflexivity.
Qed.

(** ** Soundness of the matcher *)

Section RegexSoundness.
Import Regex.
Variable fl : flags.

Lemma rmatch_sound (r : regex) :
  forall (st : mstate) (cs : caps) (k : cont) (res : mstate * caps),
    rmatch fl r st cs k = Some res ->
    exists st' cs', matches fl r st st' /\ k st' cs' = Some res.
Proof.
  induction r as [ | inv p | r1 IH1 r2 IH2 | r1 IH1 r2 IH2 | g r1 IH1 | n r1 IH1 | | | ];
    intros st cs k res H; [simpl in H | simpl in H | simpl in H | simpl in H | | simpl in H | simpl in H | simpl in H | simpl in H].
  - exists st, cs. split; [constructor | exact H].
  - destruct (rest st) as [ | c t] eqn:E; [discriminate | ].
    destruct (classAccepts fl inv p c) eqn:A; [ | discriminate ].
    eexists _, cs. split; [ | exact H ]. econstructor; eassumption.
  - apply IH1 in H. destruct H as (mid & cs1 & M1 & H).
    apply IH2 in H. destruct H as (st' & cs2 & M2 & H).
    exists st', cs2. split; [ | exact H ]. econstructor; eassumption.
  - destruct (rmatch fl r1 st cs k) as [x | ] eqn:E.
    + inversion H; subst x. apply IH1 in E. destruct E as (st' & cs' & M & E').
      exists st', cs'. split; [apply M_AltL; exact M | exact E'].
    + apply IH2 in H. destruct H as (st' & cs' & M & E').
      exists st', cs'. split; [apply M_AltR; exact M | exact E'].
  - unfold rmatch in H; fold rmatch in H.
    revert H. generalize (S (String.length (rest st))) as fuel. intro fuel.
    revert st cs. induction fuel as [ | f IHf]; intros st cs H.
    + exists st, cs. split; [constructor | exact H].
    + assert (Again :
                rmatch fl r1 st cs
                  (fun st' cs' =>
                     if pos st <? pos st'
                     then starLoop (rmatch fl r1) g k f st' cs' else None) = Some res ->
                exists st' cs', matches fl (Star g r1) st st' /\ k st' cs' = Some res).
      { intros E. apply IH1 in E. destruct E as (mid & cs1 & M1 & E1).
        destruct (pos st <? pos mid); [ | discriminate ].
        apply IHf in E1. destruct E1 as (st' & cs' & M2 & E2).
        exists st', cs'. split; [ | exact E2 ]. econstructor; eassumption. }
      simpl in H. destruct g.
      * destruct (rmatch fl r1 st cs _) as [x | ] eqn:E.
        -- exact (Again H).
        -- exists st, cs. split; [constructor | exact H].
      * destruct (k st cs) as [x | ] eqn:E.
        -- inversion H; subst x. exists st, cs. split; [constructor | exact E].
        -- exact (Again H).
  - apply IH1 in H. destruct H as (st' & cs' & M & H).
    eexists st', _. split; [constructor; exact M | exact H].
  - destruct (atBol fl st) eqn:E; [ | discriminate ].
    exists st, cs. split; [constructor; exact E | exact H].
  - destruct (atEol fl st) eqn:E; [ | discriminate ].
    exists st, cs. split; [constructor; exact E | exact H].
  - destruct (atWordB st) eqn:E; [ | discriminate ].
    exists st, cs. split; [constructor; exact E | exact H].
Qed.

(** What a match consumes is in the language of the pattern. *)
Lemma matches_lang (r : regex) (st st' : mstate) :
  matches fl r st st' ->
  exists s1, rest st = (s1 ++ rest st')%string /\ pos st' = pos st + String.length s1 /\
             lang fl r s1.
Proof.
  induction 1 as [ st | inv p st c t E A | r1 r2 st mid st' _ IH1 _ IH2
                 | r1 r2 st st' _ IH | r1 r2 st st' _ IH | g r st
                 | g r st mid st' _ IH1 _ IH2 | n r st st' _ IH | st E | st E | st E ].
  - exists EmptyString. repeat split; [simpl; lia | constructor].
  - exists (String c EmptyString). simpl. repeat split; [exact E | lia | constructor; exact A].
  - destruct IH1 as (s1 & E1 & P1 & L1). destruct IH2 as (s2 & E2 & P2 & L2).
    exists (s1 ++ s2)%string. repeat split.
    + rewrite E1, E2. clear. induction s1; simpl; [reflexivity | f_equal; assumption].
    + rewrite P2, P1. clear. rewrite <- Nat.add_assoc. f_equal.
      induction s1; simpl; [reflexivity | f_equal; assumption].
    + constructor; assumption.
  - destruct IH as (s1 & E1 & P1 & L1). exists s1. repeat split; try assumption.
    apply L_AltL. exact L1.
  - destruct IH as (s1 & E1 & P1 & L1). exists s1. repeat split; try assumption.
    apply L_AltR. exact L1.
  - exists EmptyString. repeat split; [simpl; lia | constructor].
  - destruct IH1 as (s1 & E1 & P1 & L1). destruct IH2 as (s2 & E2 & P2 & L2).
    exists (s1 ++ s2)%string. repeat split.
    + rewrite E1, E2. clear. induction s1; simpl; [reflexivity | f_equal; assumption].
    + rewrite P2, P1. clear. rewrite <- Nat.add_assoc. f_equal.
      induction s1; simpl; [reflexivity | f_equal; assumption].
    + constructor; assumption.
  - destruct IH as (s1 & E1 & P1 & L1). exists s1. repeat split; try assumption.
    constructor. exact L1.
  - exists EmptyString. repeat split; [simpl; lia | constructor].
  - exists EmptyString. repeat split; [simpl; lia | constructor].
  - exists EmptyString. repeat split; [simpl; lia | constructor].
Qed.

Lemma lang_nullable (r : regex) (s : string) :
  lang fl r s -> s = EmptyString -> nullable r = true.
Proof.
  induction 1 as [ | inv p c A | r1 r2 s1 s2 _ IH1 _ IH2 | r1 r2 s _ IH | r1 r2 s _ IH
                 | g r | g r s1 s2 _ IH1 _ IH2 | n r s _ IH | | | ];
    intro E; simpl; try reflexivity.
  - discriminate.
  - apply sapp_eq_nil in E. destruct E as [E1 E2]. rewrite (IH1 E1), (IH2 E2). reflexivity.
  - rewrite (IH E). reflexivity.
  - rewrite (IH E). apply orb_true_r.
  - exact (IH E).
Qed.

Lemma lang_first (r : regex) (s : string) :
  lang fl r s -> forall c t, s = String c t -> firstOf fl r c = true.
Proof.
  induction 1 as [ | inv p c A | r1 r2 s1 s2 L1 IH1 L2 IH2 | r1 r2 s _ IH | r1 r2 s _ IH
                 | g r | g r s1 s2 L1 IH1 L2 IH2 | n r s _ IH | | | ];
    intros x t E; simpl; try discriminate.
  - inversion E; subst. exact A.
  - destruct s1 as [ | y s1].
    + simpl in E. rewrite (lang_nullable _ _ L1 eq_refl), (IH2 _ _ E). apply orb_true_r.
    + simpl in E. inversion E; subst. rewrite (IH1 _ _ eq_refl). reflexivity.
  - rewrite (IH _ _ E). reflexivity.
  - rewrite (IH _ _ E). apply orb_true_r.
  - destruct s1 as [ | y s1].
    + simpl in E. exact (IH2 _ _ E).
    + simpl in E. inversion E; subst. exact (IH1 _ _ eq_refl).
  - exact (IH _ _ E).
Qed.

Lemma lang_alphabet (r : regex) (s : string) :
  lang fl r s -> allChars (alphabet fl r) s = true.
Proof.
  induction 1 as [ | inv p c A | r1 r2 s1 s2 _ IH1 _ IH2 | r1 r2 s _ IH | r1 r2 s _ IH
                 | g r | g r s1 s2 _ IH1 _ IH2 | n r s _ IH | | | ];
    simpl; try reflexivity.
  - rewrite A. reflexivity.
  - rewrite allChars_app. apply andb_true_iff. split.
    + eapply allChars_weaken; [ | exact IH1 ]. intros c H. rewrite H. reflexivity.
    + eapply allChars_weaken; [ | exact IH2 ]. intros c H. rewrite H. apply orb_true_r.
  - eapply allChars_weaken; [ | exact IH ]. intros c H. rewrite H. reflexivity.
  - eapply allChars_weaken; [ | exact IH ]. intros c H. rewrite H. apply orb_true_r.
  - rewrite allChars_app. apply andb_true_iff. split.
    + eapply allChars_weaken; [ | exact IH1 ]. intros c H. exact H.
    + eapply allChars_weaken; [ | exact IH2 ]. intros c H. exact H.
  - eapply allChars_weaken; [ | exact IH ]. intros c H. exact H.
Qed.

Lemma lang_maxLen (r : regex) (s : string) :
  lang fl r s -> forall n, maxLen r = Some n -> String.length s <= n.
Proof.
  induction 1 as [ | inv p c A | r1 r2 s1 s2 _ IH1 _ IH2 | r1 r2 s _ IH | r1 r2 s _ IH
                 | g r | g r s1 s2 _ IH1 _ IH2 | n r s _ IH | | | ];
    intros m E; simpl in E; try (inversion E; subst; simpl; lia); try discriminate.
  - destruct (maxLen r1) as [a | ]; [ | discriminate ].
    destruct (maxLen r2) as [b | ]; [ | discriminate ].
    inversion E; subst. rewrite sapp_length.
    specialize (IH1 _ eq_refl). specialize (IH2 _ eq_refl). lia.
  - destruct (maxLen r1) as [a | ]; [ | discriminate ].
    destruct (maxLen r2) as [b | ]; [ | discriminate ].
    inversion E; subst. specialize (IH _ eq_refl). lia.
  - destruct (maxLen r1) as [a | ]; [ | discriminate ].
    destruct (maxLen r2) as [b | ]; [ | discriminate ].
    inversion E; subst. specialize (IH _ eq_refl). lia.
  - exact (IH _ E).
Qed.

(** A pattern that begins with [^] matches only where nothing precedes, and
    one that ends with [$] only up to the end of the input (without the [m]
    flag). *)
Lemma matches_bol (r : regex) (st st' : mstate) :
  matches fl r st st' -> multiline fl = false -> startsWithBol r = true -> prev st = None.
Proof.
  induction 1 as [ st | inv p st c t E A | r1 r2 st mid st' _ IH1 _ IH2
                 | r1 r2 st st' _ IH | r1 r2 st st' _ IH | g r st
                 | g r st mid st' _ IH1 _ IH2 | n r st st' _ IH | st E | st E | st E ];
    intros Hm Hb; simpl in Hb; try discriminate.
  - exact (IH1 Hm Hb).
  - exact (IH Hm Hb).
  - unfold atBol in E. destruct (prev st); [ | reflexivity ].
    rewrite Hm in E. discriminate.
Qed.

Lemma matches_eol (r : regex) (st st' : mstate) :
  matches fl r st st' -> multiline fl = false -> endsWithEol r = true ->
  rest st' = EmptyString.
Proof.
  induction 1 as [ st | inv p st c t E A | r1 r2 st mid st' _ IH1 _ IH2
                 | r1 r2 st st' _ IH | r1 r2 st st' _ IH | g r st
                 | g r st mid st' _ IH1 _ IH2 | n r st st' _ IH | st E | st E | st E ];
    intros Hm He; simpl in He; try discriminate.
  - exact (IH2 Hm He).
  - exact (IH Hm He).
  - unfold atEol, next in E. destruct (rest st); [reflexivity | ].
    rewrite Hm in E. discriminate.
Qed.

(** What [search] finds is a substring in the language of the pattern. *)
Lemma search_contains (r : regex) (s : string) :
  forall (pv : option ascii) (i : nat) (m : rmatch_result),
    search fl r pv i s = Some m -> contains fl r s.
Proof.
  induction s as [ | c t IH]; intros pv i m H; simpl in H.
  - destruct (rmatch fl r _ [] accept) as [[st' cs] | ] eqn:E; [ | discriminate ].
    apply rmatch_sound in E. destruct E as (st1 & cs1 & M & _).
    apply matches_lang in M. destruct M as (s1 & E1 & _ & L). simpl in E1.
    exists EmptyString, s1, (rest st1). split; [exact E1 | exact L].
  - destruct (rmatch fl r _ [] accept) as [[st' cs] | ] eqn:E.
    + apply rmatch_sound in E. destruct E as (st1 & cs1 & M & _).
      apply matches_lang in M. destruct M as (s1 & E1 & _ & L). simpl in E1.
      exists EmptyString, s1, (rest st1). split; [exact E1 | exact L].
    + apply IH in H. destruct H as (pre & mid & post & E1 & L).
      exists (String c pre), mid, post. split; [simpl; rewrite E1; reflexivity | exact L].
Qed.

Lemma search_anchored_later (r : regex) (s : string) :
  multiline fl = false -> startsWithBol r = true ->
  forall (c : ascii) (i : nat), search fl r (Some c) i s = None.
Proof.
  intros Hm Hb. induction s as [ | d t IH]; intros c i; simpl.
  - destruct (rmatch fl r _ [] accept) as [[st' cs] | ] eqn:E; [ | reflexivity ].
    apply rmatch_sound in E. destruct E as (st1 & cs1 & M & _).
    apply matches_bol in M; try assumption. discriminate.
  - destruct (rmatch fl r _ [] accept) as [[st' cs] | ] eqn:E; [ | apply IH ].
    apply rmatch_sound in E. destruct E as (st1 & cs1 & M & _).
    apply matches_bol in M; try assumption. discriminate.
Qed.

(** An anchored pattern that [exec] accepts has the whole input in its
    language. *)
Lemma exec_anchored (r : regex) (s : string) (m : rmatch_result) :
  multiline fl = false -> startsWithBol r = true -> endsWithEol r = true ->
  exec fl r s = Some m -> lang fl r s.
Proof.
  intros Hm Hb He H. unfold exec in H.
  assert (Start : forall st' cs,
            rmatch fl r {| prev := None; pos := 0; rest := s |} [] accept = Some (st', cs) ->
            lang fl r s).
  { intros st' cs E. apply rmatch_sound in E. destruct E as (st1 & cs1 & M & _).
    pose proof (matches_eol _ _ _ M Hm He) as Hend.
    apply matches_lang in M. destruct M as (s1 & E1 & _ & L). simpl in E1.
    rewrite Hend, sapp_nil_r in E1. subst s1. exact L. }
  destruct s as [ | c t]; simpl in H.
  - destruct (rmatch fl r _ [] accept) as [[st' cs] | ] eqn:E; [ | discriminate ].
    exact (Start _ _ eq_refl).
  - destruct (rmatch fl r _ [] accept) as [[st' cs] | ] eqn:E.
    + exact (Start _ _ eq_refl).
    + rewrite (search_anchored_later r t Hm Hb) in H. discriminate.
Qed.

(** A pattern that cannot match the empty string and none of whose first
    code units occurs in the input is not found. *)
Lemma exec_none_by_first (r : regex) (s : string) :
  nullable r = false ->
  allChars (fun c => negb (firstOf fl r c)) s = true ->
  exec fl r s = None.
Proof.
  intros Hn Hs. destruct (exec fl r s) as [m | ] eqn:E; [ | reflexivity ].
  exfalso. apply search_contains in E. destruct E as (pre & mid & post & E & L).
  destruct mid as [ | c t].
  - rewrite (lang_nullable _ _ L eq_refl) in Hn. discriminate.
  - pose proof (lang_first _ _ L _ _ eq_refl) as F.
    subst s. rewrite allChars_app in Hs. apply andb_true_iff in Hs. destruct Hs as [_ Hs].
    simpl in Hs. rewrite F in Hs. discriminate.
Qed.

End RegexSoundness.

(** ** What the analyzer's [parseColorToHSL] accepts *)

Section ParseColorToHSL.
Import Regex.

Ltac expose H :=
  cbv beta iota delta
    [analyzer.hexPattern analyzer.hslPattern analyzer.hexChannels analyzer.hexClass
     analyzer.validHex analyzer.validRgb analyzer.validRgba analyzer.validHsl
     analyzer.validHsla seq alt lit rep ch opt] in H.

Ltac inv_lang :=
  repeat match goal with
         | H : lang _ (Seq _ _) _ |- _ => inversion H; clear H; subst
         | H : lang _ (Alt _ _) _ |- _ => inversion H; clear H; subst
         | H : lang _ (Group _ _) _ |- _ => inversion H; clear H; subst
         | H : lang _ (Chr _ _) _ |- _ => inversion H; clear H; subst
         | H : lang _ Eps _ |- _ => inversion H; clear H; subst
         | H : lang _ Bol _ |- _ => inversion H; clear H; subst
         | H : lang _ Eol _ |- _ => inversion H; clear H; subst
         end.

Lemma accepts_hash (c : ascii) :
  classAccepts flag_i false (Ascii.eqb "#") c = true -> c = "#"%char.
Proof.
  destruct c as [[] [] [] [] [] [] [] []]; vm_compute; intro H;
    first [discriminate H | reflexivity].
Qed.

Lemma accepts_hex (c : ascii) :
  classAccepts flag_i false hexLower c = true -> hexAny c = true.
Proof.
  destruct c as [[] [] [] [] [] [] [] []]; vm_compute; intro H;
    first [discriminate H | reflexivity].
Qed.

Lemma hexPattern_lang (s : string) :
  lang flag_i analyzer.hexPattern s -> hexLiteral 3 s \/ hexLiteral 6 s.
Proof.
  intro H. expose H. inv_lang;
    repeat match goal with
           | A : classAccepts flag_i false (Ascii.eqb "#") _ = true |- _ =>
               apply accepts_hash in A; subst
           | A : classAccepts flag_i false hexLower _ = true |- _ =>
               apply accepts_hex in A
           end; simpl.
  - left. eexists. split; [reflexivity | split; [reflexivity | ] ].
    simpl. repeat (apply andb_true_iff; split; try assumption). reflexivity.
  - right. eexists. split; [reflexivity | split; [reflexivity | ] ].
    simpl. repeat (apply andb_true_iff; split; try assumption). reflexivity.
Qed.

(** The "only if" direction: a parseable value is a 3- or 6-digit hex
    literal, or has a substring in the language of the hsl pattern. *)
Lemma parseColorToHSL_some (s : string) (x : analyzer.HSL) :
  analyzer.parseColorToHSL s = Some x ->
  hexLiteral 3 s \/ hexLiteral 6 s \/ contains flag_i analyzer.hslPattern s.
Proof.
  unfold analyzer.parseColorToHSL. intro H.
  destruct (exec flag_i analyzer.hexPattern s) as [m | ] eqn:E.
  - apply exec_anchored in E; try reflexivity.
    destruct (hexPattern_lang s E) as [L | L]; [left | right; left]; exact L.
  - destruct (exec flag_i analyzer.hslPattern s) as [m | ] eqn:E2; [ | discriminate ].
    right. right. exact (search_contains _ _ _ _ _ _ E2).
Qed.

Lemma rgb_alphabet (c : ascii) :
  alphabet flag_i analyzer.validRgb c = true -> startsNoMatch c = true.
Proof.
  destruct c as [[] [] [] [] [] [] [] []]; vm_compute; intro H;
    first [discriminate H | reflexivity].
Qed.

Lemma rgba_alphabet (c : ascii) :
  alphabet flag_i analyzer.validRgba c = true -> startsNoMatch c = true.
Proof.
  destruct c as [[] [] [] [] [] [] [] []]; vm_compute; intro H;
    first [discriminate H | reflexivity].
Qed.

Lemma hexAny_alphabet (c : ascii) : hexAny c = true -> startsNoMatch c = true.
Proof.
  destruct c as [[] [] [] [] [] [] [] []]; vm_compute; intro H;
    first [discriminate H | reflexivity].
Qed.

Lemma parseColorToHSL_none_by_first (s : string) :
  allChars startsNoMatch s = true -> analyzer.parseColorToHSL s = None.
Proof.
  intro H. unfold analyzer.parseColorToHSL.
  rewrite (exec_none_by_first flag_i analyzer.hexPattern s eq_refl).
  - rewrite (exec_none_by_first flag_i analyzer.hslPattern s eq_refl); [reflexivity | ].
    eapply allChars_weaken; [ | exact H ]. intros c Hc.
    unfold startsNoMatch in Hc. apply andb_true_iff in Hc. apply Hc.
  - eapply allChars_weaken; [ | exact H ]. intros c Hc.
    unfold startsNoMatch in Hc. apply andb_true_iff in Hc. apply Hc.
Qed.

Lemma test_anchored (r : regex) (s : string) :
  startsWithBol r = true -> endsWithEol r = true ->
  test flag_i r s = true -> lang flag_i r s.
Proof.
  intros Hb He H. unfold test in H.
  destruct (exec flag_i r s) as [m | ] eqn:E; [ | discriminate ].
  exact (exec_anchored flag_i r s m eq_refl Hb He E).
Qed.

Lemma rgb_rejected (s : string) :
  test flag_i analyzer.validRgb s = true -> analyzer.parseColorToHSL s = None.
Proof.
  intro H. apply test_anchored in H; try reflexivity.
  apply parseColorToHSL_none_by_first.
  eapply allChars_weaken; [exact rgb_alphabet | ]. apply lang_alphabet. exact H.
Qed.

Lemma rgba_rejected (s : string) :
  test flag_i analyzer.validRgba s = true -> analyzer.parseColorToHSL s = None.
Proof.
  intro H. apply test_anchored in H; try reflexivity.
  apply parseColorToHSL_none_by_first.
  eapply allChars_weaken; [exact rgba_alphabet | ]. apply lang_alphabet. exact H.
Qed.

Lemma hex8_rejected (s : string) :
  hexLiteral 8 s -> analyzer.parseColorToHSL s = None.
Proof.
  intros (d & E & Hl & Hd). subst s. unfold analyzer.parseColorToHSL.
  destruct (exec flag_i analyzer.hexPattern (String "#" d)) as [m | ] eqn:E1.
  - exfalso. apply exec_anchored in E1; try reflexivity.
    pose proof (lang_maxLen flag_i _ _ E1 7 eq_refl) as Hlen. simpl in Hlen. lia.
  - rewrite (exec_none_by_first flag_i analyzer.hslPattern (String "#" d) eq_refl);
      [reflexivity | ].
    simpl. eapply allChars_weaken; [ | exact Hd ].
    intros c Hc. apply hexAny_alphabet in Hc. unfold startsNoMatch in Hc.
    apply andb_true_iff in Hc. apply Hc.
Qed.

End ParseColorToHSL.

Section HslaRejected.
Import Regex.

Ltac expose H :=
  cbv beta iota delta
    [analyzer.hslPattern analyzer.validHsla seq alt lit rep ch opt] in H.

Lemma hslaTail_alphabet (c : ascii) :
  alphabet flag_i hslaTail c = true -> negb (isH c) = true.
Proof.
  destruct c as [[] [] [] [] [] [] [] []]; vm_compute; intro H;
    first [discriminate H | reflexivity].
Qed.

Lemma accepts_not_h (c : ascii) :
  classAccepts flag_i false (Ascii.eqb "s") c = true
  \/ classAccepts flag_i false (Ascii.eqb "l") c = true
  \/ classAccepts flag_i false (Ascii.eqb "a") c = true
  \/ classAccepts flag_i false (Ascii.eqb "(") c = true ->
  negb (isH c) = true.
Proof.
  destruct c as [[] [] [] [] [] [] [] []]; vm_compute;
    intros [H | [H | [H | H]]]; first [discriminate H | reflexivity].
Qed.

Lemma accepts_a_not_paren (c : ascii) :
  classAccepts flag_i false (Ascii.eqb "a") c = true ->
  classAccepts flag_i false (Ascii.eqb "(") c = true -> False.
Proof.
  destruct c as [[] [] [] [] [] [] [] []]; vm_compute; intros H1 H2;
    first [discriminate H1 | discriminate H2].
Qed.

(** The shape of an hsla() literal: [h], [s], [l], [a] in either case, an
    opening parenthesis, and a tail without [h]. *)
Lemma validHsla_shape (s : string) :
  lang flag_i analyzer.validHsla s ->
  exists x1 x2 x3 x4 x5 t,
    s = String x1 (String x2 (String x3 (String x4 (String x5 t)))) /\
    classAccepts flag_i false (Ascii.eqb "s") x2 = true /\
    classAccepts flag_i false (Ascii.eqb "l") x3 = true /\
    classAccepts flag_i false (Ascii.eqb "a") x4 = true /\
    classAccepts flag_i false (Ascii.eqb "(") x5 = true /\
    allChars (fun c => negb (isH c)) t = true.
Proof.
  intro H. expose H.
  inversion H as [ | | r1 r2 s1 s2 L1 L2 | | | | | | | | ]; clear H; subst.
  inversion L1; clear L1; subst.
  inversion L2 as [ | | r1 r2 s1 s3 L3 L4 | | | | | | | | ]; clear L2; subst.
  inversion L3 as [ | | r1 r2 c1 s4 C1 L5 | | | | | | | | ]; clear L3; subst.
  inversion L5 as [ | | r1 r2 c2 s5 C2 L6 | | | | | | | | ]; clear L5; subst.
  inversion L6 as [ | | r1 r2 c3 s6 C3 L7 | | | | | | | | ]; clear L6; subst.
  inversion L7 as [ | | r1 r2 c4 c5 C4 C5 | | | | | | | | ]; clear L7; subst.
  inversion C1; clear C1; subst. inversion C2; clear C2; subst.
  inversion C3; clear C3; subst. inversion C4; clear C4; subst.
  inversion C5; clear C5; subst.
  simpl. do 6 eexists. split; [reflexivity | ].
  repeat (split; [assumption | ]).
  eapply allChars_weaken; [exact hslaTail_alphabet | ].
  apply lang_alphabet. exact L4.
Qed.

(** The shape of a match of the hsl pattern: [h], then two code units, then
    an opening parenthesis. *)
Lemma hslPattern_shape (s : string) :
  lang flag_i analyzer.hslPattern s ->
  exists y1 y2 y3 y4 t,
    s = String y1 (String y2 (String y3 (String y4 t))) /\
    isH y1 = true /\ classAccepts flag_i false (Ascii.eqb "(") y4 = true.
Proof.
  intro H. expose H.
  inversion H as [ | | r1 r2 s1 s2 L1 L2 | | | | | | | | ]; clear H; subst.
  inversion L1 as [ | | r1 r2 c1 s4 C1 L5 | | | | | | | | ]; clear L1; subst.
  inversion L5 as [ | | r1 r2 c2 s5 C2 L6 | | | | | | | | ]; clear L5; subst.
  inversion L6 as [ | | r1 r2 c3 c4 C3 C4 | | | | | | | | ]; clear L6; subst.
  inversion C1; clear C1; subst. inversion C2; clear C2; subst.
  inversion C3; clear C3; subst. inversion C4; clear C4; subst.
  simpl. do 5 eexists. split; [reflexivity | split; assumption].
Qed.

Lemma hsla_rejected (s : string) :
  test flag_i analyzer.validHsla s = true -> analyzer.parseColorToHSL s = None.
Proof.
  intro H. apply test_anchored in H; try reflexivity.
  destruct (validHsla_shape s H) as (x1 & x2 & x3 & x4 & x5 & t & E & A2 & A3 & A4 & A5 & At).
  unfold analyzer.parseColorToHSL.
  destruct (exec flag_i analyzer.hexPattern s) as [m | ] eqn:E1.
  { exfalso. apply exec_anchored in E1; try reflexivity.
    destruct (hexPattern_lang s E1) as [(d & Ed & _) | (d & Ed & _)];
      rewrite Ed in E; inversion E; subst;
      pose proof (lang_first flag_i _ _ H _ _ eq_refl) as F; vm_compute in F; discriminate. }
  destruct (exec flag_i analyzer.hslPattern s) as [m | ] eqn:E2; [ | reflexivity ].
  exfalso. apply search_contains in E2. destruct E2 as (pre & mid & post & Es & L).
  destruct (hslPattern_shape mid L) as (y1 & y2 & y3 & y4 & u & Em & Hy1 & Hy4).
  subst mid. destruct pre as [ | p pre].
  - rewrite E in Es. simpl in Es. inversion Es; subst.
    exact (accepts_a_not_paren _ A4 Hy4).
  - rewrite E in Es. simpl in Es. inversion Es as [[Ep Etail]].
    assert (Ht : allChars (fun c => negb (isH c))
                   (String x2 (String x3 (String x4 (String x5 t)))) = true).
    { simpl. rewrite (accepts_not_h x2 (or_introl A2)),
        (accepts_not_h x3 (or_intror (or_introl A3))),
        (accepts_not_h x4 (or_intror (or_intror (or_introl A4)))),
        (accepts_not_h x5 (or_intror (or_intror (or_intror A5)))), At.
      reflexivity. }
    rewrite Etail in Ht. rewrite allChars_app in Ht.
    apply andb_true_iff in Ht. destruct Ht as [_ Ht]. simpl in Ht.
    rewrite Hy1 in Ht. discriminate.
Qed.

End HslaRejected.

Lemma named_rejected (name : string) :
  In name namedKeywords -> analyzer.parseColorToHSL name = None.
Proof.
  assert (H : forallb (fun n => match analyzer.parseColorToHSL n with
                                | None => true
                                | Some _ => false
                                end) namedKeywords = true)
    by (vm_compute; reflexivity).
  rewrite forallb_forall in H. intro Hin. specialize (H _ Hin).
  destruct (analyzer.parseColorToHSL name); [discriminate | reflexivity].
Qed.

(** ** Unparseable values take no part in the hue-based computations *)

Section Excluded.

Lemma parseable_remove (c : string) (l1 l2 : list string) :
  analyzer.parseColorToHSL c = None ->
  analyzer.parseable (l1 ++ c :: l2) = analyzer.parseable (l1 ++ l2).
Proof.
  intro H. induction l1 as [ | a l1 IH]; simpl.
  - rewrite H. reflexivity.
  - destruct (analyzer.parseColorToHSL a); rewrite IH; reflexivity.
Qed.

Lemma statistics_averages (colors : list Color) :
  let st := analyzer.calculateColorStatistics colors in
  let hs := analyzer.parseable (List.map value colors) in
  analyzer.dominantHue st = analyzer.averageOpt analyzer.h hs /\
  analyzer.averageSaturation st = analyzer.averageOpt analyzer.s hs /\
  analyzer.averageLightness st = analyzer.averageOpt analyzer.l hs.
Proof. destruct colors; repeat split. Qed.

Lemma statistics_exclude (c : Color) (l1 l2 : list Color) :
  analyzer.parseColorToHSL (value c) = None ->
  let a := analyzer.calculateColorStatistics (l1 ++ c :: l2) in
  let b := analyzer.calculateColorStatistics (l1 ++ l2) in
  analyzer.dominantHue a = analyzer.dominantHue b /\
  analyzer.averageSaturation a = analyzer.averageSaturation b /\
  analyzer.averageLightness a = analyzer.averageLightness b.
Proof.
  intros H a b.
  destruct (statistics_averages (l1 ++ c :: l2)) as (A1 & A2 & A3).
  destruct (statistics_averages (l1 ++ l2)) as (B1 & B2 & B3).
  subst a b. rewrite A1, A2, A3, B1, B2, B3.
  rewrite !map_app. simpl. rewrite (parseable_remove _ _ _ H). repeat split.
Qed.

Lemma harmony_exclude (c : string) (l1 l2 : list string) :
  analyzer.parseColorToHSL c = None ->
  let a := analyzer.detectColorHarmony (l1 ++ c :: l2) in
  let b := analyzer.detectColorHarmony (l1 ++ l2) in
  analyzer.harmony_type a = analyzer.harmony_type b /\
  analyzer.confidence a = analyzer.confidence b.
Proof.
  intros H a b. subst a b. unfold analyzer.detectColorHarmony.
  rewrite (parseable_remove _ _ _ H).
  pose proof (parseable_length (l1 ++ l2)) as L.
  assert (Len : List.length (l1 ++ c :: l2) = S (List.length (l1 ++ l2))).
  { rewrite !length_app. simpl. lia. }
  rewrite Len.
  destruct (List.length (analyzer.parseable (l1 ++ l2)) <? 2) eqn:E.
  - destruct (S (List.length (l1 ++ l2)) <? 2), (List.length (l1 ++ l2) <? 2);
      split; reflexivity.
  - apply Nat.ltb_ge in E.
    assert (E1 : (S (List.length (l1 ++ l2)) <? 2) = false) by (apply Nat.ltb_ge; lia).
    assert (E2 : (List.length (l1 ++ l2) <? 2) = false) by (apply Nat.ltb_ge; lia).
    rewrite E1, E2.
    destruct (_ <? _)%float; [split; reflexivity | ].
    destruct (match List.map analyzer.h (analyzer.parseable (l1 ++ l2)) with
              | [h0; h1] => _
              | _ => false
              end); split; reflexivity.
Qed.

Lemma temperature_mood_exclude (c : string) (l1 l2 : list string) :
  analyzer.parseColorToHSL c = None ->
  analyzer.determineTemperature (l1 ++ c :: l2) = analyzer.determineTemperature (l1 ++ l2) /\
  analyzer.determineMood (l1 ++ c :: l2) = analyzer.determineMood (l1 ++ l2).
Proof.
  intro H. unfold analyzer.determineTemperature, analyzer.determineMood.
  rewrite (parseable_remove _ _ _ H). split; reflexivity.
Qed.

(** Adding an unparseable value to what [uniq] has seen changes nothing in
    the parseable values it returns. *)
Lemma uniq_parseable_seen (v : string) (l : list string) :
  analyzer.parseColorToHSL v = None ->
  forall seen1 seen2,
    (forall x, x <> v -> Str.mem x seen1 = Str.mem x seen2) ->
    analyzer.parseable (analyzer.uniq seen1 l) = analyzer.parseable (analyzer.uniq seen2 l).
Proof.
  intro H. induction l as [ | x l IH]; intros seen1 seen2 Hs; simpl; [reflexivity | ].
  assert (Next : forall a b, (forall y, y <> v -> Str.mem y a = Str.mem y b) ->
                 forall y, y <> v -> Str.mem y (x :: a) = Str.mem y (x :: b)).
  { intros a b Hab y Hy. unfold Str.mem in *. simpl. rewrite (Hab y Hy). reflexivity. }
  destruct (String.eqb_spec x v) as [E | N].
  - subst x.
    assert (Same : forall a b, (forall y, y <> v -> Str.mem y a = Str.mem y b) ->
                   forall y, y <> v -> Str.mem y (v :: a) = Str.mem y b).
    { intros a b Hab y Hy. unfold Str.mem in *. simpl.
      destruct (String.eqb_spec y v) as [E | _]; [contradiction | ]. apply Hab. exact Hy. }
    destruct (Str.mem v seen1), (Str.mem v seen2); simpl; rewrite ?H.
    + apply IH. exact Hs.
    + apply IH. intros y Hy. symmetry. apply Same; [ | exact Hy ].
      intros z Hz. symmetry. apply Hs. exact Hz.
    + apply IH. apply Same. exact Hs.
    + apply IH. apply Next. exact Hs.
  - rewrite (Hs x N). destruct (Str.mem x seen2); simpl.
    + apply IH. exact Hs.
    + destruct (analyzer.parseColorToHSL x); [f_equal | ]; apply IH; apply Next; exact Hs.
Qed.

Lemma uniq_parseable_remove (v : string) (l1 l2 : list string) :
  analyzer.parseColorToHSL v = None ->
  forall seen,
    analyzer.parseable (analyzer.uniq seen (l1 ++ v :: l2))
    = analyzer.parseable (analyzer.uniq seen (l1 ++ l2)).
Proof.
  intro H. induction l1 as [ | x l1 IH]; intro seen; simpl.
  - destruct (Str.mem v seen); [reflexivity | ]. simpl. rewrite H.
    apply (uniq_parseable_seen v); [exact H | ].
    intros y Hy. unfold Str.mem. simpl.
    destruct (String.eqb_spec y v) as [E | _]; [contradiction | reflexivity].
  - destruct (Str.mem x seen); simpl; [apply IH | ].
    destruct (analyzer.parseColorToHSL x); [f_equal | ]; apply IH.
Qed.

Lemma gaps_exclude (c : Color) (l1 l2 : list Color) :
  analyzer.parseColorToHSL (Str.toLowerCase (value c)) = None ->
  analyzer.detectColorGaps (l1 ++ c :: l2) = analyzer.detectColorGaps (l1 ++ l2).
Proof.
  intro H. unfold analyzer.detectColorGaps, analyzer.unique_values.
  rewrite !map_app. simpl. rewrite (uniq_parseable_remove _ _ _ H). reflexivity.
Qed.

Lemma parseableWithName_In (x : string) (v : analyzer.HSL) (colors : list string) :
  In (x, v) (analyzer.parseableWithName colors) -> analyzer.parseColorToHSL x = Some v.
Proof.
  induction colors as [ | c rest IH]; simpl; [contradiction | ].
  destruct (analyzer.parseColorToHSL c) as [y | ] eqn:E; [ | exact IH ].
  intros [H | H]; [inversion H; subst; exact E | exact (IH H)].
Qed.

Lemma firstn_In {A : Type} (n : nat) (l : list A) (x : A) : In x (firstn n l) -> In x l.
Proof.
  revert l. induction n as [ | n IH]; intros l H; [contradiction | ].
  destruct l as [ | a l]; [contradiction | ].
  destruct H as [H | H]; [left; exact H | right; exact (IH _ H)].
Qed.

Lemma clusters_parseable (colors : list Color) (maxClusters : nat)
  (cl : analyzer.ColorCluster) (name x : string) :
  In cl (analyzer.clusterColors colors maxClusters) ->
  analyzer.label cl = Some name ->
  In x (analyzer.cluster_colors cl) ->
  exists v, analyzer.parseColorToHSL x = Some v.
Proof.
  unfold analyzer.clusterColors. intros Hin Hl Hx.
  destruct (_ <=? _).
  - apply in_map_iff in Hin. destruct Hin as (y & E & _). subst cl. discriminate.
  - destruct (analyzer.parseableWithName (analyzer.unique_values colors)) as [ | p ps] eqn:Ep;
      [contradiction | ].
    apply firstn_In in Hin. apply in_flat_map in Hin. destruct Hin as (range & _ & Hin).
    destruct range as [[lo hi] nm]. unfold analyzer.clusterOfRange in Hin.
    remember (filter _ (p :: ps)) as inRange eqn:Er.
    destruct (List.map fst inRange) as [ | [ | a0 s0] more] eqn:Em; try contradiction.
    destruct Hin as [Hin | []]. subst cl. cbn [analyzer.cluster_colors] in Hx.
    rewrite <- Em in Hx.
    apply in_map_iff in Hx. destruct Hx as ([y v] & E & Hy). simpl in E. subst y.
    rewrite Er in Hy. apply filter_In in Hy. destruct Hy as [Hy _].
    exists v. rewrite <- Ep in Hy. exact (parseableWithName_In _ _ _ Hy).
Qed.

End Excluded.

(** C10, refuted as stated: the JavaScript extractor emits, with the format
    [rgb], the value of a string literal that begins with an rgb() literal
    and goes on with an hsl() literal; the value is neither a hex nor, as a
    whole, an hsl() literal of the analyzer's validation patterns, and
    [parseColorToHSL] accepts it, reading the hsl() literal inside. *)
Lemma parseColorToHSL_accepts_embedded_hsl :
  let v := "rgb(1,2,3) hsl(4,5%,6%)"%string in
  In {| value := v; format := rgb;
        position := Some {| line := 1; column := 29 |};
        context := Some "const style = { background: 'rgb(1,2,3) hsl(4,5%,6%)' };"%string |}
     (javascript.extractFromJavaScript
        "const style = { background: 'rgb(1,2,3) hsl(4,5%,6%)' };") /\
  analyzer.parseColorToHSL v = Some {| analyzer.h := 4; analyzer.s := 5; analyzer.l := 6 |} /\
  Regex.test Regex.flag_i analyzer.validHex v = false /\
  Regex.test Regex.flag_i analyzer.validHsl v = false.
Proof.
  repeat split; try (vm_compute; reflexivity).
  vm_compute. right. right. left. reflexivity.
Qed.

(** C10, amended.  A value is HSL-parseable only if it is a 3- or 6-digit
    hex literal or contains an hsl(h, s%, l%) literal (a substring in the
    language of the pattern, in either case).  A value that is as a whole an
    rgb(), rgba() or hsla() literal of the validation patterns, an 8-digit
    hex literal or a named colour keyword is rejected.  A rejected value
    takes no part in the three averages of [calculateColorStatistics], in the
    type and confidence of [detectColorHarmony], in [determineTemperature]
    and [determineMood], in [detectColorGaps], and every color of a hue-band
    cluster of [clusterColors] is parseable. *)
Theorem parseColorToHSL_accepts_only :
  (forall (s : string) (x : analyzer.HSL),
      analyzer.parseColorToHSL s = Some x ->
      hexLiteral 3 s \/ hexLiteral 6 s \/ Regex.contains Regex.flag_i analyzer.hslPattern s) /\
  (forall s : string,
      Regex.test Regex.flag_i analyzer.validRgb s = true
      \/ Regex.test Regex.flag_i analyzer.validRgba s = true
      \/ Regex.test Regex.flag_i analyzer.validHsla s = true
      \/ hexLiteral 8 s
      \/ In s namedKeywords ->
      analyzer.parseColorToHSL s = None) /\
  (forall (c : Color) (l1 l2 : list Color),
      analyzer.parseColorToHSL (value c) = None ->
      let a := analyzer.calculateColorStatistics (l1 ++ c :: l2) in
      let b := analyzer.calculateColorStatistics (l1 ++ l2) in
      analyzer.dominantHue a = analyzer.dominantHue b /\
      analyzer.averageSaturation a = analyzer.averageSaturation b /\
      analyzer.averageLightness a = analyzer.averageLightness b) /\
  (forall (c : string) (l1 l2 : list string),
      analyzer.parseColorToHSL c = None ->
      let a := analyzer.detectColorHarmony (l1 ++ c :: l2) in
      let b := analyzer.detectColorHarmony (l1 ++ l2) in
      analyzer.harmony_type a = analyzer.harmony_type b /\
      analyzer.confidence a = analyzer.confidence b /\
      analyzer.determineTemperature (l1 ++ c :: l2) = analyzer.determineTemperature (l1 ++ l2) /\
      analyzer.determineMood (l1 ++ c :: l2) = analyzer.determineMood (l1 ++ l2)) /\
  (forall (c : Color) (l1 l2 : list Color),
      analyzer.parseColorToHSL (Str.toLowerCase (value c)) = None ->
      analyzer.detectColorGaps (l1 ++ c :: l2) = analyzer.detectColorGaps (l1 ++ l2)) /\
  (forall (colors : list Color) (maxClusters : nat) (cl : analyzer.ColorCluster)
          (name x : string),
      In cl (analyzer.clusterColors colors maxClusters) ->
      analyzer.label cl = Some name ->
      In x (analyzer.cluster_colors cl) ->
      exists v, analyzer.parseColorToHSL x = Some v).
Proof.
  split; [exact parseColorToHSL_some | ].
  split.
  { intros s [H | [H | [H | [H | H]]]].
    - exact (rgb_rejected s H).
    - exact (rgba_rejected s H).
    - exact (hsla_rejected s H).
    - exact (hex8_rejected s H).
    - exact (named_rejected s H). }
  split; [exact statistics_exclude | ].
  split.
  { intros c l1 l2 H a b.
    destruct (harmony_exclude c l1 l2 H) as [H1 H2].
    destruct (temperature_mood_exclude c l1 l2 H) as [H3 H4].
    repeat split; assumption. }
  split; [exact gaps_exclude | exact clusters_parseable].
Qed.

Lemma parseColorToHSL_accepts_only_witness :
  (hexLiteral 3 "#ff8000" \/ hexLiteral 6 "#ff8000"
   \/ Regex.contains Regex.flag_i analyzer.hslPattern "#ff8000") /\
  analyzer.parseColorToHSL "rgba(1, 2, 3, 0.5)" = None /\
  analyzer.parseColorToHSL "hsla(1, 2%, 3%, 0.5)" = None /\
  analyzer.parseColorToHSL "#11223344" = None /\
  analyzer.parseColorToHSL "teal" = None /\
  analyzer.detectColorGaps
    ([] ++ {| value := "RGB(1,2,3)"; format := rgb; position := None; context := None |}
        :: [ {| value := "#ff0000"; format := hex; position := None; context := None |} ])
  = analyzer.detectColorGaps
      ([] ++ [ {| value := "#ff0000"; format := hex; position := None; context := None |} ]).
Proof.
  destruct parseColorToHSL_accepts_only as (T1 & T2 & _ & _ & T5 & _).
  split; [ | split; [ | split; [ | split; [ | split ] ] ] ].
  - exact (T1 "#ff8000"%string {| analyzer.h := 30; analyzer.s := 100; analyzer.l := 50 |}
              eq_refl).
  - apply T2. right. left. reflexivity.
  - apply T2. right. right. left. reflexivity.
  - apply T2. right. right. right. left.
    exists "11223344"%string. repeat split.
  - apply T2. right. right. right. right. vm_compute. tauto.
  - apply T5. reflexivity.
Defined.

(** The 3-digit hex literals.  [parseColorToHSL] hands a 3-digit literal to
    [hexToHSL], whose pattern reads three pairs of digits, so every 3-digit
    hex literal is rejected. *)
Theorem parseColorToHSL_rejects_hex3 (s : string) :
  hexLiteral 3 s -> analyzer.parseColorToHSL s = None.
Proof.
  intros (d & E & Hl & Hd). subst s.
  assert (Hx : analyzer.hexToHSL (String "#" d) = None).
  { unfold analyzer.hexToHSL.
    destruct (Regex.exec Regex.flag_i analyzer.hexChannels (String "#" d)) as [m | ] eqn:E1;
      [ | reflexivity ].
    exfalso. apply exec_anchored in E1; try reflexivity.
    cbv beta iota delta [analyzer.hexChannels Regex.seq Regex.rep Regex.opt Regex.ch
                         analyzer.hexClass] in E1.
    inversion E1 as [ | | r1 r2 s1 s2 L1 L2 | | | | | | | | ]; clear E1; subst.
    inversion L1; clear L1; subst.
    inversion L2 as [ | | r1 r2 s1 s3 L3 L4 | | | | | | | | ]; clear L2; subst.
    assert (Hlen : 6 <= String.length s3).
    { clear - L4.
      inversion L4 as [ | | r1 r2 g1 s4 G1 L5 | | | | | | | | ]; clear L4; subst.
      inversion L5 as [ | | r1 r2 g2 s5 G2 L6 | | | | | | | | ]; clear L5; subst.
      inversion L6 as [ | | r1 r2 g3 s6 G3 L7 | | | | | | | | ]; clear L6; subst.
      inversion G1 as [ | | | | | | | n r s G1' | | | ]; clear G1; subst.
      inversion G2 as [ | | | | | | | n r s G2' | | | ]; clear G2; subst.
      inversion G3 as [ | | | | | | | n r s G3' | | | ]; clear G3; subst.
      inversion G1' as [ | | r1 r2 a1 a2 A1 A2 | | | | | | | | ]; clear G1'; subst.
      inversion G2' as [ | | r1 r2 b1 b2 B1 B2 | | | | | | | | ]; clear G2'; subst.
      inversion G3' as [ | | r1 r2 c1 c2 C1 C2 | | | | | | | | ]; clear G3'; subst.
      inversion A1; inversion A2; inversion B1; inversion B2; inversion C1; inversion C2;
        subst. rewrite !sapp_length. simpl. lia. }
    assert (Hs1 : String.length s1 <= 1).
    { inversion L3 as [ | | | r1 r2 s L | r1 r2 s L | | | | | | ]; subst;
        inversion L; subst; simpl; lia. }
    assert (Htot : String.length (EmptyString ++ s1 ++ s3) = 4).
    { match goal with H : (_ ++ _)%string = String "#" d |- _ => rewrite H end.
      simpl. rewrite Hl. reflexivity. }
    simpl in Htot. rewrite sapp_length in Htot.
    lia. }
  unfold analyzer.parseColorToHSL.
  destruct (Regex.exec Regex.flag_i analyzer.hexPattern (String "#" d)); [exact Hx | ].
  rewrite (exec_none_by_first Regex.flag_i analyzer.hslPattern (String "#" d) eq_refl);
    [reflexivity | ].
  simpl. eapply allChars_weaken; [ | exact Hd ].
  intros c Hc. apply hexAny_alphabet in Hc. unfold startsNoMatch in Hc.
  apply andb_true_iff in Hc. apply Hc.
Qed.

Lemma parseColorToHSL_rejects_hex3_witness : analyzer.parseColorToHSL "#f00" = None.
Proof.
  apply parseColorToHSL_rejects_hex3. exists "f00"%string. repeat split.
Defined.

(** The hue bands of [clusterColors].  Every color of a labelled cluster is
    parseable with a hue inside one of the seven bands [lo, hi), the last of
    which is [300, 360); the hue 360, which [parseColorToHSL] returns for
    [#ff0001], lies in none of them, so such a color belongs to no labelled
    cluster. *)
Theorem clusterColors_hue_bands :
  (forall (colors : list Color) (maxClusters : nat) (cl : analyzer.ColorCluster)
          (name x : string),
      In cl (analyzer.clusterColors colors maxClusters) ->
      analyzer.label cl = Some name ->
      In x (analyzer.cluster_colors cl) ->
      exists v, analyzer.parseColorToHSL x = Some v /\ inBand (analyzer.h v) = true) /\
  analyzer.parseColorToHSL "#ff0001"
  = Some {| analyzer.h := 360; analyzer.s := 100; analyzer.l := 50 |} /\
  inBand 360 = false.
Proof.
  split; [ | split; vm_compute; reflexivity ].
  intros colors maxClusters cl name x. unfold analyzer.clusterColors. intros Hin Hl Hx.
  destruct (_ <=? _).
  - apply in_map_iff in Hin. destruct Hin as (y & E & _). subst cl. discriminate.
  - destruct (analyzer.parseableWithName (analyzer.unique_values colors)) as [ | p ps] eqn:Ep;
      [contradiction | ].
    apply firstn_In in Hin. apply in_flat_map in Hin. destruct Hin as (range & Hr & Hin).
    destruct range as [[lo hi] nm]. unfold analyzer.clusterOfRange in Hin.
    remember (filter _ (p :: ps)) as inRange eqn:Er.
    destruct (List.map fst inRange) as [ | [ | a0 s0] more] eqn:Em; try contradiction.
    destruct Hin as [Hin | []]. subst cl. cbn [analyzer.cluster_colors] in Hx.
    rewrite <- Em in Hx.
    apply in_map_iff in Hx. destruct Hx as ([y v] & E & Hy). simpl in E. subst y.
    rewrite Er in Hy. apply filter_In in Hy. destruct Hy as [Hy Hband].
    exists v. split.
    + rewrite <- Ep in Hy. exact (parseableWithName_In _ _ _ Hy).
    + unfold inBand. apply existsb_exists. exists (lo, hi, nm). split; [exact Hr | exact Hband].
Qed.

Lemma clusterColors_hue_bands_witness :
  exists v, analyzer.parseColorToHSL "#ff0000" = Some v /\ inBand (analyzer.h v) = true.
Proof.
  refine (proj1 clusterColors_hue_bands
            (List.map (fun v => {| value := v; format := hex; position := None; context := None |})
                      ["#ff0001"; "#ff0000"; "#00ff00"]%string)
            2
            {| analyzer.centroid := "#ff0000"; analyzer.cluster_colors := ["#ff0000"%string];
               analyzer.size := 1; analyzer.variance := 0; analyzer.label := Some "Red"%string |}
            "Red"%string "#ff0000"%string _ eq_refl (or_introl eq_refl)).
  vm_compute. left. reflexivity.
Defined.


(** ** The [Map] that removes duplicates *)

Lemma mapSet_keys {A : Type} (k : string) (v : A) (m : list (string * A)) :
  List.map fst (extraction.mapSet k v m)
  = if existsb (fun e => String.eqb (fst e) k) m then List.map fst m
    else List.map fst m ++ [k].
Proof.
  induction m as [ | [k' v'] t IH]; simpl; [reflexivity | ].
  destruct (String.eqb k' k) eqn:E; simpl.
  - apply String.eqb_eq in E. subst k'. reflexivity.
  - rewrite IH. destruct (existsb _ t); reflexivity.
Qed.

Lemma existsb_key {A : Type} (k : string) (m : list (string * A)) :
  existsb (fun e => String.eqb (fst e) k) m = true <-> In k (List.map fst m).
Proof.
  rewrite existsb_exists, in_map_iff. split.
  - intros (e & He & E). apply String.eqb_eq in E. exists e. split; assumption.
  - intros (e & E & He). exists e. split; [exact He | apply String.eqb_eq; exact E].
Qed.

Lemma mapSet_NoDup {A : Type} (k : string) (v : A) (m : list (string * A)) :
  NoDup (List.map fst m) -> NoDup (List.map fst (extraction.mapSet k v m)).
Proof.
  intro H. rewrite mapSet_keys.
  destruct (existsb _ m) eqn:E; [exact H | ].
  apply NoDup_app; [exact H | repeat constructor; intros [] | ].
  intros x Hx [Hk | []]. subst x.
  apply existsb_key in Hx. rewrite Hx in E. discriminate.
Qed.

Lemma mapSet_In_strong {A : Type} (k : string) (v : A) (m : list (string * A))
  (y : string * A) :
  NoDup (List.map fst m) -> In y (extraction.mapSet k v m) ->
  y = (k, v) \/ (In y m /\ fst y <> k).
Proof.
  induction m as [ | [k' v'] t IH]; simpl; intros N H.
  - destruct H as [H | []]. left. symmetry. exact H.
  - inversion N as [ | a b Hn N']; subst.
    destruct (String.eqb k' k) eqn:E.
    + apply String.eqb_eq in E. subst k'.
      destruct H as [H | H]; [left; symmetry; exact H | right].
      split; [right; exact H | ].
      intro Hk. apply Hn. rewrite <- Hk. apply in_map. exact H.
    + apply String.eqb_neq in E.
      destruct H as [H | H].
      * right. subst y. split; [left; reflexivity | exact E].
      * destruct (IH N' H) as [Hy | [Hy Hk]]; [left; exact Hy | right].
        split; [right; exact Hy | exact Hk].
Qed.

Lemma mapSet_In_new {A : Type} (k : string) (v : A) (m : list (string * A)) :
  In (k, v) (extraction.mapSet k v m).
Proof.
  induction m as [ | [k' v'] t IH]; simpl; [left; reflexivity | ].
  destruct (String.eqb k' k); [left; reflexivity | right; exact IH].
Qed.

Section Dedupe.
Import extraction.

Lemma dedupe_fold_NoDup (colors : list Color) :
  forall m, NoDup (List.map fst m) -> NoDup (List.map fst (fold_left (fun m c => mapSet (dedupeKey c) c m) colors m)).
Proof.
  induction colors as [ | c rest IH]; intros m H; simpl; [exact H | ].
  apply IH. apply mapSet_NoDup. exact H.
Qed.

Lemma dedupe_fold_last (colors : list Color) :
  forall (m : list (string * Color)) (k : string) (c : Color),
    NoDup (List.map fst m) ->
    In (k, c) (fold_left (fun m c => mapSet (dedupeKey c) c m) colors m) ->
    (k = dedupeKey c /\
     exists l1 l2, colors = l1 ++ c :: l2 /\ forall d, In d l2 -> dedupeKey d <> dedupeKey c)
    \/ (In (k, c) m /\ forall d, In d colors -> dedupeKey d <> k).
Proof.
  induction colors as [ | x rest IH]; intros m k c N H; simpl in H.
  - right. split; [exact H | intros d []].
  - destruct (IH _ k c (mapSet_NoDup _ x m N) H) as [(Ek & l1 & l2 & E & L) | (Hin & L)].
    + left. split; [exact Ek | ]. exists (x :: l1), l2. split; [rewrite E; reflexivity | exact L].
    + destruct (mapSet_In_strong _ _ _ _ N Hin) as [Hy | [Hy Hk]].
      * inversion Hy; subst. left. split; [reflexivity | ].
        exists [], rest. split; [reflexivity | exact L].
      * right. split; [exact Hy | ]. intros d [Hd | Hd]; [subst d | exact (L d Hd)].
        simpl in Hk. intro Ek. apply Hk. symmetry. exact Ek.
Qed.

Lemma dedupe_fold_covers (colors : list Color) :
  forall (m : list (string * Color)) (k : string),
    In k (List.map dedupeKey colors) \/ In k (List.map fst m) ->
    In k (List.map fst (fold_left (fun m c => mapSet (dedupeKey c) c m) colors m)).
Proof.
  induction colors as [ | x rest IH]; intros m k H; simpl.
  - destruct H as [[] | H]. exact H.
  - apply IH. simpl in H. destruct H as [[H | H] | H].
    + right. subst k. apply (in_map fst _ _ (mapSet_In_new (dedupeKey x) x m)).
    + left. exact H.
    + right. cbv beta. rewrite mapSet_keys. destruct (existsb _ m); [exact H | ].
      apply in_or_app. left. exact H.
Qed.

Lemma dedupe_fold_keys (colors : list Color) :
  forall (m : list (string * Color)),
    (forall e, In e m -> fst e = dedupeKey (snd e)) ->
    forall e, In e (fold_left (fun m c => mapSet (dedupeKey c) c m) colors m) -> fst e = dedupeKey (snd e).
Proof.
  induction colors as [ | x rest IH]; intros m Hm e H; simpl in H; [exact (Hm e H) | ].
  apply (IH (mapSet (dedupeKey x) x m)); [ | exact H ].
  intros e' He'. cbv beta in He'.
  destruct (mapSet_In _ _ _ _ He') as [E | E]; [subst e'; reflexivity | exact (Hm e' E)].
Qed.

Lemma dedupe_keys (colors : list Color) :
  List.map dedupeKey (dedupe colors) = List.map fst (fold_left (fun m c => mapSet (dedupeKey c) c m) colors []).
Proof.
  unfold dedupe. rewrite map_map. apply map_ext_in.
  intros e He. symmetry. apply (dedupe_fold_keys colors []); [intros e' [] | exact He].
Qed.

Lemma dedupe_NoDup (colors : list Color) : NoDup (List.map dedupeKey (dedupe colors)).
Proof. rewrite dedupe_keys. apply dedupe_fold_NoDup. constructor. Qed.

Lemma dedupe_last (colors : list Color) (c : Color) :
  In c (dedupe colors) ->
  exists l1 l2, colors = l1 ++ c :: l2 /\ forall d, In d l2 -> dedupeKey d <> dedupeKey c.
Proof.
  unfold dedupe. intro H. apply in_map_iff in H. destruct H as ([k c'] & E & H).
  simpl in E. subst c'.
  destruct (dedupe_fold_last colors [] k c (NoDup_nil _) H) as [(_ & R) | ([] & _)]. exact R.
Qed.

Lemma dedupe_covers (colors : list Color) (c : Color) :
  In c colors -> exists d, In d (dedupe colors) /\ dedupeKey d = dedupeKey c.
Proof.
  intro H.
  assert (K : In (dedupeKey c) (List.map dedupeKey (dedupe colors))).
  { rewrite dedupe_keys. apply dedupe_fold_covers. left. apply in_map. exact H. }
  apply in_map_iff in K. destruct K as (d & E & Hd). exists d. split; assumption.
Qed.

Lemma dedupe_valueAndLine (colors : list Color) :
  NoDup (List.map valueAndLine (dedupe colors)).
Proof.
  pose proof (dedupe_NoDup colors) as H.
  assert (E : List.map dedupeKey (dedupe colors)
              = List.map (fun p => (fst p ++ "-" ++ Num.showNat 10 (Z.of_nat (snd p)))%string)
                         (List.map valueAndLine (dedupe colors))).
  { rewrite map_map. apply map_ext. intro c. unfold dedupeKey, valueAndLine. simpl.
    destruct (position c); reflexivity. }
  rewrite E in H. exact (NoDup_map_inv _ _ H).
Qed.

End Dedupe.

(** The [Map] of the HTML, JavaScript and SVG extractors.  Its result has
    no two colors with the same key, the key being the value and the line;
    a color of the result is the last pushed color with its key; and every
    pushed color has its key in the result.  So none of the three extractors
    returns two colors with the same value on the same line. *)
Theorem dedupe_keeps_last_of_each_key :
  (forall colors : list Color,
      NoDup (List.map extraction.dedupeKey (extraction.dedupe colors)) /\
      (forall c, In c (extraction.dedupe colors) ->
                 exists l1 l2, colors = l1 ++ c :: l2 /\
                               forall d, In d l2 ->
                                         extraction.dedupeKey d <> extraction.dedupeKey c) /\
      (forall c, In c colors ->
                 exists d, In d (extraction.dedupe colors) /\
                           extraction.dedupeKey d = extraction.dedupeKey c)) /\
  (forall content : string,
      NoDup (List.map valueAndLine (html.extractFromHtml content)) /\
      NoDup (List.map valueAndLine (javascript.extractFromJavaScript content)) /\
      NoDup (List.map valueAndLine (svg.extractFromSvg content))).
Proof.
  split.
  - intro colors. split; [apply dedupe_NoDup | split].
    + exact (dedupe_last colors).
    + exact (dedupe_covers colors).
  - intro content. repeat split; apply dedupe_valueAndLine.
Qed.

(** On a line with the same color twice the JavaScript extractor returns one
    color, the one pushed last. *)
Lemma dedupe_keeps_last_of_each_key_witness :
  let a := {| value := "#fff"; format := hex; position := Some {| line := 1; column := 8 |};
              context := Some "color: #fff; fill: #fff"%string |} in
  let b := {| value := "#fff"; format := hex; position := Some {| line := 1; column := 20 |};
              context := Some "color: #fff; fill: #fff"%string |} in
  javascript.collect "color: #fff; fill: #fff" = [a; b] /\
  javascript.extractFromJavaScript "color: #fff; fill: #fff" = [b] /\
  exists l1 l2, [a; b] = l1 ++ b :: l2 /\
                forall d, In d l2 -> extraction.dedupeKey d <> extraction.dedupeKey b.
Proof.
  intros a b. split; [vm_compute; reflexivity | split; [vm_compute; reflexivity | ] ].
  apply (proj1 (proj2 (proj1 dedupe_keeps_last_of_each_key [a; b])) b).
  vm_compute. left. reflexivity.
Defined.


(** ** dedupeColors *)

Section DedupeColors.
Import dedupe.

Lemma mem_In (x : string) (xs : list string) : Str.mem x xs = true <-> In x xs.
Proof.
  unfold Str.mem. rewrite existsb_exists. split.
  - intros (y & Hy & E). apply String.eqb_eq in E. subst y. exact Hy.
  - intro H. exists x. split; [exact H | apply String.eqb_refl].
Qed.

Lemma dedupeLoop_subsequence (lines : list string) :
  forall seen, subsequence (dedupeLoop seen lines) lines.
Proof.
  induction lines as [ | x rest IH]; intro seen; simpl; [constructor | ].
  destruct (Str.trim x) eqn:E; [constructor; apply IH | ].
  destruct (Str.mem _ seen); constructor; apply IH.
Qed.

Lemma dedupeLoop_In (lines : list string) :
  forall seen y, In y (dedupeLoop seen lines) ->
                 In y lines /\ Str.trim y <> EmptyString /\ ~ In (Str.trim y) seen.
Proof.
  induction lines as [ | x rest IH]; intros seen y H; simpl in H; [contradiction | ].
  destruct (Str.trim x) as [ | a t] eqn:E.
  - destruct (IH _ _ H) as (H1 & H2 & H3). repeat split; [right | | ]; assumption.
  - destruct (Str.mem (String a t) seen) eqn:M.
    + destruct (IH _ _ H) as (H1 & H2 & H3). repeat split; [right | | ]; assumption.
    + destruct H as [H | H].
      * subst y. repeat split; [left; reflexivity | rewrite E; discriminate | ].
        rewrite E. intro F. apply mem_In in F. rewrite F in M. discriminate.
      * destruct (IH _ _ H) as (H1 & H2 & H3). repeat split; [right; exact H1 | exact H2 | ].
        intro F. apply H3. right. exact F.
Qed.

Lemma dedupeLoop_NoDup (lines : list string) :
  forall seen, NoDup (List.map Str.trim (dedupeLoop seen lines)).
Proof.
  induction lines as [ | x rest IH]; intro seen; simpl; [constructor | ].
  destruct (Str.trim x) as [ | a t] eqn:E; [apply IH | ].
  destruct (Str.mem (String a t) seen); [apply IH | ].
  simpl. constructor; [ | apply IH ].
  intro F. apply in_map_iff in F. destruct F as (y & Ey & Hy).
  destruct (dedupeLoop_In _ _ _ Hy) as (_ & _ & H3). apply H3. left. rewrite Ey. symmetry. exact E.
Qed.

Lemma dedupeLoop_covers (lines : list string) :
  forall seen x, In x lines -> Str.trim x <> EmptyString ->
                 In (Str.trim x) seen \/ In (Str.trim x) (List.map Str.trim (dedupeLoop seen lines)).
Proof.
  induction lines as [ | y rest IH]; intros seen x H Hx; simpl in H; [contradiction | ].
  simpl. destruct H as [H | H].
  - subst y. destruct (Str.trim x) as [ | a t] eqn:E; [contradiction Hx; reflexivity | ].
    destruct (Str.mem (String a t) seen) eqn:M.
    + left. apply mem_In. exact M.
    + right. simpl. left. exact E.
  - destruct (Str.trim y) as [ | a t] eqn:E; [exact (IH seen x H Hx) | ].
    destruct (Str.mem (String a t) seen) eqn:M; [exact (IH seen x H Hx) | ].
    destruct (IH (String a t :: seen) x H Hx) as [[F | F] | F].
    + right. simpl. left. rewrite E. exact F.
    + left. exact F.
    + right. simpl. right. exact F.
Qed.

Lemma dedupeLoop_first (lines : list string) :
  forall seen y, In y (dedupeLoop seen lines) ->
    exists l1 l2, lines = l1 ++ y :: l2 /\ forall x, In x l1 -> Str.trim x <> Str.trim y.
Proof.
  induction lines as [ | x rest IH]; intros seen y H; simpl in H; [contradiction | ].
  assert (Skip : forall seen', In y (dedupeLoop seen' rest) ->
                               (Str.trim x = EmptyString \/ In (Str.trim x) seen') ->
                               exists l1 l2, x :: rest = l1 ++ y :: l2 /\
                                             forall z, In z l1 -> Str.trim z <> Str.trim y).
  { intros seen' Hy Hx. destruct (IH _ _ Hy) as (l1 & l2 & E & L).
    exists (x :: l1), l2. split; [rewrite E; reflexivity | ].
    intros z [Hz | Hz]; [subst z | exact (L z Hz)].
    destruct (dedupeLoop_In _ _ _ Hy) as (_ & H2 & H3).
    intro F. destruct Hx as [Hx | Hx]; [apply H2; rewrite <- F; exact Hx | ].
    apply H3. rewrite <- F. exact Hx. }
  destruct (Str.trim x) as [ | a t] eqn:E.
  - apply (Skip seen H). left. reflexivity.
  - destruct (Str.mem (String a t) seen) eqn:M.
    + apply (Skip seen H). right. apply mem_In. exact M.
    + destruct H as [H | H].
      * subst y. exists [], rest. split; [reflexivity | intros z []].
      * apply (Skip _ H). right. left. reflexivity.
Qed.

Lemma dedupeLoop_idempotent (lines : list string) :
  forall seen, dedupeLoop seen (dedupeLoop seen lines) = dedupeLoop seen lines.
Proof.
  induction lines as [ | x rest IH]; intro seen; simpl; [reflexivity | ].
  destruct (Str.trim x) as [ | a t] eqn:E; [apply IH | ].
  destruct (Str.mem (String a t) seen) eqn:M; [apply IH | ].
  simpl. rewrite E, M, IH. reflexivity.
Qed.

End DedupeColors.

(** [dedupeColors] keeps, in their order, the first line of each trimmed
    text and drops the blank lines: the result is the input with lines left
    out, none of its lines is blank, no two have the same trimmed text,
    every line kept has no earlier line with its trimmed text, every line
    that is not blank has its trimmed text in the result, and the function
    is idempotent. *)
Theorem dedupeColors_first_of_each (lines : list string) :
  let kept := dedupe.dedupeColors lines in
  subsequence kept lines /\
  (forall y, In y kept -> Str.trim y <> EmptyString) /\
  NoDup (List.map Str.trim kept) /\
  (forall y, In y kept ->
             exists l1 l2, lines = l1 ++ y :: l2 /\
                           forall x, In x l1 -> Str.trim x <> Str.trim y) /\
  (forall x, In x lines -> Str.trim x <> EmptyString ->
             exists y, In y kept /\ Str.trim y = Str.trim x) /\
  dedupe.dedupeColors kept = kept.
Proof.
  intro kept. subst kept. unfold dedupe.dedupeColors.
  split; [apply dedupeLoop_subsequence | ].
  split; [intros y H; exact (proj1 (proj2 (dedupeLoop_In _ _ _ H))) | ].
  split; [apply dedupeLoop_NoDup | ].
  split; [exact (dedupeLoop_first lines []) | ].
  split; [ | apply dedupeLoop_idempotent ].
  intros x H Hx. destruct (dedupeLoop_covers lines [] x H Hx) as [[] | F].
  apply in_map_iff in F. destruct F as (y & E & Hy). exists y. split; assumption.
Qed.

Lemma dedupeColors_first_of_each_witness :
  dedupe.dedupeColors [" #fff"; "#fff "; "  "; "#000"; "#fff"]%string = [" #fff"; "#000"]%string /\
  exists y, In y (dedupe.dedupeColors [" #fff"; "#fff "; "  "; "#000"; "#fff"]%string) /\
            Str.trim y = Str.trim "#fff ".
Proof.
  split; [reflexivity | ].
  apply (proj1 (proj2 (proj2 (proj2 (proj2
           (dedupeColors_first_of_each [" #fff"; "#fff "; "  "; "#000"; "#fff"]%string)))))
           "#fff "%string).
  - right. left. reflexivity.
  - discriminate.
Defined.


(** ** The outcome of convertColor *)

Lemma serialize_cases (x : colorConverter.ColorSpace)
  (options : colorConverter.ColorConversionOptions) :
  (In (colorConverter.targetFormat options) colorConverter.getAvailableFormats /\
   exists converted, colorConverter.serialize x options = colorConverter.Normal converted)
  \/ (~ In (colorConverter.targetFormat options) colorConverter.getAvailableFormats /\
      colorConverter.serialize x options
      = colorConverter.Throw ("Unsupported target format: " ++ colorConverter.targetFormat options)).
Proof.
  unfold colorConverter.serialize, colorConverter.getAvailableFormats. cbv zeta.
  destruct (String.eqb_spec (colorConverter.targetFormat options) "hex") as [E1 | N1];
    [left; split; [rewrite E1; simpl; tauto | eexists; reflexivity] | ].
  destruct (String.eqb_spec (colorConverter.targetFormat options) "rgb") as [E2 | N2];
    [left; split; [rewrite E2; simpl; tauto | eexists; reflexivity] | ].
  destruct (String.eqb_spec (colorConverter.targetFormat options) "rgba") as [E3 | N3];
    [left; split; [rewrite E3; simpl; tauto | eexists; reflexivity] | ].
  destruct (String.eqb_spec (colorConverter.targetFormat options) "hsl") as [E4 | N4];
    [left; split; [rewrite E4; simpl; tauto | eexists; reflexivity] | ].
  destruct (String.eqb_spec (colorConverter.targetFormat options) "hsla") as [E5 | N5];
    [left; split; [rewrite E5; simpl; tauto | eexists; reflexivity] | ].
  destruct (String.eqb_spec (colorConverter.targetFormat options) "oklch") as [E6 | N6];
    [left; split; [rewrite E6; simpl; tauto | eexists; reflexivity] | ].
  right. split; [ | reflexivity ].
  simpl. intros [H | [H | [H | [H | [H | [H | []]]]]]]; symmetry in H; contradiction.
Qed.

Lemma convertColor_success
  (now : float) (c : Color) (options : colorConverter.ColorConversionOptions)
  (x : colorConverter.ColorSpace) :
  colorConverter.parseColorToRGB (value c) = Some x ->
  In (colorConverter.targetFormat options) colorConverter.getAvailableFormats ->
  exists r, colorConverter.convertColor now c options = colorConverter.Normal r /\
            colorConverter.success r = true.
Proof.
  intros P Hin. unfold colorConverter.convertColor, colorConverter.convertColor_try.
  rewrite P. destruct (serialize_cases x options) as [(_ & s & E) | (Hn & _)];
    [ | contradiction ].
  rewrite E. eexists. split; reflexivity.
Qed.

(** [convertColor] succeeds exactly when the value parses and the target
    format is one of [getAvailableFormats]; for a value that parses and any
    other target format the result has [success = false], the error
    [Unsupported target format: ...] and [converted] equal to the value. *)
Theorem convertColor_succeeds_iff
  (now : float) (c : Color) (options : colorConverter.ColorConversionOptions) :
  exists r, colorConverter.convertColor now c options = colorConverter.Normal r /\
    (colorConverter.success r = true <->
     (exists x, colorConverter.parseColorToRGB (value c) = Some x) /\
     In (colorConverter.targetFormat options) colorConverter.getAvailableFormats) /\
    (forall x, colorConverter.parseColorToRGB (value c) = Some x ->
       ~ In (colorConverter.targetFormat options) colorConverter.getAvailableFormats ->
       colorConverter.success r = false /\
       colorConverter.error r
       = Some ("Unsupported target format: " ++ colorConverter.targetFormat options)%string /\
       colorConverter.converted r = value c).
Proof.
  unfold colorConverter.convertColor, colorConverter.convertColor_try.
  destruct (colorConverter.parseColorToRGB (value c)) as [x | ].
  - destruct (serialize_cases x options) as [(Hin & s & E) | (Hn & E)]; rewrite E.
    + eexists. split; [reflexivity | ]. simpl. split.
      * split; [intros _; split; [exists x; reflexivity | exact Hin] | reflexivity].
      * intros y _ Hn. contradiction.
    + eexists. split; [reflexivity | ]. simpl. split.
      * split; [discriminate | intros [_ Hin]; contradiction].
      * intros y _ _. repeat split.
  - eexists. split; [reflexivity | ]. simpl. split.
    + split; [discriminate | intros [[x Hx] _]; discriminate].
    + intros x Hx. discriminate.
Qed.

Lemma convertColor_succeeds_iff_witness :
  let c := {| value := "#ff0000"; format := hex; position := None; context := None |} in
  let options := {| colorConverter.targetFormat := "cmyk";
                    colorConverter.preserveAlpha := None;
                    colorConverter.roundValues := None;
                    colorConverter.uppercase := None;
                    colorConverter.shortHex := None |} in
  exists r, colorConverter.convertColor 0%float c options = colorConverter.Normal r /\
            colorConverter.success r = false /\
            colorConverter.error r = Some "Unsupported target format: cmyk"%string /\
            colorConverter.converted r = "#ff0000"%string.
Proof.
  intros c options.
  destruct (convertColor_succeeds_iff 0%float c options) as (r & E & _ & H).
  exists r. split; [exact E | ].
  apply (H (colorConverter.mkRgb 255 0 0)).
  - vm_compute. reflexivity.
  - vm_compute. intros [H1 | [H1 | [H1 | [H1 | [H1 | [H1 | []]]]]]]; discriminate H1.
Defined.

(** ** validateColorFormat *)

(** A color that [validateColorFormat] accepts for a format parses, the
    format is one of hex, rgb, rgba, hsl and hsla, and [convertColor]
    succeeds on it for every available target format; so [oklch], which
    [getAvailableFormats] lists, is never a valid source format. *)
Theorem validateColorFormat_sound (color format0 : string) :
  colorConverter.validateColorFormat color format0 = true ->
  In format0 ["hex"; "rgb"; "rgba"; "hsl"; "hsla"]%string /\
  (exists x, colorConverter.parseColorToRGB color = Some x) /\
  forall (now : float) (c : Color) (options : colorConverter.ColorConversionOptions),
    value c = color ->
    In (colorConverter.targetFormat options) colorConverter.getAvailableFormats ->
    exists r, colorConverter.convertColor now c options = colorConverter.Normal r /\
              colorConverter.success r = true.
Proof.
  unfold colorConverter.validateColorFormat. intro H.
  destruct (colorConverter.parseColorToRGB color) as [x | ] eqn:P; [ | discriminate ].
  split; [ | split; [exists x; reflexivity | ] ].
  - destruct (String.eqb_spec format0 "hex") as [E | _]; [rewrite E; simpl; tauto | ].
    destruct (String.eqb_spec format0 "rgb") as [E | _]; [rewrite E; simpl; tauto | ].
    destruct (String.eqb_spec format0 "rgba") as [E | _]; [rewrite E; simpl; tauto | ].
    destruct (String.eqb_spec format0 "hsl") as [E | _]; [rewrite E; simpl; tauto | ].
    destruct (String.eqb_spec format0 "hsla") as [E | _]; [rewrite E; simpl; tauto | ].
    discriminate.
  - intros now c options Ev Hin.
    apply (convertColor_success now c options x); [rewrite Ev; exact P | exact Hin].
Qed.

Lemma validateColorFormat_sound_witness :
  In "rgb"%string ["hex"; "rgb"; "rgba"; "hsl"; "hsla"]%string /\
  (exists x, colorConverter.parseColorToRGB "RGB(1, 2, 3)" = Some x) /\
  forall (now : float) (c : Color) (options : colorConverter.ColorConversionOptions),
    value c = "RGB(1, 2, 3)"%string ->
    In (colorConverter.targetFormat options) colorConverter.getAvailableFormats ->
    exists r, colorConverter.convertColor now c options = colorConverter.Normal r /\
              colorConverter.success r = true.
Proof.
  exact (validateColorFormat_sound "RGB(1, 2, 3)" "rgb" eq_refl).
Defined.


(** ** Counting with a [Map] *)

Section Counting.
Context {K : Type} (eqb : K -> K -> bool).
Hypothesis eqb_eq : forall a b, eqb a b = true <-> a = b.

Lemma eqb_refl_K (a : K) : eqb a a = true.
Proof. apply eqb_eq. reflexivity. Qed.

Lemma eqb_sym_K (a b : K) : eqb a b = eqb b a.
Proof.
  destruct (eqb a b) eqn:E1, (eqb b a) eqn:E2; try reflexivity.
  - apply eqb_eq in E1. subst b. rewrite eqb_refl_K in E2. discriminate.
  - apply eqb_eq in E2. subst b. rewrite eqb_refl_K in E1. discriminate.
Qed.

Lemma occurrences_cons (k x : K) (l : list K) :
  occurrences eqb k (x :: l) = (if eqb k x then 1 else 0) + occurrences eqb k l.
Proof. unfold occurrences. simpl. destruct (eqb k x); reflexivity. Qed.

Lemma occurrences_pos (k : K) (l : list K) : In k l <-> 1 <= occurrences eqb k l.
Proof.
  induction l as [ | x l IH]; [simpl; split; [contradiction | unfold occurrences; simpl; lia] | ].
  rewrite occurrences_cons. split.
  - intros [H | H]; [subst x; rewrite eqb_refl_K; lia | apply IH in H; lia].
  - destruct (eqb k x) eqn:E; [intros _; left; symmetry; apply eqb_eq; exact E | ].
    intro H. right. apply IH. lia.
Qed.

Lemma occurrences_le (k : K) (l : list K) : occurrences eqb k l <= List.length l.
Proof. unfold occurrences. apply filter_length_le. Qed.

Lemma bump_keys (k : K) (m : list (K * nat)) :
  List.map fst (analyzer.bump eqb k m)
  = if existsb (fun e => eqb (fst e) k) m then List.map fst m else List.map fst m ++ [k].
Proof.
  induction m as [ | [k' n] t IH]; simpl; [reflexivity | ].
  destruct (eqb k' k); simpl; [reflexivity | ].
  rewrite IH. destruct (existsb _ t); reflexivity.
Qed.

Lemma existsb_keyK (k : K) (m : list (K * nat)) :
  existsb (fun e => eqb (fst e) k) m = true <-> In k (List.map fst m).
Proof.
  rewrite existsb_exists, in_map_iff. split.
  - intros (e & He & E). apply eqb_eq in E. exists e. split; assumption.
  - intros (e & E & He). exists e. split; [exact He | apply eqb_eq; exact E].
Qed.

Lemma bump_NoDup (k : K) (m : list (K * nat)) :
  NoDup (List.map fst m) -> NoDup (List.map fst (analyzer.bump eqb k m)).
Proof.
  intro H. rewrite bump_keys. destruct (existsb _ m) eqn:E; [exact H | ].
  apply NoDup_app; [exact H | repeat constructor; intros [] | ].
  intros x Hx [Hk | []]. subst x. apply existsb_keyK in Hx. rewrite Hx in E. discriminate.
Qed.

Lemma bump_sum (k : K) (m : list (K * nat)) :
  list_sum (List.map snd (analyzer.bump eqb k m)) = S (list_sum (List.map snd m)).
Proof.
  induction m as [ | [k' n] t IH]; simpl; [reflexivity | ].
  destruct (eqb k' k); simpl; [reflexivity | rewrite IH; lia].
Qed.

Lemma bump_In (k x : K) (n : nat) (m : list (K * nat)) :
  NoDup (List.map fst m) -> In (k, n) (analyzer.bump eqb x m) ->
  (k <> x /\ In (k, n) m)
  \/ (k = x /\ exists n1, In (x, n1) m /\ n = S n1)
  \/ (k = x /\ ~ In x (List.map fst m) /\ n = 1).
Proof.
  induction m as [ | [k' n'] t IH]; simpl; intros N H.
  - destruct H as [H | []]. inversion H; subst. right. right. repeat split. intros [].
  - inversion N as [ | a b Hn N']; subst.
    destruct (eqb k' x) eqn:E.
    + apply eqb_eq in E. subst k'. destruct H as [H | H].
      * inversion H; subst. right. left. split; [reflexivity | ].
        exists n'. split; [left; reflexivity | reflexivity].
      * left. split; [ | right; exact H ].
        intro Hk. subst k. apply Hn. apply (in_map fst _ _ H).
    + assert (Nk : k' <> x) by (intro F; subst k'; rewrite eqb_refl_K in E; discriminate).
      destruct H as [H | H].
      * inversion H; subst. left. split; [exact Nk | left; reflexivity].
      * destruct (IH N' H) as [(H1 & H2) | [(H1 & n1 & H2 & H3) | (H1 & H2 & H3)]].
        -- left. split; [exact H1 | right; exact H2].
        -- right. left. split; [exact H1 | ]. exists n1. split; [right; exact H2 | exact H3].
        -- right. right. split; [exact H1 | split; [ | exact H3 ] ].
           intros [F | F]; [exact (Nk F) | exact (H2 F)].
Qed.

Lemma countAll_fold_NoDup (l : list K) :
  forall m, NoDup (List.map fst m) ->
            NoDup (List.map fst (fold_left (fun m k => analyzer.bump eqb k m) l m)).
Proof.
  induction l as [ | x l IH]; intros m H; simpl; [exact H | ].
  apply IH. apply bump_NoDup. exact H.
Qed.

Lemma countAll_fold_sum (l : list K) :
  forall m, list_sum (List.map snd (fold_left (fun m k => analyzer.bump eqb k m) l m))
            = list_sum (List.map snd m) + List.length l.
Proof.
  induction l as [ | x l IH]; intro m; simpl; [lia | ].
  rewrite IH, bump_sum. lia.
Qed.

Lemma countAll_fold_In (l : list K) :
  forall m k n, NoDup (List.map fst m) ->
    In (k, n) (fold_left (fun m k => analyzer.bump eqb k m) l m) ->
    (exists n0, In (k, n0) m /\ n = n0 + occurrences eqb k l)
    \/ (~ In k (List.map fst m) /\ n = occurrences eqb k l /\ 1 <= n).
Proof.
  induction l as [ | x l IH]; intros m k n N H; simpl in H.
  - left. exists n. split; [exact H | unfold occurrences; simpl; lia].
  - rewrite occurrences_cons.
    destruct (IH _ k n (bump_NoDup x m N) H) as [(n0 & H0 & E) | (H0 & E & P)].
    + destruct (bump_In _ _ _ _ N H0) as [(H1 & H2) | [(H1 & n1 & H2 & H3) | (H1 & H2 & H3)]].
      * left. exists n0. split; [exact H2 | ].
        destruct (eqb k x) eqn:F; [apply eqb_eq in F; contradiction | lia].
      * left. subst k. exists n1. split; [exact H2 | ]. rewrite eqb_refl_K. lia.
      * right. subst k. rewrite eqb_refl_K. split; [exact H2 | lia].
    + right. assert (Hk : ~ In k (List.map fst m) /\ k <> x).
      { rewrite bump_keys in H0. destruct (existsb _ m) eqn:F.
        - split; [exact H0 | ]. intro Hx. subst x. apply H0. apply existsb_keyK. exact F.
        - split; [intro G; apply H0; apply in_or_app; left; exact G | ].
          intro Hx. subst x. apply H0. apply in_or_app. right. left. reflexivity. }
      destruct Hk as [Hk Hx]. split; [exact Hk | ].
      destruct (eqb k x) eqn:F; [apply eqb_eq in F; contradiction | ]. lia.
Qed.

Lemma countAll_fold_covers (l : list K) :
  forall m k, In k l \/ In k (List.map fst m) ->
              In k (List.map fst (fold_left (fun m k => analyzer.bump eqb k m) l m)).
Proof.
  induction l as [ | x l IH]; intros m k H; simpl.
  - destruct H as [[] | H]. exact H.
  - apply IH. rewrite bump_keys. destruct H as [[H | H] | H].
    + subst x. right. destruct (existsb _ m) eqn:F.
      * apply existsb_keyK. exact F.
      * apply in_or_app. right. left. reflexivity.
    + left. exact H.
    + right. destruct (existsb _ m); [exact H | apply in_or_app; left; exact H].
Qed.

Lemma countAll_NoDup (l : list K) : NoDup (List.map fst (analyzer.countAll eqb l)).
Proof. apply countAll_fold_NoDup. constructor. Qed.

Lemma countAll_sum (l : list K) :
  list_sum (List.map snd (analyzer.countAll eqb l)) = List.length l.
Proof. unfold analyzer.countAll. rewrite countAll_fold_sum. reflexivity. Qed.

Lemma countAll_In (l : list K) (k : K) (n : nat) :
  In (k, n) (analyzer.countAll eqb l) <-> n = occurrences eqb k l /\ 1 <= n.
Proof.
  split.
  - intro H. destruct (countAll_fold_In l [] k n (NoDup_nil _) H) as [(n0 & [] & _) | (_ & E & P)].
    split; assumption.
  - intros [E P]. assert (Hk : In k (List.map fst (analyzer.countAll eqb l))).
    { apply countAll_fold_covers. left. apply occurrences_pos. rewrite <- E. exact P. }
    apply in_map_iff in Hk. destruct Hk as ([k' n'] & Ek & Hk). simpl in Ek. subst k'.
    destruct (countAll_fold_In l [] k n' (NoDup_nil _) Hk) as [(n0 & [] & _) | (_ & E' & _)].
    rewrite E, <- E'. exact Hk.
Qed.

End Counting.

Lemma formatEqb_eq (a b : ColorFormat) : analyzer.formatEqb a b = true <-> a = b.
Proof. destruct a, b; simpl; split; intro H; try reflexivity; discriminate. Qed.

(** ** The distinct values *)

Lemma uniq_seen_equiv (l : list string) :
  forall s1 s2, (forall x, In x s1 <-> In x s2) -> analyzer.uniq s1 l = analyzer.uniq s2 l.
Proof.
  induction l as [ | x l IH]; intros s1 s2 H; simpl; [reflexivity | ].
  assert (E : Str.mem x s1 = Str.mem x s2).
  { destruct (Str.mem x s1) eqn:E1, (Str.mem x s2) eqn:E2; try reflexivity.
    - apply mem_In, H, mem_In in E1. rewrite E1 in E2. discriminate.
    - apply mem_In, H, mem_In in E2. rewrite E2 in E1. discriminate. }
  rewrite E. destruct (Str.mem x s2); [apply IH; exact H | ].
  f_equal. apply IH. intro y. simpl. rewrite H. reflexivity.
Qed.

Lemma uniq_In (l : list string) :
  forall seen x, In x (analyzer.uniq seen l) <-> In x l /\ ~ In x seen.
Proof.
  induction l as [ | y l IH]; intros seen x; simpl; [tauto | ].
  destruct (Str.mem y seen) eqn:M.
  - rewrite IH. apply mem_In in M. split.
    + intros [H1 H2]. split; [right; exact H1 | exact H2].
    + intros [[H1 | H1] H2]; [subst y; contradiction | split; assumption].
  - simpl. rewrite IH. simpl.
    assert (N : ~ In y seen) by (intro F; apply mem_In in F; rewrite F in M; discriminate).
    split.
    + intros [H | [H1 H2]]; [subst y; split; [left; reflexivity | exact N] | ].
      split; [right; exact H1 | intro F; apply H2; right; exact F].
    + intros [[H1 | H1] H2]; [left; exact H1 | ].
      destruct (String.eqb_spec y x) as [E | E]; [left; exact E | right].
      split; [exact H1 | intros [F | F]; [exact (E F) | exact (H2 F)]].
Qed.

Lemma uniq_NoDup (l : list string) : forall seen, NoDup (analyzer.uniq seen l).
Proof.
  induction l as [ | y l IH]; intro seen; simpl; [constructor | ].
  destruct (Str.mem y seen); [apply IH | ].
  constructor; [ | apply IH ]. intro F. apply uniq_In in F. destruct F as [_ F].
  apply F. left. reflexivity.
Qed.

Lemma uniq_length (l : list string) :
  forall seen, List.length (analyzer.uniq seen l) <= List.length l.
Proof.
  induction l as [ | y l IH]; intro seen; simpl; [lia | ].
  destruct (Str.mem y seen); simpl; [specialize (IH seen) | specialize (IH (y :: seen))]; lia.
Qed.

Lemma string_eqb_eq (a b : string) : String.eqb a b = true <-> a = b.
Proof. apply String.eqb_eq. Qed.

Lemma countAll_fold_keys (l : list string) :
  forall m : list (string * nat),
    List.map fst (fold_left (fun m k => analyzer.bump String.eqb k m) l m)
    = List.map fst m ++ analyzer.uniq (List.map fst m) l.
Proof.
  induction l as [ | x l IH]; intro m; simpl; [rewrite app_nil_r; reflexivity | ].
  rewrite IH, (bump_keys String.eqb).
  destruct (existsb (fun e => String.eqb (fst e) x) m) eqn:E.
  - apply (existsb_keyK String.eqb string_eqb_eq) in E.
    apply mem_In in E. rewrite E. reflexivity.
  - assert (N : Str.mem x (List.map fst m) = false).
    { destruct (Str.mem x (List.map fst m)) eqn:M; [ | reflexivity ].
      apply mem_In, (existsb_keyK String.eqb string_eqb_eq) in M. rewrite M in E. discriminate. }
    rewrite N, <- app_assoc. simpl. f_equal. f_equal. apply uniq_seen_equiv.
    intro y. rewrite in_app_iff. simpl. tauto.
Qed.

Lemma countAll_keys (l : list string) :
  List.map fst (analyzer.countAll String.eqb l) = analyzer.uniq [] l.
Proof. unfold analyzer.countAll. rewrite countAll_fold_keys. reflexivity. Qed.

(** ** The stable sort by decreasing count *)

Section SortDesc.
Context {A : Type} (count : A -> nat).

Lemma insertDesc_perm (x : A) (l : list A) :
  Permutation (analyzer.insertDesc count x l) (x :: l).
Proof.
  induction l as [ | y t IH]; simpl; [apply Permutation_refl | ].
  destruct (count y <? count x); [apply Permutation_refl | ].
  apply perm_trans with (y :: x :: t); [apply perm_skip; exact IH | apply perm_swap].
Qed.

Lemma sortDesc_fold_perm (l : list A) :
  forall acc, Permutation (fold_left (fun acc x => analyzer.insertDesc count x acc) l acc)
                          (l ++ acc).
Proof.
  induction l as [ | x l IH]; intro acc; simpl; [apply Permutation_refl | ].
  apply perm_trans with (l ++ analyzer.insertDesc count x acc); [apply IH | ].
  apply perm_trans with (l ++ x :: acc).
  - apply Permutation_app_head. apply insertDesc_perm.
  - apply Permutation_sym. apply Permutation_middle.
Qed.

Lemma sortDesc_perm (l : list A) : Permutation (analyzer.sortDesc count l) l.
Proof.
  unfold analyzer.sortDesc. rewrite <- (app_nil_r l) at 2. apply sortDesc_fold_perm.
Qed.

Lemma descending_cons2 (a b : nat) (t : list nat) :
  descending (a :: b :: t) = (b <=? a)%nat && descending (b :: t).
Proof. reflexivity. Qed.

Lemma insertDesc_descending (x : A) (l : list A) :
  descending (List.map count l) = true ->
  descending (List.map count (analyzer.insertDesc count x l)) = true.
Proof.
  induction l as [ | y t IH]; intro H; [reflexivity | ].
  cbn [analyzer.insertDesc].
  destruct (count y <? count x) eqn:E.
  - apply Nat.ltb_lt in E.
    change (descending (count x :: count y :: List.map count t) = true).
    rewrite descending_cons2.
    assert (L : (count y <=? count x) = true) by (apply Nat.leb_le; lia).
    rewrite L. exact H.
  - apply Nat.ltb_ge in E.
    assert (L : (count x <=? count y) = true) by (apply Nat.leb_le; lia).
    destruct t as [ | z t'].
    + change (descending [count y; count x] = true). rewrite descending_cons2, L. reflexivity.
    + change (descending (count y :: count z :: List.map count t') = true) in H.
      rewrite descending_cons2 in H. apply andb_true_iff in H. destruct H as [H1 H2].
      specialize (IH H2). cbn [analyzer.insertDesc] in IH |- *.
      destruct (count z <? count x) eqn:F.
      * change (descending (count y :: count x :: List.map count (z :: t')) = true).
        rewrite descending_cons2, L. exact IH.
      * change (descending (count y :: count z
                            :: List.map count (analyzer.insertDesc count x t')) = true).
        rewrite descending_cons2, H1. exact IH.
Qed.

Lemma sortDesc_descending (l : list A) :
  descending (List.map count (analyzer.sortDesc count l)) = true.
Proof.
  unfold analyzer.sortDesc.
  assert (G : forall acc, descending (List.map count acc) = true ->
                          descending (List.map count
                            (fold_left (fun acc x => analyzer.insertDesc count x acc) l acc)) = true).
  { induction l as [ | x l IH]; intros acc H; simpl; [exact H | ].
    apply IH. apply insertDesc_descending. exact H. }
  apply G. reflexivity.
Qed.

End SortDesc.

Lemma descending_firstn (n : nat) (ns : list nat) :
  descending ns = true -> descending (firstn n ns) = true.
Proof.
  revert ns. induction n as [ | n IH]; intros ns H; [reflexivity | ].
  destruct ns as [ | a [ | b t]]; [reflexivity | destruct n; reflexivity | ].
  rewrite descending_cons2 in H. apply andb_true_iff in H. destruct H as [H1 H2].
  specialize (IH _ H2). destruct n as [ | n]; [reflexivity | ].
  change (descending (a :: b :: firstn n t) = true).
  rewrite descending_cons2, H1. exact IH.
Qed.

Lemma list_sum_perm (l1 l2 : list nat) : Permutation l1 l2 -> list_sum l1 = list_sum l2.
Proof. induction 1; simpl; lia. Qed.


(** ** calculateColorStatistics *)

(** The counts of [calculateColorStatistics].  [total] is the number of
    colors and [unique] the number of distinct lower-cased values; [byFormat]
    has one entry per format that occurs, with the exact number of colors of
    that format, the counts add up to [total] and do not increase along the
    list; [mostCommon] has the first ten (or all, when fewer) of the distinct
    values with their exact counts, which do not increase along the list. *)
Theorem calculateColorStatistics_counts (colors : list Color) :
  let st := analyzer.calculateColorStatistics colors in
  let values := List.map (fun c => Str.toLowerCase (value c)) colors in
  analyzer.total st = List.length colors /\
  analyzer.unique st = List.length (analyzer.unique_values colors) /\
  analyzer.unique st <= analyzer.total st /\
  list_sum (List.map analyzer.fc_count (analyzer.byFormat st)) = analyzer.total st /\
  NoDup (List.map analyzer.fc_format (analyzer.byFormat st)) /\
  descending (List.map analyzer.fc_count (analyzer.byFormat st)) = true /\
  (forall e, In e (analyzer.byFormat st) ->
             analyzer.fc_count e
             = occurrences analyzer.formatEqb (analyzer.fc_format e) (List.map format colors)
             /\ 1 <= analyzer.fc_count e) /\
  List.length (analyzer.mostCommon st) = Nat.min 10 (analyzer.unique st) /\
  NoDup (List.map analyzer.cc_color (analyzer.mostCommon st)) /\
  descending (List.map analyzer.cc_count (analyzer.mostCommon st)) = true /\
  (forall e, In e (analyzer.mostCommon st) ->
             analyzer.cc_count e = occurrences String.eqb (analyzer.cc_color e) values
             /\ 1 <= analyzer.cc_count e).
Proof.
  intros st values. subst st. unfold analyzer.calculateColorStatistics.
  destruct colors as [ | c0 cs].
  { simpl. repeat split; try constructor; try lia; intros e []. }
  remember (c0 :: cs) as colors eqn:Ec. clear Ec c0 cs.
  cbv zeta. cbn [analyzer.total analyzer.unique analyzer.byFormat analyzer.mostCommon].
  fold values.
  set (fmts := analyzer.countAll analyzer.formatEqb (List.map format colors)).
  set (vals := analyzer.countAll String.eqb values).
  set (mkF := fun e : ColorFormat * nat =>
                {| analyzer.fc_format := fst e; analyzer.fc_count := snd e;
                   analyzer.fc_percentage :=
                     (analyzer.ofNat (snd e) / analyzer.ofNat (List.length colors) * 100)%float |}).
  set (mkC := fun e : string * nat =>
                {| analyzer.cc_color := fst e; analyzer.cc_count := snd e;
                   analyzer.cc_percentage :=
                     (analyzer.ofNat (snd e) / analyzer.ofNat (List.length colors) * 100)%float |}).
  pose proof (sortDesc_perm analyzer.fc_count (List.map mkF fmts)) as PF.
  pose proof (sortDesc_perm analyzer.cc_count (List.map mkC vals)) as PC.
  assert (KF : List.map analyzer.fc_format (List.map mkF fmts) = List.map fst fmts)
    by (rewrite map_map; reflexivity).
  assert (NF : List.map analyzer.fc_count (List.map mkF fmts) = List.map snd fmts)
    by (rewrite map_map; reflexivity).
  assert (KC : List.map analyzer.cc_color (List.map mkC vals) = List.map fst vals)
    by (rewrite map_map; reflexivity).
  assert (LU : List.length (analyzer.uniq [] values) = List.length vals).
  { unfold vals. rewrite <- (countAll_keys values), length_map. reflexivity. }
  split; [reflexivity | ].
  split; [reflexivity | ].
  split; [unfold values; rewrite <- (length_map (fun c => Str.toLowerCase (value c)) colors);
          apply uniq_length | ].
  split.
  { rewrite (list_sum_perm _ _ (Permutation_map analyzer.fc_count PF)), NF.
    unfold fmts. rewrite (countAll_sum analyzer.formatEqb), length_map. reflexivity. }
  split.
  { apply (Permutation_NoDup (Permutation_sym (Permutation_map analyzer.fc_format PF))).
    rewrite KF. apply (countAll_NoDup analyzer.formatEqb formatEqb_eq). }
  split; [apply sortDesc_descending | ].
  split.
  { intros e He. apply (Permutation_in _ PF) in He. apply in_map_iff in He.
    destruct He as ([k n] & E & He). subst e. simpl.
    apply (countAll_In analyzer.formatEqb formatEqb_eq). exact He. }
  split.
  { rewrite length_firstn, (Permutation_length PC), length_map, LU. reflexivity. }
  split.
  { assert (N : NoDup (List.map analyzer.cc_color
                         (analyzer.sortDesc analyzer.cc_count (List.map mkC vals)))).
    { apply (Permutation_NoDup (Permutation_sym (Permutation_map analyzer.cc_color PC))).
      rewrite KC. apply (countAll_NoDup String.eqb string_eqb_eq). }
    rewrite <- (firstn_skipn 10 (analyzer.sortDesc analyzer.cc_count (List.map mkC vals))) in N.
    rewrite map_app in N. exact (NoDup_app_remove_r _ _ N). }
  split.
  { rewrite <- firstn_map. apply descending_firstn. apply sortDesc_descending. }
  intros e He. apply firstn_In in He. apply (Permutation_in _ PC) in He.
  apply in_map_iff in He. destruct He as ([k n] & E & He). subst e. simpl.
  apply (countAll_In String.eqb string_eqb_eq). exact He.
Qed.

(** Eleven distinct values, the first of them twice: [mostCommon] has ten
    entries and the first one counts 2. *)
Lemma calculateColorStatistics_counts_witness :
  let colors :=
    List.map (fun v => {| value := v; format := hex; position := None; context := None |})
             ["#000001"; "#000002"; "#000003"; "#000004"; "#000005"; "#000006";
              "#000007"; "#000008"; "#000009"; "#00000a"; "#00000b"; "#000001"]%string in
  let st := analyzer.calculateColorStatistics colors in
  In {| analyzer.cc_color := "#000001"%string; analyzer.cc_count := 2;
        analyzer.cc_percentage := (2 / 12 * 100)%float |} (analyzer.mostCommon st) /\
  2 = occurrences String.eqb "#000001"%string
        (List.map (fun c => Str.toLowerCase (value c)) colors) /\ 1 <= 2.
Proof.
  intros colors st.
  assert (H : In {| analyzer.cc_color := "#000001"%string; analyzer.cc_count := 2;
                    analyzer.cc_percentage := (2 / 12 * 100)%float |} (analyzer.mostCommon st))
    by (vm_compute; left; reflexivity).
  split; [exact H | ].
  exact (proj2 (proj2 (proj2 (proj2 (proj2 (proj2 (proj2 (proj2 (proj2 (proj2
           (calculateColorStatistics_counts colors)))))))))) _ H).
Defined.


(** ** analyzePalette *)

Lemma unique_values_In (colors : list Color) (v : string) :
  In v (analyzer.unique_values colors)
  <-> In v (List.map (fun c => Str.toLowerCase (value c)) colors).
Proof. unfold analyzer.unique_values. rewrite uniq_In. simpl. tauto. Qed.

(** [analyzePalette] lists the distinct lower-cased values in the order in
    which they first occur, and [usage] has one entry for each of them, in
    the same order: its frequency is the number of colors with that value,
    the frequencies add up to the number of colors, and its contexts are the
    distinct contexts of those colors, [unknown] standing for a missing or
    empty one. *)
Theorem analyzePalette_usage (colors : list Color) :
  let pa := analyzer.analyzePalette colors in
  let values := List.map (fun c => Str.toLowerCase (value c)) colors in
  NoDup (analyzer.palette_colors pa) /\
  (forall v, In v (analyzer.palette_colors pa) <-> In v values) /\
  List.map analyzer.usage_color (analyzer.palette_usage pa) = analyzer.palette_colors pa /\
  list_sum (List.map analyzer.frequency (analyzer.palette_usage pa)) = List.length colors /\
  (forall u, In u (analyzer.palette_usage pa) ->
     analyzer.frequency u = occurrences String.eqb (analyzer.usage_color u) values /\
     1 <= analyzer.frequency u /\
     NoDup (analyzer.contexts u) /\
     analyzer.contexts u <> [] /\
     forall x, In x (analyzer.contexts u) <->
               exists c, In c colors /\ Str.toLowerCase (value c) = analyzer.usage_color u /\
                         analyzer.contextOrUnknown c = x).
Proof.
  intros pa values. subst pa. unfold analyzer.analyzePalette. cbv zeta.
  cbn [analyzer.palette_colors analyzer.palette_usage]. fold values.
  split; [apply uniq_NoDup | ].
  split; [intro v; apply unique_values_In | ].
  split; [rewrite map_map; cbn [analyzer.usage_color];
          change (List.map fst (analyzer.countAll String.eqb values)
                  = analyzer.unique_values colors);
          rewrite countAll_keys; reflexivity | ].
  split; [rewrite map_map; cbn [analyzer.frequency];
          change (list_sum (List.map snd (analyzer.countAll String.eqb values))
                  = List.length colors);
          rewrite (countAll_sum String.eqb); unfold values; apply length_map | ].
  intros u Hu. apply in_map_iff in Hu. destruct Hu as ([k n] & E & Hu). subst u.
  cbn [analyzer.frequency analyzer.usage_color analyzer.contexts fst snd].
  apply (countAll_In String.eqb string_eqb_eq) in Hu. destruct Hu as [En Pn].
  assert (Ctx : forall x,
            In x (analyzer.uniq []
                    (List.map analyzer.contextOrUnknown
                       (filter (fun c => String.eqb (Str.toLowerCase (value c)) k) colors)))
            <-> exists c, In c colors /\ Str.toLowerCase (value c) = k /\
                          analyzer.contextOrUnknown c = x).
  { intro x. rewrite uniq_In, in_map_iff. split.
    - intros [(c & E & Hc) _]. apply filter_In in Hc. destruct Hc as [Hc Hk].
      apply String.eqb_eq in Hk. exists c. repeat split; assumption.
    - intros (c & Hc & Hk & E). split; [ | intros [] ].
      exists c. split; [exact E | ]. apply filter_In. split; [exact Hc | ].
      apply String.eqb_eq. exact Hk. }
  split; [exact En | split; [exact Pn | split; [apply uniq_NoDup | split; [ | exact Ctx ] ] ] ].
  assert (Hk : In k values).
  { apply (occurrences_pos String.eqb string_eqb_eq). rewrite <- En. exact Pn. }
  unfold values in Hk. apply in_map_iff in Hk. destruct Hk as (c & Ek & Hc).
  intro F. assert (G : In (analyzer.contextOrUnknown c)
                          (analyzer.uniq []
                             (List.map analyzer.contextOrUnknown
                                (filter (fun c => String.eqb (Str.toLowerCase (value c)) k)
                                        colors)))).
  { apply Ctx. exists c. repeat split; assumption. }
  rewrite F in G. exact G.
Qed.

Lemma analyzePalette_usage_witness :
  let colors :=
    [ {| value := "#FFF"; format := hex; position := None; context := Some "a"%string |};
      {| value := "#000"; format := hex; position := None; context := None |};
      {| value := "#fff"; format := hex; position := None; context := Some "b"%string |} ] in
  let u := {| analyzer.usage_color := "#fff"; analyzer.frequency := 2;
              analyzer.contexts := ["a"; "b"]%string |} in
  analyzer.palette_usage (analyzer.analyzePalette colors)
  = [u; {| analyzer.usage_color := "#000"; analyzer.frequency := 1;
           analyzer.contexts := ["unknown"]%string |}] /\
  analyzer.frequency u
  = occurrences String.eqb (analyzer.usage_color u)
      (List.map (fun c => Str.toLowerCase (value c)) colors).
Proof.
  intros colors u. split; [reflexivity | ].
  apply (proj2 (proj2 (proj2 (proj2 (analyzePalette_usage colors)))) u).
  left. reflexivity.
Defined.

(** ** detectColorAnomalies *)

Lemma named_invalid :
  forallb (fun name => negb (analyzer.isValidColor name)) namedKeywords = true.
Proof. vm_compute. reflexivity. Qed.

Lemma duplicateAnomalies_In (counts : list (string * nat)) (a : analyzer.ColorAnomaly) :
  In a (analyzer.duplicateAnomalies counts) ->
  analyzer.anomaly_type a = analyzer.anomaly_duplicate /\
  exists n, In (analyzer.anomaly_color a, n) counts /\ 5 < n /\
            (analyzer.anomaly_severity a = analyzer.high <-> 10 < n).
Proof.
  unfold analyzer.duplicateAnomalies. intro H. apply in_flat_map in H.
  destruct H as ([k n] & Hk & H). destruct (5 <? n) eqn:E; [ | contradiction ].
  destruct H as [H | []]. subst a. simpl. split; [reflexivity | ].
  exists n. split; [exact Hk | ]. apply Nat.ltb_lt in E. split; [exact E | ].
  destruct (10 <? n) eqn:F.
  - apply Nat.ltb_lt in F. split; [intros _; exact F | reflexivity].
  - apply Nat.ltb_ge in F. split; [discriminate | lia].
Qed.

Lemma invalidAnomalies_In (uniqueColors : list string) (a : analyzer.ColorAnomaly) :
  In a (analyzer.invalidAnomalies uniqueColors) ->
  analyzer.anomaly_type a = analyzer.anomaly_invalid /\
  In (analyzer.anomaly_color a) uniqueColors /\
  analyzer.isValidColor (analyzer.anomaly_color a) = false.
Proof.
  unfold analyzer.invalidAnomalies. intro H. apply in_flat_map in H.
  destruct H as (k & Hk & H). destruct (analyzer.isValidColor k) eqn:E; [contradiction | ].
  destruct H as [H | []]. subst a. simpl. repeat split; assumption.
Qed.

Lemma accessibilityAnomalies_In (uniqueColors : list string) (a : analyzer.ColorAnomaly) :
  In a (analyzer.accessibilityAnomalies uniqueColors) ->
  analyzer.anomaly_type a = analyzer.anomaly_accessibility /\
  In (analyzer.anomaly_color a) uniqueColors /\
  exists x, analyzer.parseColorToHSL (analyzer.anomaly_color a) = Some x /\
            ((analyzer.l x <? 10) || (90 <? analyzer.l x))%float = true.
Proof.
  unfold analyzer.accessibilityAnomalies. intro H. apply in_flat_map in H.
  destruct H as (k & Hk & H).
  destruct (analyzer.parseColorToHSL k) as [x | ] eqn:E; [ | contradiction ].
  apply in_app_or in H. destruct H as [H | H].
  - destruct (analyzer.l x <? 10)%float eqn:F; [ | contradiction ].
    destruct H as [H | []]. subst a. simpl. repeat split; try assumption.
    exists x. split; [exact E | rewrite F; reflexivity].
  - destruct (90 <? analyzer.l x)%float eqn:F; [ | contradiction ].
    destruct H as [H | []]. subst a. simpl. repeat split; try assumption.
    exists x. split; [exact E | rewrite F; apply orb_true_r].
Qed.

(** What [detectColorAnomalies] reports for a lower-cased value [v]: a
    duplicate exactly when more than 5 colors have it, of high severity
    exactly when more than 10 have it; an invalid format exactly when it
    occurs and none of the five patterns of [isValidColor] accepts it, which
    is the case of every named colour keyword; a contrast issue exactly when
    it occurs and parses with a lightness below 10 or above 90. *)
Theorem detectColorAnomalies_reports (colors : list Color) (v : string) :
  let values := List.map (fun c => Str.toLowerCase (value c)) colors in
  let r := analyzer.detectColorAnomalies colors in
  ((exists a, In a r /\ analyzer.anomaly_type a = analyzer.anomaly_duplicate /\
              analyzer.anomaly_color a = v)
   <-> 5 < occurrences String.eqb v values) /\
  (forall a, In a r -> analyzer.anomaly_type a = analyzer.anomaly_duplicate ->
             analyzer.anomaly_color a = v ->
             (analyzer.anomaly_severity a = analyzer.high
              <-> 10 < occurrences String.eqb v values)) /\
  ((exists a, In a r /\ analyzer.anomaly_type a = analyzer.anomaly_invalid /\
              analyzer.anomaly_color a = v)
   <-> In v values /\ analyzer.isValidColor v = false) /\
  ((exists a, In a r /\ analyzer.anomaly_type a = analyzer.anomaly_accessibility /\
              analyzer.anomaly_color a = v)
   <-> In v values /\
       exists x, analyzer.parseColorToHSL v = Some x /\
                 ((analyzer.l x <? 10) || (90 <? analyzer.l x))%float = true) /\
  (In v values -> In v namedKeywords ->
   exists a, In a r /\ analyzer.anomaly_type a = analyzer.anomaly_invalid /\
             analyzer.anomaly_color a = v).
Proof.
  intros values r. subst r. unfold analyzer.detectColorAnomalies. cbv zeta. fold values.
  assert (Split : forall a,
            In a (analyzer.duplicateAnomalies (analyzer.countAll String.eqb values)
                  ++ analyzer.invalidAnomalies (analyzer.uniq [] values)
                  ++ analyzer.accessibilityAnomalies (analyzer.uniq [] values))
            <-> In a (analyzer.duplicateAnomalies (analyzer.countAll String.eqb values))
                \/ In a (analyzer.invalidAnomalies (analyzer.uniq [] values))
                \/ In a (analyzer.accessibilityAnomalies (analyzer.uniq [] values))).
  { intro a. rewrite !in_app_iff. reflexivity. }
  assert (U : forall x, In x (analyzer.uniq [] values) <-> In x values).
  { intro x. rewrite uniq_In. simpl. tauto. }
  assert (Inv : In v values /\ analyzer.isValidColor v = false ->
                exists a, In a (analyzer.duplicateAnomalies (analyzer.countAll String.eqb values)
                                ++ analyzer.invalidAnomalies (analyzer.uniq [] values)
                                ++ analyzer.accessibilityAnomalies (analyzer.uniq [] values))
                          /\ analyzer.anomaly_type a = analyzer.anomaly_invalid
                          /\ analyzer.anomaly_color a = v).
  { intros [Hv Hi]. eexists. split.
    { apply Split. right. left. unfold analyzer.invalidAnomalies. apply in_flat_map.
      exists v. split; [apply U; exact Hv | ]. rewrite Hi. left. reflexivity. }
    split; reflexivity. }
  split; [ | split; [ | split; [ | split ] ] ].
  - split.
    + intros (a & Ha & Ht & Ec). apply Split in Ha. destruct Ha as [Ha | [Ha | Ha]].
      * apply duplicateAnomalies_In in Ha. destruct Ha as (_ & n & Hn & H5 & _).
        rewrite Ec in Hn. apply (countAll_In String.eqb string_eqb_eq) in Hn.
        destruct Hn as [En _]. rewrite <- En. exact H5.
      * apply invalidAnomalies_In in Ha. destruct Ha as (T & _). rewrite T in Ht. discriminate.
      * apply accessibilityAnomalies_In in Ha. destruct Ha as (T & _).
        rewrite T in Ht. discriminate.
    + intro H. eexists. split.
      { apply Split. left. unfold analyzer.duplicateAnomalies. apply in_flat_map.
        exists (v, occurrences String.eqb v values). split.
        - apply (countAll_In String.eqb string_eqb_eq). split; [reflexivity | lia].
        - apply Nat.ltb_lt in H. rewrite H. left. reflexivity. }
      split; reflexivity.
  - intros a Ha Ht Ec. apply Split in Ha. destruct Ha as [Ha | [Ha | Ha]].
    + apply duplicateAnomalies_In in Ha. destruct Ha as (_ & n & Hn & _ & Hs).
      rewrite Ec in Hn. apply (countAll_In String.eqb string_eqb_eq) in Hn.
      destruct Hn as [En _]. rewrite <- En. exact Hs.
    + apply invalidAnomalies_In in Ha. destruct Ha as (T & _). rewrite T in Ht. discriminate.
    + apply accessibilityAnomalies_In in Ha. destruct Ha as (T & _).
      rewrite T in Ht. discriminate.
  - split; [ | exact Inv ].
    intros (a & Ha & Ht & Ec). apply Split in Ha. destruct Ha as [Ha | [Ha | Ha]].
    + apply duplicateAnomalies_In in Ha. destruct Ha as (T & _). rewrite T in Ht. discriminate.
    + apply invalidAnomalies_In in Ha. destruct Ha as (_ & Hu & Hi). rewrite Ec in Hu, Hi.
      split; [apply U; exact Hu | exact Hi].
    + apply accessibilityAnomalies_In in Ha. destruct Ha as (T & _).
      rewrite T in Ht. discriminate.
  - split.
    + intros (a & Ha & Ht & Ec). apply Split in Ha. destruct Ha as [Ha | [Ha | Ha]].
      * apply duplicateAnomalies_In in Ha. destruct Ha as (T & _).
        rewrite T in Ht. discriminate.
      * apply invalidAnomalies_In in Ha. destruct Ha as (T & _). rewrite T in Ht. discriminate.
      * apply accessibilityAnomalies_In in Ha. destruct Ha as (_ & Hu & Hx). rewrite Ec in Hu, Hx.
        split; [apply U; exact Hu | exact Hx].
    + intros (Hv & x & Px & Hl).
      destruct (analyzer.l x <? 10)%float eqn:F.
      * eexists. split.
        { apply Split. right. right. unfold analyzer.accessibilityAnomalies.
          apply in_flat_map. exists v. split; [apply U; exact Hv | ].
          rewrite Px, F. apply in_or_app. left. left. reflexivity. }
        split; reflexivity.
      * simpl in Hl. eexists. split.
        { apply Split. right. right. unfold analyzer.accessibilityAnomalies.
          apply in_flat_map. exists v. split; [apply U; exact Hv | ].
          rewrite Px, F, Hl. apply in_or_app. right. left. reflexivity. }
        split; reflexivity.
  - intros Hv Hn. apply Inv. split; [exact Hv | ].
    pose proof named_invalid as N. rewrite forallb_forall in N.
    apply negb_true_iff. exact (N v Hn).
Qed.

Lemma detectColorAnomalies_reports_witness :
  let colors := [ {| value := "Red"; format := unknown; position := None; context := None |} ] in
  exists a, In a (analyzer.detectColorAnomalies colors) /\
            analyzer.anomaly_type a = analyzer.anomaly_invalid /\
            analyzer.anomaly_color a = "red"%string.
Proof.
  intro colors.
  apply (proj2 (proj2 (proj2 (proj2 (detectColorAnomalies_reports colors "red"%string))))).
  - left. reflexivity.
  - vm_compute. tauto.
Defined.


(** ** detectColorPatterns *)

(** [detectColorPatterns] on the distinct lower-cased values: fewer than two
    give no pattern; a gradient is reported exactly when there are at least
    three of them, whatever they are, and its colors are the first three; a
    theme pattern holds only values of the input; no other pattern type is
    ever reported, so there are at most two patterns. *)
Theorem detectColorPatterns_cases (colors : list Color) :
  let u := analyzer.unique_values colors in
  let r := analyzer.detectColorPatterns colors in
  (List.length u < 2 -> r = []) /\
  List.length r <= 2 /\
  (forall p, In p r -> analyzer.pattern_type p = analyzer.pattern_gradient
                       \/ analyzer.pattern_type p = analyzer.pattern_theme) /\
  ((exists p, In p r /\ analyzer.pattern_type p = analyzer.pattern_gradient)
   <-> 3 <= List.length u) /\
  (forall p, In p r -> analyzer.pattern_type p = analyzer.pattern_gradient ->
             analyzer.pattern_colors p = firstn 3 u /\ analyzer.examples p = firstn 3 u) /\
  (forall p, In p r -> analyzer.pattern_type p = analyzer.pattern_theme ->
             forall c, In c (analyzer.pattern_colors p) -> In c u).
Proof.
  intros u r. subst r. unfold analyzer.detectColorPatterns. cbv zeta. fold u.
  destruct (List.length u <? 2) eqn:E2.
  { apply Nat.ltb_lt in E2.
    split; [intros _; reflexivity | ].
    split; [simpl; lia | ].
    split; [intros p [] | ].
    split; [split; [intros (p & [] & _) | intro; lia] | ].
    split; intros p []. }
  apply Nat.ltb_ge in E2.
  unfold analyzer.detectGradientPattern, analyzer.detectThemePattern, analyzer.detectBrandPattern.
  cbv zeta.
  set (theme := {| analyzer.pattern_type := analyzer.pattern_theme;
                   analyzer.pattern_colors := filter _ u;
                   analyzer.pattern_confidence := 0.6;
                   analyzer.pattern_description := _;
                   analyzer.examples := _ |}).
  assert (T : forall c, In c (analyzer.pattern_colors theme) -> In c u).
  { intros c Hc. unfold theme in Hc. simpl in Hc. apply filter_In in Hc. apply Hc. }
  destruct (List.length u <? 3) eqn:E3;
    [apply Nat.ltb_lt in E3 | apply Nat.ltb_ge in E3];
    destruct (existsb _ u && existsb _ u); simpl;
    (split; [intro; lia | ]); (split; [lia | ]).
  - split; [intros p [H | []]; subst p; right; reflexivity | ].
    split; [split; [intros (p & [H | []] & Hp); subst p; discriminate | intro; lia] | ].
    split; [intros p [H | []] Hp; subst p; discriminate | ].
    intros p [H | []] _; subst p. exact T.
  - split; [intros p [] | ].
    split; [split; [intros (p & [] & _) | intro; lia] | ].
    split; intros p [].
  - split; [intros p [H | [H | []]]; subst p; [left | right]; reflexivity | ].
    split; [split; [intros _; exact E3 | intros _; eexists; split; [left; reflexivity | reflexivity]] | ].
    split; [intros p [H | [H | []]] Hp; subst p; [split; reflexivity | discriminate] | ].
    intros p [H | [H | []]] Hp; subst p; [discriminate | exact T].
  - split; [intros p [H | []]; subst p; left; reflexivity | ].
    split; [split; [intros _; exact E3 | intros _; eexists; split; [left; reflexivity | reflexivity]] | ].
    split; [intros p [H | []] Hp; subst p; split; reflexivity | ].
    intros p [H | []] Hp; subst p; discriminate.
Qed.

Lemma detectColorPatterns_cases_witness :
  let colors :=
    List.map (fun v => {| value := v; format := unknown; position := None; context := None |})
             ["one"; "two"; "three"; "four"]%string in
  exists p, In p (analyzer.detectColorPatterns colors) /\
            analyzer.pattern_type p = analyzer.pattern_gradient.
Proof.
  intro colors.
  apply (proj2 (proj1 (proj2 (proj2 (proj2 (detectColorPatterns_cases colors)))))).
  vm_compute. lia.
Defined.

(** ** clusterColors *)

Lemma parseableWithName_source (x : string) (v : analyzer.HSL) (colors : list string) :
  In (x, v) (analyzer.parseableWithName colors) -> In x colors.
Proof.
  induction colors as [ | c rest IH]; simpl; [contradiction | ].
  destruct (analyzer.parseColorToHSL c) as [y | ]; [ | intro H; right; exact (IH H) ].
  intros [H | H]; [inversion H; subst; left; reflexivity | right; exact (IH H)].
Qed.

(** [clusterColors] returns at most [maxClusters] clusters; each has at least
    one color, its size is the number of its colors, its centroid is the
    first of them, and its colors are lower-cased values of the input.  When
    there are no more distinct values than [maxClusters], each of them is a
    cluster of its own, without a label. *)
Theorem clusterColors_shape (colors : list Color) (maxClusters : nat) :
  let r := analyzer.clusterColors colors maxClusters in
  List.length r <= maxClusters /\
  (forall cl, In cl r ->
     analyzer.size cl = List.length (analyzer.cluster_colors cl) /\
     1 <= analyzer.size cl /\
     hd_error (analyzer.cluster_colors cl) = Some (analyzer.centroid cl) /\
     forall x, In x (analyzer.cluster_colors cl) -> In x (analyzer.unique_values colors)) /\
  (List.length (analyzer.unique_values colors) <= maxClusters ->
   List.map analyzer.cluster_colors r
   = List.map (fun v => [v]) (analyzer.unique_values colors) /\
   forall cl, In cl r -> analyzer.label cl = None).
Proof.
  intro r. subst r. unfold analyzer.clusterColors. cbv zeta.
  destruct (List.length (analyzer.unique_values colors) <=? maxClusters) eqn:E.
  - apply Nat.leb_le in E. split; [rewrite length_map; exact E | ]. split.
    + intros cl H. apply in_map_iff in H. destruct H as (v & Ev & Hv). subst cl. simpl.
      repeat split; try lia. intros x [Hx | []]. subst x. exact Hv.
    + intros _. split; [rewrite map_map; reflexivity | ].
      intros cl H. apply in_map_iff in H. destruct H as (v & Ev & Hv). subst cl. reflexivity.
  - apply Nat.leb_gt in E.
    destruct (analyzer.parseableWithName (analyzer.unique_values colors)) as [ | p ps] eqn:Ep.
    + split; [simpl; lia | split; [intros cl [] | intro; lia] ].
    + rewrite <- Ep. split; [rewrite length_firstn; apply Nat.le_min_l | ].
      split; [ | intro; lia ].
      intros cl H. apply firstn_In in H. apply in_flat_map in H. destruct H as (range & _ & H).
      destruct range as [[lo hi] nm]. unfold analyzer.clusterOfRange in H.
      remember (filter _ (analyzer.parseableWithName _)) as inRange eqn:Er.
      destruct (List.map fst inRange) as [ | [ | a0 s0] more] eqn:Em; try contradiction.
      destruct H as [H | []]. subst cl. cbn [analyzer.size analyzer.cluster_colors analyzer.centroid].
      repeat split; try (simpl; lia).
      intros x Hx. rewrite <- Em in Hx. apply in_map_iff in Hx.
      destruct Hx as ([y v] & Ey & Hy). simpl in Ey. subst y.
      rewrite Er in Hy. apply filter_In in Hy. destruct Hy as [Hy _].
      exact (parseableWithName_source _ _ _ Hy).
Qed.

Lemma clusterColors_shape_witness :
  let colors :=
    List.map (fun v => {| value := v; format := hex; position := None; context := None |})
             ["#FF0000"; "#ff0000"; "#00ff00"]%string in
  List.map analyzer.cluster_colors (analyzer.clusterColors colors 5)
  = [["#ff0000"]; ["#00ff00"]]%string /\
  forall cl, In cl (analyzer.clusterColors colors 5) -> analyzer.label cl = None.
Proof.
  intro colors. apply (proj2 (proj2 (clusterColors_shape colors 5))).
  vm_compute. lia.
Defined.


(** ** More on the matcher: where a match lies, finite languages *)

Lemma allAscii_complete (c : ascii) : In c allAscii.
Proof.
  unfold allAscii. apply in_map_iff. exists (nat_of_ascii c).
  split; [apply ascii_nat_embedding | ].
  apply in_seq. pose proof (nat_ascii_bounded c). lia.
Qed.

Lemma take_app_length (a b : string) : Str.take (String.length a) (a ++ b) = a.
Proof. induction a as [ | c a IH]; simpl; [destruct b; reflexivity | rewrite IH; reflexivity]. Qed.

Lemma drop_app_length (a b : string) : Str.drop (String.length a) (a ++ b) = b.
Proof. induction a as [ | c a IH]; simpl; [destruct b; reflexivity | exact IH]. Qed.

Lemma substring_middle (pre mid post : string) :
  Str.substring (pre ++ mid ++ post) (String.length pre) (String.length pre + String.length mid)
  = mid.
Proof.
  unfold Str.substring.
  replace (Nat.min (String.length pre) (String.length pre + String.length mid))
    with (String.length pre) by lia.
  replace (Nat.max (String.length pre) (String.length pre + String.length mid)
           - String.length pre) with (String.length mid) by lia.
  rewrite drop_app_length. apply take_app_length.
Qed.

Lemma startsWith_nil (x : string) : Str.startsWith x EmptyString = true.
Proof. destruct x; reflexivity. Qed.

Lemma includes_app (a b : string) (c : ascii) :
  Str.includes (a ++ String c b) (String c EmptyString) = true.
Proof.
  induction a as [ | d a IH]; simpl.
  - rewrite Ascii.eqb_refl. rewrite startsWith_nil. reflexivity.
  - rewrite IH. apply orb_true_r.
Qed.

Lemma includes_app_l (a b p : string) :
  Str.includes a p = true -> Str.includes (a ++ b) p = true.
Proof.
  assert (S : forall x, Str.startsWith x p = true -> Str.startsWith (x ++ b) p = true).
  { induction p as [ | c p IHp]; intros x H; [apply startsWith_nil | ].
    destruct x as [ | d x]; [discriminate | ]. simpl in H |- *.
    destruct (Ascii.eqb c d); [apply IHp; exact H | discriminate]. }
  induction a as [ | d a IH]; intro H.
  - cbn [Str.includes] in H. rewrite orb_false_r in H. apply (S EmptyString) in H.
    cbn [String.append] in H |- *. destruct b; cbn [Str.includes]; rewrite H; reflexivity.
  - cbn [Str.includes] in H. apply orb_true_iff in H. destruct H as [H | H].
    + apply S in H. cbn [String.append] in H |- *. cbn [Str.includes]. rewrite H. reflexivity.
    + cbn [String.append Str.includes]. rewrite (IH H). apply orb_true_r.
Qed.

Lemma includes_app_r (a b p : string) :
  Str.includes b p = true -> Str.includes (a ++ b) p = true.
Proof.
  intro H. induction a as [ | d a IH]; [exact H | ].
  simpl. rewrite IH. apply orb_true_r.
Qed.

Section RegexTools.
Import Regex.
Variable fl : flags.

Lemma finiteLang_complete (r : regex) (s : string) :
  lang fl r s -> forall L, finiteLang fl r = Some L -> In s L.
Proof.
  assert (Inj : forall (x y : list string), Some x = Some y -> x = y)
    by (intros x y H; inversion H; reflexivity).
  induction 1 as [ | inv p c A | r1 r2 s1 s2 _ IH1 _ IH2 | r1 r2 s _ IH | r1 r2 s _ IH
                 | g r | g r s1 s2 _ IH1 _ IH2 | n r s _ IH | | | ];
    intros L E; cbn [finiteLang] in E.
  - apply Inj in E. subst L. left. reflexivity.
  - apply Inj in E. subst L. apply in_map_iff. exists c. split; [reflexivity | ].
    apply filter_In. split; [apply allAscii_complete | exact A].
  - destruct (finiteLang fl r1) as [l1 | ]; [ | discriminate ].
    destruct (finiteLang fl r2) as [l2 | ]; [ | discriminate ].
    apply Inj in E. subst L. apply in_flat_map. exists s1. split; [apply IH1; reflexivity | ].
    apply in_map. apply IH2. reflexivity.
  - destruct (finiteLang fl r1) as [l1 | ]; [ | discriminate ].
    destruct (finiteLang fl r2) as [l2 | ]; [ | discriminate ].
    apply Inj in E. subst L. apply in_or_app. left. apply IH. reflexivity.
  - destruct (finiteLang fl r1) as [l1 | ]; [ | discriminate ].
    destruct (finiteLang fl r2) as [l2 | ]; [ | discriminate ].
    apply Inj in E. subst L. apply in_or_app. right. apply IH. reflexivity.
  - discriminate.
  - discriminate.
  - apply IH. exact E.
  - apply Inj in E. subst L. left. reflexivity.
  - apply Inj in E. subst L. left. reflexivity.
  - apply Inj in E. subst L. left. reflexivity.
Qed.

Lemma lang_requires (r : regex) (s : string) (c : ascii) :
  lang fl r s -> requires fl c r = true -> Str.includes s (String c EmptyString) = true.
Proof.
  induction 1 as [ | inv p d A | r1 r2 s1 s2 _ IH1 _ IH2 | r1 r2 s _ IH | r1 r2 s _ IH
                 | g r | g r s1 s2 _ IH1 _ IH2 | n r s _ IH | | | ];
    intro R; cbn [requires] in R; try discriminate.
  - rewrite forallb_forall in R. specialize (R d (allAscii_complete d)).
    rewrite A in R. cbn [implb] in R. apply Ascii.eqb_eq in R. subst d.
    cbn [Str.includes Str.startsWith]. rewrite Ascii.eqb_refl. reflexivity.
  - apply orb_true_iff in R. destruct R as [R | R].
    + apply includes_app_l. exact (IH1 R).
    + apply includes_app_r. exact (IH2 R).
  - apply andb_true_iff in R. apply IH. apply R.
  - apply andb_true_iff in R. apply IH. apply R.
  - apply IH. exact R.
Qed.

(** A pattern anchored at the start that [exec] accepts has a prefix of the
    input in its language. *)
Lemma exec_anchored_prefix (r : regex) (s : string) (m : rmatch_result) :
  multiline fl = false -> startsWithBol r = true ->
  exec fl r s = Some m -> exists s1 s2, s = (s1 ++ s2)%string /\ lang fl r s1.
Proof.
  intros Hm Hb H. unfold exec in H.
  assert (Start : forall st' cs,
            rmatch fl r {| prev := None; pos := 0; rest := s |} [] accept = Some (st', cs) ->
            exists s1 s2, s = (s1 ++ s2)%string /\ lang fl r s1).
  { intros st' cs E. apply rmatch_sound in E. destruct E as (st1 & cs1 & M & _).
    apply matches_lang in M. destruct M as (s1 & E1 & _ & L). simpl in E1.
    exists s1, (rest st1). split; assumption. }
  destruct s as [ | c t]; simpl in H.
  - destruct (rmatch fl r _ [] accept) as [[st' cs] | ] eqn:E; [ | discriminate ].
    exact (Start _ _ eq_refl).
  - destruct (rmatch fl r _ [] accept) as [[st' cs] | ] eqn:E.
    + exact (Start _ _ eq_refl).
    + rewrite (search_anchored_later fl r t Hm Hb) in H. discriminate.
Qed.

(** Where [search] finds its match: after what it skipped, and the matched
    text is in the language of the pattern. *)
Lemma search_where (r : regex) (s : string) :
  forall (pv : option ascii) (i : nat) (m : rmatch_result),
    search fl r pv i s = Some m ->
    exists skipped mid,
      s = (skipped ++ mid ++ rest (m_end m))%string /\
      m_index m = i + String.length skipped /\
      pos (m_end m) = m_index m + String.length mid /\
      lang fl r mid.
Proof.
  assert (Here : forall (pv : option ascii) (i : nat) (t : string) st' cs,
            rmatch fl r {| prev := pv; pos := i; rest := t |} [] accept = Some (st', cs) ->
            exists skipped mid,
              t = (skipped ++ mid ++ rest st')%string /\
              i = i + String.length skipped /\
              pos st' = i + String.length mid /\ lang fl r mid).
  { intros pv i t st' cs E. apply rmatch_sound in E. destruct E as (st1 & cs1 & M & A).
    unfold accept in A. inversion A; subst st1 cs1.
    apply matches_lang in M. destruct M as (s1 & E1 & P & L). simpl in E1, P.
    exists EmptyString, s1. simpl. repeat split; try assumption. lia. }
  induction s as [ | c t IH]; intros pv i m H; simpl in H.
  - destruct (rmatch fl r _ [] accept) as [[st' cs] | ] eqn:E; [ | discriminate ].
    inversion H; subst m. simpl. exact (Here _ _ _ _ _ E).
  - destruct (rmatch fl r _ [] accept) as [[st' cs] | ] eqn:E.
    + inversion H; subst m. simpl. exact (Here _ _ _ _ _ E).
    + apply IH in H. destruct H as (skipped & mid & E1 & E2 & E3 & L).
      exists (String c skipped), mid. simpl. rewrite <- E1.
      repeat split; try assumption. lia.
Qed.

(** Every match that the loop over a [g] pattern collects lies in the input
    at its index, and its text is in the language of the pattern. *)
Lemma execAll_from_where (s : string) (r : regex) (fuel : nat) :
  forall (st : mstate) (pre : string) (m : rmatch_result),
    s = (pre ++ rest st)%string -> String.length pre = pos st ->
    In m (execAll_from fuel fl r st) ->
    exists before mid after,
      s = (before ++ mid ++ after)%string /\
      m_index m = String.length before /\
      pos (m_end m) = String.length before + String.length mid /\
      lang fl r mid.
Proof.
  induction fuel as [ | f IH]; intros st pre m Es Ep H; [contradiction | ].
  simpl in H. destruct (search fl r (prev st) (pos st) (rest st)) as [m0 | ] eqn:E;
    [ | contradiction ].
  destruct (search_where _ _ _ _ _ E) as (skipped & mid & E1 & E2 & E3 & L).
  destruct H as [H | H].
  - subst m0. exists (pre ++ skipped)%string, mid, (rest (m_end m)).
    rewrite sapp_length. repeat split; try assumption; try lia.
    rewrite Es, E1, sapp_assoc. reflexivity.
  - destruct (m_index m0 <? pos (m_end m0)); [ | contradiction ].
    apply (IH (m_end m0) (pre ++ skipped ++ mid)%string m); [ | | exact H ].
    + rewrite Es, E1, !sapp_assoc. reflexivity.
    + rewrite !sapp_length. lia.
Qed.

Lemma execAll_where (s : string) (r : regex) (m : rmatch_result) :
  In m (execAll fl r s) ->
  exists before after,
    s = (before ++ matched s m ++ after)%string /\
    m_index m = String.length before /\
    lang fl r (matched s m).
Proof.
  unfold execAll. intro H.
  destruct (execAll_from_where s r _ {| prev := None; pos := 0; rest := s |} EmptyString m
              eq_refl eq_refl H)
    as (before & mid & after & E1 & E2 & E3 & L).
  assert (M : matched s m = mid).
  { unfold matched. rewrite E2, E3. rewrite E1 at 1. apply substring_middle. }
  exists before, after. rewrite M. repeat split; assumption.
Qed.

End RegexTools.

(** ** extractFromCss: the colors as found *)

(** Every color that [extractFromCss] returns is found verbatim in a line of
    the content: the line is [before ++ value ++ after], the column is one
    more than the length of [before], the line number is one more than the
    index of the line, the value is in the language of one of the five token
    patterns, the format is [detectColorFormat] of the value and the context
    is the trimmed line. *)
Theorem extractFromCss_verbatim (content : string) (c : Color) :
  In c (css.extractFromCss content) ->
  exists (i : nat) (ln before after : string) (p : Regex.regex),
    nth_error (Str.split "010" content) i = Some ln /\
    ln = (before ++ value c ++ after)%string /\
    position c = Some {| line := i + 1; column := String.length before + 1 |} /\
    In p extraction.tokenPatterns /\
    Regex.lang Regex.noFlags p (value c) /\
    format c = colorConversion.detectColorFormat (value c) /\
    context c = Some (Str.trim ln).
Proof.
  intro H. unfold css.extractFromCss in H.
  destruct (forEachLine_In _ _ _ _ H) as (i & ln & Hn & Hc).
  unfold css.extractLine, css.scan in Hc.
  apply in_flat_map in Hc. destruct Hc as (p & Hp & Hc).
  apply in_flat_map in Hc. destruct Hc as (m & Hm & Hc).
  destruct (execAll_where _ _ _ _ Hm) as (before & after & E1 & E2 & L).
  unfold css.addColor in Hc. destruct (css.isInComment ln (Regex.m_index m)); [contradiction | ].
  destruct Hc as [Hc | []]. subst c. cbn [value position format context].
  exists i, ln, before, after, p. rewrite E2. repeat split; assumption.
Qed.

Lemma extractFromCss_verbatim_witness :
  exists (i : nat) (ln before after : string) (p : Regex.regex),
    nth_error (Str.split "010" ".c{color:#ff0000}") i = Some ln /\
    ln = (before ++ "#ff0000" ++ after)%string /\
    Some {| line := 1; column := 10 |}
    = Some {| line := i + 1; column := String.length before + 1 |} /\
    In p extraction.tokenPatterns /\
    Regex.lang Regex.noFlags p "#ff0000" /\
    hex = colorConversion.detectColorFormat "#ff0000" /\
    Some ".c{color:#ff0000}"%string = Some (Str.trim ln).
Proof.
  exact (extractFromCss_verbatim ".c{color:#ff0000}"%string
           {| value := "#ff0000"; format := hex;
              position := Some {| line := 1; column := 10 |};
              context := Some ".c{color:#ff0000}"%string |}
           (or_introl eq_refl)).
Defined.


(** ** The Stylus extractor: a valid value has a format *)

Lemma functionHead_lang :
  finiteLang Regex.noFlags stylus.functionHead = Some ["rgb("; "rgba("; "hsl("; "hsla("]%string.
Proof. vm_compute. reflexivity. Qed.

Lemma colorPatterns_paren :
  forallb (Vocabulary.requires Regex.flag_i "(") (tl stylus.colorPatterns) = true.
Proof. vm_compute. reflexivity. Qed.

Lemma isValidColorValue_format (v : string) :
  stylus.isValidColorValue v = true -> stylus.determineColorFormat v <> unknown.
Proof.
  unfold stylus.isValidColorValue. destruct v as [ | a t] eqn:Ev; [discriminate | ].
  rewrite <- Ev. destruct (Str.includes v "(") eqn:I.
  - destruct (Regex.test Regex.noFlags stylus.functionHead v) eqn:T; [ | discriminate ].
    intros _. unfold Regex.test in T.
    destruct (Regex.exec Regex.noFlags stylus.functionHead v) as [m | ] eqn:X; [ | discriminate ].
    destruct (exec_anchored_prefix Regex.noFlags stylus.functionHead v m eq_refl eq_refl X)
      as (s1 & s2 & E & L).
    pose proof (finiteLang_complete _ _ _ L _ functionHead_lang) as Hin.
    rewrite E. unfold stylus.determineColorFormat.
    destruct Hin as [H | [H | [H | [H | []]]]]; subst s1; simpl;
      rewrite startsWith_nil; discriminate.
  - cbn [andb]. intros H F. unfold stylus.determineColorFormat in F.
    destruct (Str.startsWith v "#") eqn:S1; [discriminate | ].
    destruct (Str.startsWith v "rgb("); [discriminate | ].
    destruct (Str.startsWith v "rgba("); [discriminate | ].
    destruct (Str.startsWith v "hsl("); [discriminate | ].
    destruct (Str.startsWith v "hsla("); [discriminate | ].
    destruct (stylus.isNamedColor v); [discriminate | ].
    rewrite orb_false_r in H. apply existsb_exists in H. destruct H as (p & Hp & T).
    unfold Regex.test in T.
    destruct (Regex.exec Regex.flag_i p v) as [m | ] eqn:X; [ | discriminate ].
    unfold stylus.colorPatterns in Hp.
    destruct Hp as [Hp | Hp].
    + subst p. apply exec_anchored in X; try reflexivity.
      pose proof (lang_first _ _ _ X a t Ev) as Hf.
      cbn [Regex.firstOf Regex.nullable Regex.ch Regex.seq orb andb] in Hf.
      rewrite orb_false_r in Hf. apply accepts_hash in Hf. subst a. rewrite Ev in S1. simpl in S1.
      rewrite startsWith_nil in S1. discriminate.
    + pose proof colorPatterns_paren as R. rewrite forallb_forall in R.
      specialize (R p Hp).
      assert (L : Regex.lang Regex.flag_i p v).
      { simpl in Hp. destruct Hp as [Hp | [Hp | [Hp | [Hp | []]]]]; subst p;
          apply exec_anchored in X; try reflexivity; exact X. }
      rewrite (lang_requires _ _ _ _ L R) in I. discriminate.
Qed.

(** Every color that [extractFromStylus] returns has a value that is not
    empty and that [isValidColorValue] accepts, its format is
    [determineColorFormat] of the value and is never [unknown], its line
    number is at least 1, and its context is one of the four kinds. *)
Theorem extractFromStylus_formats (content : string) (c : Color) :
  In c (stylus.extractFromStylus content) ->
  value c <> EmptyString /\
  stylus.isValidColorValue (value c) = true /\
  format c = stylus.determineColorFormat (value c) /\
  format c <> unknown /\
  (exists p, position c = Some p /\ 1 <= line p) /\
  In (context c) [Some "Stylus variable"; Some "Stylus function"; Some "Stylus property";
                  Some "Stylus declaration"]%string.
Proof.
  intro H. unfold stylus.extractFromStylus in H.
  destruct (forEachLine_In _ _ _ _ H) as (i & ln & Hn & Hc).
  unfold stylus.extractLine in Hc. destruct ln as [ | a0 t0]; [contradiction | ].
  apply in_flat_map in Hc. destruct Hc as (fp & _ & Hc).
  apply in_flat_map in Hc. destruct Hc as (m & _ & Hc).
  unfold stylus.visit in Hc.
  destruct (stylus.matchedValue _ m) as [ | a1 t1]; [contradiction | ].
  destruct (Str.trim (String a1 t1)) as [ | a2 t2] eqn:Et; [contradiction | ].
  destruct (stylus.isValidColorValue (String a2 t2)) eqn:V; [ | contradiction ].
  destruct Hc as [Hc | []]. subst c. cbn [value format position context].
  split; [discriminate | ]. split; [exact V | ]. split; [reflexivity | ].
  split; [exact (isValidColorValue_format _ V) | ].
  split; [eexists; split; [reflexivity | simpl; lia] | ].
  unfold stylus.getContextType.
  destruct (_ || _); [simpl; tauto | ].
  destruct (_ || _); [simpl; tauto | ].
  destruct (Str.includes _ ":"); simpl; tauto.
Qed.

Lemma extractFromStylus_formats_witness :
  "RED"%string <> EmptyString /\
  stylus.isValidColorValue "RED" = true /\
  named = stylus.determineColorFormat "RED" /\
  named <> unknown /\
  (exists p, Some {| line := 1; column := 0 |} = Some p /\ 1 <= line p) /\
  In (Some "Stylus variable"%string)
     [Some "Stylus variable"; Some "Stylus function"; Some "Stylus property";
      Some "Stylus declaration"]%string.
Proof.
  apply (extractFromStylus_formats "fg = RED"%string
           {| value := "RED"; format := named;
              position := Some {| line := 1; column := 0 |};
              context := Some "Stylus variable"%string |}).
  vm_compute. left. reflexivity.
Defined.


(** ** Comments in the JavaScript, HTML and SVG extractors *)

Lemma isStyleContext_comments (ln : string) (index : nat) :
  javascript.isStyleContext ln index = true ->
  (Str.lastIndexOf (Str.substring ln 0 index) "/*"
   <= Str.lastIndexOf (Str.substring ln 0 index) "*/")%Z /\
  Str.startsWith (Str.trim ln) "//" = false /\
  Str.startsWith (Str.trim ln) "/*" = false /\
  Str.startsWith (Str.trim ln) "*" = false.
Proof.
  unfold javascript.isStyleContext. cbv zeta.
  destruct (Str.includes (Str.substring ln 0 index) "//"); [discriminate | ].
  destruct (_ <? _)%Z eqn:E; [discriminate | ]. apply Z.ltb_ge in E.
  destruct (Str.startsWith (Str.trim ln) "//"); [discriminate | ].
  destruct (Str.startsWith (Str.trim ln) "/*"); [discriminate | ].
  destruct (Str.startsWith (Str.trim ln) "*"); [discriminate | ].
  intros _. repeat split. exact E.
Qed.

(** What the three extractors with a context check leave out.  A color of
    the JavaScript extractor is not inside a block comment of its line (the
    last [/*] before it is not after the last [*/] before it) and its line
    does not begin, after white space, with [//], [/*] or [*]; a color of the
    HTML or of the SVG extractor is on a line that does not begin, after
    white space, with the opening of a comment. *)
Theorem extractors_skip_comment_lines (content : string) (c : Color) :
  (In c (javascript.extractFromJavaScript content) ->
   exists i index ln,
     nth_error (Str.split "010" content) i = Some ln /\
     position c = Some {| line := i + 1; column := index + 1 |} /\
     (Str.lastIndexOf (Str.substring ln 0 index) "/*"
      <= Str.lastIndexOf (Str.substring ln 0 index) "*/")%Z /\
     Str.startsWith (Str.trim ln) "//" = false /\
     Str.startsWith (Str.trim ln) "/*" = false /\
     Str.startsWith (Str.trim ln) "*" = false) /\
  (In c (html.extractFromHtml content) \/ In c (svg.extractFromSvg content) ->
   exists i index ln,
     nth_error (Str.split "010" content) i = Some ln /\
     position c = Some {| line := i + 1; column := index + 1 |} /\
     Str.startsWith (Str.trim ln) "<!--" = false).
Proof.
  split.
  - intro H. apply dedupe_In in H. unfold javascript.collect in H.
    destruct (forEachLine_In _ _ _ _ H) as (i & ln & Hn & Hc).
    destruct (javascript_extractLine_In _ _ _ Hc) as (index & Hctx & Hpos).
    exists i, index, ln. split; [exact Hn | split; [exact Hpos | ] ].
    exact (isStyleContext_comments _ _ Hctx).
  - intros [H | H]; apply dedupe_In in H;
      destruct (forEachLine_In _ _ _ _ H) as (i & ln & Hn & Hc).
    + destruct (html_extractLine_In _ _ _ Hc) as (index & Hpos).
      exists i, index, ln. split; [exact Hn | split; [exact Hpos | ] ].
      unfold html.extractLine in Hc.
      destruct (Str.startsWith (Str.trim ln) "<!--"); [contradiction | reflexivity].
    + destruct (svg_extractLine_In _ _ _ Hc) as (index & Hpos).
      exists i, index, ln. split; [exact Hn | split; [exact Hpos | ] ].
      unfold svg.extractLine in Hc.
      destruct (Str.startsWith (Str.trim ln) "<!--"); [contradiction | reflexivity].
Qed.

Lemma extractors_skip_comment_lines_witness :
  javascript.extractFromJavaScript "/* color: #fff */ const a = 1;" = [] /\
  html.extractFromHtml "  <!-- <p style='color: #fff'> -->" = [] /\
  exists i index ln,
    nth_error (Str.split "010" "<p style='color: #fff'>") i = Some ln /\
    Some {| line := 1; column := 18 |} = Some {| line := i + 1; column := index + 1 |} /\
    Str.startsWith (Str.trim ln) "<!--" = false.
Proof.
  split; [vm_compute; reflexivity | split; [vm_compute; reflexivity | ] ].
  apply (proj2 (extractors_skip_comment_lines "<p style='color: #fff'>"%string
                  {| value := "#fff"; format := hex;
                     position := Some {| line := 1; column := 18 |};
                     context := Some "<p style='color: #fff'>"%string |})).
  left. vm_compute. left. reflexivity.
Defined.


(** ** Hex strings through parseColor and rgbToHex *)

Lemma hexAny_cases (c : ascii) : Regex.hexAny c = true -> In c anyHexDigits.
Proof.
  destruct c as [[] [] [] [] [] [] [] []]; vm_compute; intro H;
    try discriminate H; tauto.
Qed.

Lemma channel_any (a b : ascii) :
  Regex.hexAny a = true -> Regex.hexAny b = true ->
  isByte (Num.parseInt (str2 a b) 16) /\
  colorConversion.toHex (Num.parseInt (str2 a b) 16)
  = str2 (Str.lowerChar a) (Str.lowerChar b).
Proof.
  intros Ha Hb. apply hexAny_cases in Ha. apply hexAny_cases in Hb.
  assert (E : exists z, (0 <=? z)%Z && (z <=? 255)%Z = true
                        /\ Num.parseInt (str2 a b) 16 = Num.ofZ z
                        /\ colorConversion.toHex (Num.parseInt (str2 a b) 16)
                           = str2 (Str.lowerChar a) (Str.lowerChar b)).
  { simpl in Ha, Hb.
    repeat (destruct Ha as [Ha | Ha]; [subst a | ]); try contradiction;
    repeat (destruct Hb as [Hb | Hb]; [subst b | ]); try contradiction;
    match goal with
    | |- exists z, _ /\ Num.parseInt ?s 16 = _ /\ _ =>
        let v := eval vm_compute in (Num.truncZ (Num.parseInt s 16)) in
        match v with
        | Some ?z => exists z; split; [reflexivity | split; vm_compute; reflexivity]
        end
    end. }
  destruct E as (z & Hz & E1 & E2). split; [ | exact E2 ].
  exists z. split; [ | exact E1 ].
  apply andb_true_iff in Hz. destruct Hz as [H1 H2]. lia.
Qed.

(** The alpha pair: the quotient by 255 is below 1 unless the pair is ff,
    and then the product by 255 rounds back to the pair. *)
Lemma alpha_any (a b : ascii) :
  Regex.hexAny a = true -> Regex.hexAny b = true ->
  let alpha := (Num.parseInt (str2 a b) 16 / 255)%float in
  (alpha <? 1)%float = negb (isFF a b) /\
  Str.padStart (Num.toString16 (Num.Math_round (alpha * 255))) 2 "0"
  = str2 (Str.lowerChar a) (Str.lowerChar b).
Proof.
  intros Ha Hb. apply hexAny_cases in Ha. apply hexAny_cases in Hb.
  simpl in Ha, Hb.
  repeat (destruct Ha as [Ha | Ha]; [subst a | ]); try contradiction;
  repeat (destruct Hb as [Hb | Hb]; [subst b | ]); try contradiction;
  split; vm_compute; reflexivity.
Qed.

Lemma parseColor_hash3 (a b c : ascii) :
  Regex.hexAny c = true ->
  colorConversion.parseColor (hash3 a b c)
  = Some {| colorConversion.rgb_r := Num.parseInt (str2 a a) 16;
            colorConversion.rgb_g := Num.parseInt (str2 b b) 16;
            colorConversion.rgb_b := Num.parseInt (str2 c c) 16;
            colorConversion.rgb_a := None |}.
Proof.
  intro H. apply hexAny_cases in H. simpl in H.
  repeat (destruct H as [H | H]; [subst c; reflexivity | ]). contradiction.
Qed.

Lemma parseColor_hash6 (c1 c2 c3 c4 c5 c6 : ascii) :
  Regex.hexAny c6 = true ->
  colorConversion.parseColor (hash6 c1 c2 c3 c4 c5 c6)
  = Some {| colorConversion.rgb_r := Num.parseInt (str2 c1 c2) 16;
            colorConversion.rgb_g := Num.parseInt (str2 c3 c4) 16;
            colorConversion.rgb_b := Num.parseInt (str2 c5 c6) 16;
            colorConversion.rgb_a := None |}.
Proof.
  intro H. apply hexAny_cases in H. simpl in H.
  repeat (destruct H as [H | H]; [subst c6; reflexivity | ]). contradiction.
Qed.

Lemma parseColor_hash8 (c1 c2 c3 c4 c5 c6 c7 c8 : ascii) :
  Regex.hexAny c8 = true ->
  colorConversion.parseColor (hash8 c1 c2 c3 c4 c5 c6 c7 c8)
  = Some {| colorConversion.rgb_r := Num.parseInt (str2 c1 c2) 16;
            colorConversion.rgb_g := Num.parseInt (str2 c3 c4) 16;
            colorConversion.rgb_b := Num.parseInt (str2 c5 c6) 16;
            colorConversion.rgb_a := Some (Num.parseInt (str2 c7 c8) 16 / 255)%float |}.
Proof.
  intro H. apply hexAny_cases in H. simpl in H.
  repeat (destruct H as [H | H]; [subst c8; reflexivity | ]). contradiction.
Qed.

(** [rgbToHex] after [parseColor] puts a hex color in its canonical form.
    A 3-digit color parses as the 6-digit color with each digit doubled, and
    both print as that 6-digit color in lower case; a 6-digit color prints
    as itself in lower case; an 8-digit color prints as itself in lower
    case, except that an alpha of ff is dropped. *)
Theorem rgbToHex_parseColor_canonical :
  (forall a b c : ascii,
      Regex.hexAny a = true -> Regex.hexAny b = true -> Regex.hexAny c = true ->
      exists x, colorConversion.parseColor (hash3 a b c) = Some x /\
                colorConversion.parseColor (hash6 a a b b c c) = Some x /\
                colorConversion.rgbToHex x = Str.toLowerCase (hash6 a a b b c c)) /\
  (forall c1 c2 c3 c4 c5 c6 : ascii,
      Regex.hexAny c1 = true -> Regex.hexAny c2 = true -> Regex.hexAny c3 = true ->
      Regex.hexAny c4 = true -> Regex.hexAny c5 = true -> Regex.hexAny c6 = true ->
      exists x, colorConversion.parseColor (hash6 c1 c2 c3 c4 c5 c6) = Some x /\
                colorConversion.rgbToHex x = Str.toLowerCase (hash6 c1 c2 c3 c4 c5 c6)) /\
  (forall c1 c2 c3 c4 c5 c6 c7 c8 : ascii,
      Regex.hexAny c1 = true -> Regex.hexAny c2 = true -> Regex.hexAny c3 = true ->
      Regex.hexAny c4 = true -> Regex.hexAny c5 = true -> Regex.hexAny c6 = true ->
      Regex.hexAny c7 = true -> Regex.hexAny c8 = true ->
      exists x, colorConversion.parseColor (hash8 c1 c2 c3 c4 c5 c6 c7 c8) = Some x /\
                colorConversion.rgbToHex x
                = Str.toLowerCase (if isFF c7 c8 then hash6 c1 c2 c3 c4 c5 c6
                                   else hash8 c1 c2 c3 c4 c5 c6 c7 c8)).
Proof.
  assert (Six : forall c1 c2 c3 c4 c5 c6 : ascii,
             Regex.hexAny c1 = true -> Regex.hexAny c2 = true -> Regex.hexAny c3 = true ->
             Regex.hexAny c4 = true -> Regex.hexAny c5 = true -> Regex.hexAny c6 = true ->
             colorConversion.rgbToHex
               {| colorConversion.rgb_r := Num.parseInt (str2 c1 c2) 16;
                  colorConversion.rgb_g := Num.parseInt (str2 c3 c4) 16;
                  colorConversion.rgb_b := Num.parseInt (str2 c5 c6) 16;
                  colorConversion.rgb_a := None |}
             = Str.toLowerCase (hash6 c1 c2 c3 c4 c5 c6)).
  { intros c1 c2 c3 c4 c5 c6 H1 H2 H3 H4 H5 H6.
    unfold colorConversion.rgbToHex.
    cbn [colorConversion.rgb_r colorConversion.rgb_g colorConversion.rgb_b colorConversion.rgb_a].
    rewrite (proj2 (channel_any c1 c2 H1 H2)), (proj2 (channel_any c3 c4 H3 H4)),
      (proj2 (channel_any c5 c6 H5 H6)). reflexivity. }
  split; [ | split ].
  - intros a b c Ha Hb Hc. eexists.
    split; [exact (parseColor_hash3 a b c Hc) | ].
    split; [exact (parseColor_hash6 a a b b c c Hc) | ].
    apply Six; assumption.
  - intros c1 c2 c3 c4 c5 c6 H1 H2 H3 H4 H5 H6. eexists.
    split; [exact (parseColor_hash6 c1 c2 c3 c4 c5 c6 H6) | ].
    apply Six; assumption.
  - intros c1 c2 c3 c4 c5 c6 c7 c8 H1 H2 H3 H4 H5 H6 H7 H8. eexists.
    split; [exact (parseColor_hash8 c1 c2 c3 c4 c5 c6 c7 c8 H8) | ].
    unfold colorConversion.rgbToHex.
    cbn [colorConversion.rgb_r colorConversion.rgb_g colorConversion.rgb_b colorConversion.rgb_a].
    destruct (alpha_any c7 c8 H7 H8) as [A1 A2]. cbv zeta in A1, A2.
    rewrite A1, A2.
    rewrite (proj2 (channel_any c1 c2 H1 H2)), (proj2 (channel_any c3 c4 H3 H4)),
      (proj2 (channel_any c5 c6 H5 H6)).
    destruct (isFF c7 c8); reflexivity.
Qed.

Lemma rgbToHex_parseColor_canonical_witness :
  (exists x, colorConversion.parseColor (hash3 "A" "b" "C") = Some x /\
             colorConversion.parseColor (hash6 "A" "A" "b" "b" "C" "C") = Some x /\
             colorConversion.rgbToHex x = "#aabbcc"%string) /\
  (exists x, colorConversion.parseColor (hash8 "1" "2" "3" "4" "5" "6" "F" "f") = Some x /\
             colorConversion.rgbToHex x = "#123456"%string).
Proof.
  split.
  - exact (proj1 rgbToHex_parseColor_canonical "A" "b" "C" eq_refl eq_refl eq_refl)%char.
  - exact (proj2 (proj2 rgbToHex_parseColor_canonical) "1" "2" "3" "4" "5" "6" "F" "f"
             eq_refl eq_refl eq_refl eq_refl eq_refl eq_refl eq_refl eq_refl)%char.
Defined.


(** ** Hex strings through the converter's parser *)

Lemma hexAny_facts (c : ascii) :
  Regex.hexAny c = true ->
  Regex.classAccepts Regex.flag_i false Regex.hexLower (Str.lowerChar c) = true /\
  Str.isWhiteSpace c = false /\
  Regex.hexAny (Str.lowerChar c) = true.
Proof.
  intro H. apply hexAny_cases in H. simpl in H.
  repeat (destruct H as [H | H]; [subst c; repeat split; reflexivity | ]). contradiction.
Qed.

Lemma channel_lower (a b : ascii) :
  Regex.hexAny a = true -> Regex.hexAny b = true ->
  Num.parseInt (str2 (Str.lowerChar a) (Str.lowerChar b)) 16 = Num.parseInt (str2 a b) 16 /\
  colorConverter.toHex (Num.parseInt (str2 a b) 16)
  = str2 (Str.lowerChar a) (Str.lowerChar b).
Proof.
  intros Ha Hb. apply hexAny_cases in Ha. apply hexAny_cases in Hb.
  simpl in Ha, Hb.
  repeat (destruct Ha as [Ha | Ha]; [subst a | ]); try contradiction;
  repeat (destruct Hb as [Hb | Hb]; [subst b | ]); try contradiction;
  split; vm_compute; reflexivity.
Qed.

Section ConverterHex.
Import Regex.

Lemma trim_last (c : ascii) (s : string) :
  Str.isWhiteSpace c = false ->
  Str.trimEnd (s ++ String c EmptyString) = (s ++ String c EmptyString)%string.
Proof.
  intro H. induction s as [ | d s IH]; simpl.
  - rewrite H. reflexivity.
  - rewrite IH. destruct s; reflexivity.
Qed.

Lemma trim_hash (c : ascii) (s : string) :
  Str.isWhiteSpace c = false ->
  Str.trim (String "#" (s ++ String c EmptyString))
  = String "#" (s ++ String c EmptyString).
Proof.
  intro H. unfold Str.trim.
  change (Str.trimStart (String "#" (s ++ String c EmptyString)))
    with (String "#" (s ++ String c EmptyString)).
  exact (trim_last c (String "#" s) H).
Qed.

Lemma hexCapture_3 (l1 l2 l3 : ascii) :
  classAccepts flag_i false hexLower l1 = true ->
  classAccepts flag_i false hexLower l2 = true ->
  classAccepts flag_i false hexLower l3 = true ->
  colorConverter.hexCapture (hash3 l1 l2 l3)
  = Some (String l1 (String l2 (String l3 EmptyString))).
Proof.
  intros H1 H2 H3. unfold colorConverter.hexCapture, exec, hash3.
  cbn -[classAccepts]. rewrite H1. cbn -[classAccepts]. rewrite H2.
  cbn -[classAccepts]. rewrite H3. reflexivity.
Qed.

Lemma hexCapture_4 (l1 l2 l3 l4 : ascii) :
  classAccepts flag_i false hexLower l1 = true ->
  classAccepts flag_i false hexLower l2 = true ->
  classAccepts flag_i false hexLower l3 = true ->
  classAccepts flag_i false hexLower l4 = true ->
  colorConverter.hexCapture (String "#" (String l1 (String l2 (String l3 (String l4 EmptyString)))))
  = Some (String l1 (String l2 (String l3 (String l4 EmptyString)))).
Proof.
  intros H1 H2 H3 H4. unfold colorConverter.hexCapture, exec.
  cbn -[classAccepts]. rewrite H1. cbn -[classAccepts]. rewrite H2.
  cbn -[classAccepts]. rewrite H3. cbn -[classAccepts]. rewrite H4. reflexivity.
Qed.

Lemma hexCapture_5 (l1 l2 l3 l4 l5 : ascii) :
  classAccepts flag_i false hexLower l1 = true ->
  classAccepts flag_i false hexLower l2 = true ->
  classAccepts flag_i false hexLower l3 = true ->
  classAccepts flag_i false hexLower l4 = true ->
  classAccepts flag_i false hexLower l5 = true ->
  colorConverter.hexCapture
    (String "#" (String l1 (String l2 (String l3 (String l4 (String l5 EmptyString))))))
  = Some (String l1 (String l2 (String l3 (String l4 (String l5 EmptyString))))).
Proof.
  intros H1 H2 H3 H4 H5. unfold colorConverter.hexCapture, exec.
  cbn -[classAccepts]. rewrite H1. cbn -[classAccepts]. rewrite H2.
  cbn -[classAccepts]. rewrite H3. cbn -[classAccepts]. rewrite H4.
  cbn -[classAccepts]. rewrite H5. reflexivity.
Qed.

Lemma hexCapture_6 (l1 l2 l3 l4 l5 l6 : ascii) :
  classAccepts flag_i false hexLower l1 = true ->
  classAccepts flag_i false hexLower l2 = true ->
  classAccepts flag_i false hexLower l3 = true ->
  classAccepts flag_i false hexLower l4 = true ->
  classAccepts flag_i false hexLower l5 = true ->
  classAccepts flag_i false hexLower l6 = true ->
  colorConverter.hexCapture (hash6 l1 l2 l3 l4 l5 l6)
  = Some (String l1 (String l2 (String l3 (String l4 (String l5 (String l6 EmptyString)))))).
Proof.
  intros H1 H2 H3 H4 H5 H6. unfold colorConverter.hexCapture, exec, hash6.
  cbn -[classAccepts]. rewrite H1. cbn -[classAccepts]. rewrite H2.
  cbn -[classAccepts]. rewrite H3. cbn -[classAccepts]. rewrite H4.
  cbn -[classAccepts]. rewrite H5. cbn -[classAccepts]. rewrite H6. reflexivity.
Qed.

Lemma hexCapture_7 (l1 l2 l3 l4 l5 l6 l7 : ascii) :
  classAccepts flag_i false hexLower l1 = true ->
  classAccepts flag_i false hexLower l2 = true ->
  classAccepts flag_i false hexLower l3 = true ->
  classAccepts flag_i false hexLower l4 = true ->
  classAccepts flag_i false hexLower l5 = true ->
  classAccepts flag_i false hexLower l6 = true ->
  classAccepts flag_i false hexLower l7 = true ->
  colorConverter.hexCapture
    (String "#" (String l1 (String l2 (String l3 (String l4 (String l5 (String l6
       (String l7 EmptyString))))))))
  = Some (String l1 (String l2 (String l3 (String l4 (String l5 (String l6
       (String l7 EmptyString))))))).
Proof.
  intros H1 H2 H3 H4 H5 H6 H7. unfold colorConverter.hexCapture, exec.
  cbn -[classAccepts]. rewrite H1. cbn -[classAccepts]. rewrite H2.
  cbn -[classAccepts]. rewrite H3. cbn -[classAccepts]. rewrite H4.
  cbn -[classAccepts]. rewrite H5. cbn -[classAccepts]. rewrite H6.
  cbn -[classAccepts]. rewrite H7. reflexivity.
Qed.

Lemma hexCapture_8 (l1 l2 l3 l4 l5 l6 l7 l8 : ascii) :
  classAccepts flag_i false hexLower l1 = true ->
  classAccepts flag_i false hexLower l2 = true ->
  classAccepts flag_i false hexLower l3 = true ->
  classAccepts flag_i false hexLower l4 = true ->
  classAccepts flag_i false hexLower l5 = true ->
  classAccepts flag_i false hexLower l6 = true ->
  classAccepts flag_i false hexLower l7 = true ->
  classAccepts flag_i false hexLower l8 = true ->
  colorConverter.hexCapture (hash8 l1 l2 l3 l4 l5 l6 l7 l8)
  = Some (String l1 (String l2 (String l3 (String l4 (String l5 (String l6
       (String l7 (String l8 EmptyString)))))))).
Proof.
  intros H1 H2 H3 H4 H5 H6 H7 H8. unfold colorConverter.hexCapture, exec, hash8.
  cbn -[classAccepts]. rewrite H1. cbn -[classAccepts]. rewrite H2.
  cbn -[classAccepts]. rewrite H3. cbn -[classAccepts]. rewrite H4.
  cbn -[classAccepts]. rewrite H5. cbn -[classAccepts]. rewrite H6.
  cbn -[classAccepts]. rewrite H7. cbn -[classAccepts]. rewrite H8. reflexivity.
Qed.

End ConverterHex.

Lemma alpha_range (a b : ascii) :
  Regex.hexAny a = true -> Regex.hexAny b = true ->
  let alpha := (Num.parseInt (str2 a b) 16 / 255)%float in
  ((0 <=? alpha) && (alpha <=? 1))%float = true.
Proof.
  intros Ha Hb. apply hexAny_cases in Ha. apply hexAny_cases in Hb.
  simpl in Ha, Hb.
  repeat (destruct Ha as [Ha | Ha]; [subst a | ]); try contradiction;
  repeat (destruct Hb as [Hb | Hb]; [subst b | ]); try contradiction;
  vm_compute; reflexivity.
Qed.

Lemma parseColorToRGB_hash3 (a b c : ascii) :
  Regex.hexAny a = true -> Regex.hexAny b = true -> Regex.hexAny c = true ->
  colorConverter.parseColorToRGB (hash3 a b c)
  = Some (colorConverter.mkRgb (Num.parseInt (str2 a a) 16) (Num.parseInt (str2 b b) 16)
                               (Num.parseInt (str2 c c) 16)).
Proof.
  intros Ha Hb Hc.
  destruct (hexAny_facts a Ha) as (A1 & _ & _).
  destruct (hexAny_facts b Hb) as (A2 & _ & _).
  destruct (hexAny_facts c Hc) as (A3 & W & _).
  unfold colorConverter.parseColorToRGB. cbv zeta.
  change (hash3 a b c)
    with (String "#" (String a (String b EmptyString) ++ String c EmptyString)).
  rewrite (trim_hash c _ W).
  change (Str.toLowerCase
            (String "#" (String a (String b EmptyString) ++ String c EmptyString)))
    with (hash3 (Str.lowerChar a) (Str.lowerChar b) (Str.lowerChar c)).
  rewrite (hexCapture_3 _ _ _ A1 A2 A3).
  rewrite <- (proj1 (channel_lower a a Ha Ha)), <- (proj1 (channel_lower b b Hb Hb)),
    <- (proj1 (channel_lower c c Hc Hc)).
  reflexivity.
Qed.

Lemma parseColorToRGB_hash6 (c1 c2 c3 c4 c5 c6 : ascii) :
  Regex.hexAny c1 = true -> Regex.hexAny c2 = true -> Regex.hexAny c3 = true ->
  Regex.hexAny c4 = true -> Regex.hexAny c5 = true -> Regex.hexAny c6 = true ->
  colorConverter.parseColorToRGB (hash6 c1 c2 c3 c4 c5 c6)
  = Some (colorConverter.mkRgb (Num.parseInt (str2 c1 c2) 16) (Num.parseInt (str2 c3 c4) 16)
                               (Num.parseInt (str2 c5 c6) 16)).
Proof.
  intros H1 H2 H3 H4 H5 H6.
  destruct (hexAny_facts c1 H1) as (A1 & _ & _).
  destruct (hexAny_facts c2 H2) as (A2 & _ & _).
  destruct (hexAny_facts c3 H3) as (A3 & _ & _).
  destruct (hexAny_facts c4 H4) as (A4 & _ & _).
  destruct (hexAny_facts c5 H5) as (A5 & _ & _).
  destruct (hexAny_facts c6 H6) as (A6 & W & _).
  unfold colorConverter.parseColorToRGB. cbv zeta.
  change (hash6 c1 c2 c3 c4 c5 c6)
    with (String "#" (String c1 (String c2 (String c3 (String c4 (String c5 EmptyString))))
                      ++ String c6 EmptyString)).
  rewrite (trim_hash c6 _ W).
  change (Str.toLowerCase
            (String "#" (String c1 (String c2 (String c3 (String c4 (String c5 EmptyString))))
                         ++ String c6 EmptyString)))
    with (hash6 (Str.lowerChar c1) (Str.lowerChar c2) (Str.lowerChar c3)
                (Str.lowerChar c4) (Str.lowerChar c5) (Str.lowerChar c6)).
  rewrite (hexCapture_6 _ _ _ _ _ _ A1 A2 A3 A4 A5 A6).
  rewrite <- (proj1 (channel_lower c1 c2 H1 H2)), <- (proj1 (channel_lower c3 c4 H3 H4)),
    <- (proj1 (channel_lower c5 c6 H5 H6)).
  reflexivity.
Qed.

Lemma parseColorToRGB_hash8 (c1 c2 c3 c4 c5 c6 c7 c8 : ascii) :
  Regex.hexAny c1 = true -> Regex.hexAny c2 = true -> Regex.hexAny c3 = true ->
  Regex.hexAny c4 = true -> Regex.hexAny c5 = true -> Regex.hexAny c6 = true ->
  Regex.hexAny c7 = true -> Regex.hexAny c8 = true ->
  colorConverter.parseColorToRGB (hash8 c1 c2 c3 c4 c5 c6 c7 c8)
  = Some {| colorConverter.cs_r := Some (Num.parseInt (str2 c1 c2) 16);
            colorConverter.cs_g := Some (Num.parseInt (str2 c3 c4) 16);
            colorConverter.cs_b := Some (Num.parseInt (str2 c5 c6) 16);
            colorConverter.cs_a := Some (Num.parseInt (str2 c7 c8) 16 / 255)%float |}.
Proof.
  intros H1 H2 H3 H4 H5 H6 H7 H8.
  destruct (hexAny_facts c1 H1) as (A1 & _ & _).
  destruct (hexAny_facts c2 H2) as (A2 & _ & _).
  destruct (hexAny_facts c3 H3) as (A3 & _ & _).
  destruct (hexAny_facts c4 H4) as (A4 & _ & _).
  destruct (hexAny_facts c5 H5) as (A5 & _ & _).
  destruct (hexAny_facts c6 H6) as (A6 & _ & _).
  destruct (hexAny_facts c7 H7) as (A7 & _ & _).
  destruct (hexAny_facts c8 H8) as (A8 & W & _).
  unfold colorConverter.parseColorToRGB. cbv zeta.
  change (hash8 c1 c2 c3 c4 c5 c6 c7 c8)
    with (String "#" (String c1 (String c2 (String c3 (String c4 (String c5 (String c6
                        (String c7 EmptyString))))))
                      ++ String c8 EmptyString)).
  rewrite (trim_hash c8 _ W).
  change (Str.toLowerCase
            (String "#" (String c1 (String c2 (String c3 (String c4 (String c5 (String c6
                           (String c7 EmptyString))))))
                         ++ String c8 EmptyString)))
    with (hash8 (Str.lowerChar c1) (Str.lowerChar c2) (Str.lowerChar c3)
                (Str.lowerChar c4) (Str.lowerChar c5) (Str.lowerChar c6)
                (Str.lowerChar c7) (Str.lowerChar c8)).
  rewrite (hexCapture_8 _ _ _ _ _ _ _ _ A1 A2 A3 A4 A5 A6 A7 A8).
  rewrite <- (proj1 (channel_lower c1 c2 H1 H2)), <- (proj1 (channel_lower c3 c4 H3 H4)),
    <- (proj1 (channel_lower c5 c6 H5 H6)), <- (proj1 (channel_lower c7 c8 H7 H8)).
  reflexivity.
Qed.

(** A string of hex digits of another length after the [#]: the pattern of
    the converter accepts 3 to 8 digits, and neither parser reads 4, 5 or 7. *)
Lemma parsers_reject_other_lengths (s : string) :
  Regex.allChars Regex.hexAny s = true ->
  List.In (String.length s) [4; 5; 7] ->
  colorConversion.parseColor (String "#" s) = None /\
  colorConverter.parseColorToRGB (String "#" s) = None.
Proof.
  intros Hs Hl.
  assert (Last : forall (t : string) (c : ascii),
             Regex.hexAny c = true ->
             Str.trim (String "#" (t ++ String c EmptyString))
             = String "#" (t ++ String c EmptyString)).
  { intros t c Hc. apply trim_hash. exact (proj1 (proj2 (hexAny_facts c Hc))). }
  destruct s as [ | c1 [ | c2 [ | c3 [ | c4 [ | c5 [ | c6 [ | c7 [ | c8 s']]]]]]]];
    simpl in Hl; try (exfalso; lia).
  - apply andb_true_iff in Hs. destruct Hs as [H1 Hs].
    apply andb_true_iff in Hs. destruct Hs as [H2 Hs].
    apply andb_true_iff in Hs. destruct Hs as [H3 Hs].
    apply andb_true_iff in Hs. destruct Hs as [H4 _].
    pose proof (Last (String c1 (String c2 (String c3 EmptyString))) c4 H4) as T.
    cbn [String.append] in T. split.
    + unfold colorConversion.parseColor. cbv zeta. rewrite T. reflexivity.
    + unfold colorConverter.parseColorToRGB. cbv zeta. rewrite T.
      change (Str.toLowerCase (String "#" (String c1 (String c2 (String c3 (String c4 EmptyString))))))
        with (String "#" (String (Str.lowerChar c1) (String (Str.lowerChar c2)
                (String (Str.lowerChar c3) (String (Str.lowerChar c4) EmptyString))))).
      rewrite (hexCapture_4 _ _ _ _ (proj1 (hexAny_facts c1 H1)) (proj1 (hexAny_facts c2 H2))
                 (proj1 (hexAny_facts c3 H3)) (proj1 (hexAny_facts c4 H4))).
      reflexivity.
  - apply andb_true_iff in Hs. destruct Hs as [H1 Hs].
    apply andb_true_iff in Hs. destruct Hs as [H2 Hs].
    apply andb_true_iff in Hs. destruct Hs as [H3 Hs].
    apply andb_true_iff in Hs. destruct Hs as [H4 Hs].
    apply andb_true_iff in Hs. destruct Hs as [H5 _].
    pose proof (Last (String c1 (String c2 (String c3 (String c4 EmptyString)))) c5 H5) as T.
    cbn [String.append] in T. split.
    + unfold colorConversion.parseColor. cbv zeta. rewrite T. reflexivity.
    + unfold colorConverter.parseColorToRGB. cbv zeta. rewrite T.
      change (Str.toLowerCase
                (String "#" (String c1 (String c2 (String c3 (String c4 (String c5 EmptyString)))))))
        with (String "#" (String (Str.lowerChar c1) (String (Str.lowerChar c2)
                (String (Str.lowerChar c3) (String (Str.lowerChar c4)
                   (String (Str.lowerChar c5) EmptyString)))))).
      rewrite (hexCapture_5 _ _ _ _ _ (proj1 (hexAny_facts c1 H1)) (proj1 (hexAny_facts c2 H2))
                 (proj1 (hexAny_facts c3 H3)) (proj1 (hexAny_facts c4 H4))
                 (proj1 (hexAny_facts c5 H5))).
      reflexivity.
  - apply andb_true_iff in Hs. destruct Hs as [H1 Hs].
    apply andb_true_iff in Hs. destruct Hs as [H2 Hs].
    apply andb_true_iff in Hs. destruct Hs as [H3 Hs].
    apply andb_true_iff in Hs. destruct Hs as [H4 Hs].
    apply andb_true_iff in Hs. destruct Hs as [H5 Hs].
    apply andb_true_iff in Hs. destruct Hs as [H6 Hs].
    apply andb_true_iff in Hs. destruct Hs as [H7 _].
    pose proof (Last (String c1 (String c2 (String c3 (String c4 (String c5
                        (String c6 EmptyString)))))) c7 H7) as T.
    cbn [String.append] in T. split.
    + unfold colorConversion.parseColor. cbv zeta. rewrite T. reflexivity.
    + unfold colorConverter.parseColorToRGB. cbv zeta. rewrite T.
      change (Str.toLowerCase
                (String "#" (String c1 (String c2 (String c3 (String c4 (String c5
                   (String c6 (String c7 EmptyString)))))))))
        with (String "#" (String (Str.lowerChar c1) (String (Str.lowerChar c2)
                (String (Str.lowerChar c3) (String (Str.lowerChar c4)
                   (String (Str.lowerChar c5) (String (Str.lowerChar c6)
                      (String (Str.lowerChar c7) EmptyString)))))))).
      rewrite (hexCapture_7 _ _ _ _ _ _ _ (proj1 (hexAny_facts c1 H1))
                 (proj1 (hexAny_facts c2 H2)) (proj1 (hexAny_facts c3 H3))
                 (proj1 (hexAny_facts c4 H4)) (proj1 (hexAny_facts c5 H5))
                 (proj1 (hexAny_facts c6 H6)) (proj1 (hexAny_facts c7 H7))).
      reflexivity.
Qed.

(** The two parsers on hex colors.  On every color of 3, 6 or 8 hex digits,
    of either case, [parseColor] and the converter's [parseColorToRGB] read
    the same channels, which are integers of 0..255, and the same alpha,
    which is between 0 and 1; a color of 4, 5 or 7 hex digits is read by
    neither. *)
Theorem parsers_agree_on_hex :
  (forall a b c : ascii,
      Regex.hexAny a = true -> Regex.hexAny b = true -> Regex.hexAny c = true ->
      exists r g b0,
        colorConversion.parseColor (hash3 a b c)
        = Some {| colorConversion.rgb_r := r; colorConversion.rgb_g := g;
                  colorConversion.rgb_b := b0; colorConversion.rgb_a := None |} /\
        colorConverter.parseColorToRGB (hash3 a b c) = Some (colorConverter.mkRgb r g b0) /\
        isByte r /\ isByte g /\ isByte b0) /\
  (forall c1 c2 c3 c4 c5 c6 : ascii,
      Regex.hexAny c1 = true -> Regex.hexAny c2 = true -> Regex.hexAny c3 = true ->
      Regex.hexAny c4 = true -> Regex.hexAny c5 = true -> Regex.hexAny c6 = true ->
      exists r g b0,
        colorConversion.parseColor (hash6 c1 c2 c3 c4 c5 c6)
        = Some {| colorConversion.rgb_r := r; colorConversion.rgb_g := g;
                  colorConversion.rgb_b := b0; colorConversion.rgb_a := None |} /\
        colorConverter.parseColorToRGB (hash6 c1 c2 c3 c4 c5 c6)
        = Some (colorConverter.mkRgb r g b0) /\
        isByte r /\ isByte g /\ isByte b0) /\
  (forall c1 c2 c3 c4 c5 c6 c7 c8 : ascii,
      Regex.hexAny c1 = true -> Regex.hexAny c2 = true -> Regex.hexAny c3 = true ->
      Regex.hexAny c4 = true -> Regex.hexAny c5 = true -> Regex.hexAny c6 = true ->
      Regex.hexAny c7 = true -> Regex.hexAny c8 = true ->
      exists r g b0 alpha,
        colorConversion.parseColor (hash8 c1 c2 c3 c4 c5 c6 c7 c8)
        = Some {| colorConversion.rgb_r := r; colorConversion.rgb_g := g;
                  colorConversion.rgb_b := b0; colorConversion.rgb_a := Some alpha |} /\
        colorConverter.parseColorToRGB (hash8 c1 c2 c3 c4 c5 c6 c7 c8)
        = Some {| colorConverter.cs_r := Some r; colorConverter.cs_g := Some g;
                  colorConverter.cs_b := Some b0; colorConverter.cs_a := Some alpha |} /\
        isByte r /\ isByte g /\ isByte b0 /\
        ((0 <=? alpha) && (alpha <=? 1))%float = true) /\
  (forall s : string,
      Regex.allChars Regex.hexAny s = true -> List.In (String.length s) [4; 5; 7] ->
      colorConversion.parseColor (String "#" s) = None /\
      colorConverter.parseColorToRGB (String "#" s) = None).
Proof.
  split; [ | split; [ | split; [ | exact parsers_reject_other_lengths ] ] ].
  - intros a b c Ha Hb Hc. do 3 eexists.
    split; [exact (parseColor_hash3 a b c Hc) | ].
    split; [exact (parseColorToRGB_hash3 a b c Ha Hb Hc) | ].
    repeat split; [exact (proj1 (channel_any a a Ha Ha)) | exact (proj1 (channel_any b b Hb Hb))
                   | exact (proj1 (channel_any c c Hc Hc))].
  - intros c1 c2 c3 c4 c5 c6 H1 H2 H3 H4 H5 H6. do 3 eexists.
    split; [exact (parseColor_hash6 c1 c2 c3 c4 c5 c6 H6) | ].
    split; [exact (parseColorToRGB_hash6 c1 c2 c3 c4 c5 c6 H1 H2 H3 H4 H5 H6) | ].
    repeat split; [exact (proj1 (channel_any c1 c2 H1 H2))
                   | exact (proj1 (channel_any c3 c4 H3 H4))
                   | exact (proj1 (channel_any c5 c6 H5 H6))].
  - intros c1 c2 c3 c4 c5 c6 c7 c8 H1 H2 H3 H4 H5 H6 H7 H8. do 4 eexists.
    split; [exact (parseColor_hash8 c1 c2 c3 c4 c5 c6 c7 c8 H8) | ].
    split; [exact (parseColorToRGB_hash8 c1 c2 c3 c4 c5 c6 c7 c8 H1 H2 H3 H4 H5 H6 H7 H8) | ].
    split; [exact (proj1 (channel_any c1 c2 H1 H2)) | ].
    split; [exact (proj1 (channel_any c3 c4 H3 H4)) | ].
    split; [exact (proj1 (channel_any c5 c6 H5 H6)) | ].
    exact (alpha_range c7 c8 H7 H8).
Qed.

Lemma parsers_agree_on_hex_witness :
  (exists r g b0,
      colorConversion.parseColor (hash3 "F" "8" "0")
      = Some {| colorConversion.rgb_r := r; colorConversion.rgb_g := g;
                colorConversion.rgb_b := b0; colorConversion.rgb_a := None |} /\
      colorConverter.parseColorToRGB (hash3 "F" "8" "0") = Some (colorConverter.mkRgb r g b0) /\
      isByte r /\ isByte g /\ isByte b0) /\
  colorConversion.parseColor "#ff80" = None /\
  colorConverter.parseColorToRGB "#ff80" = None.
Proof.
  split.
  - exact (proj1 parsers_agree_on_hex "F" "8" "0" eq_refl eq_refl eq_refl)%char.
  - apply (proj2 (proj2 (proj2 parsers_agree_on_hex)) "ff80"%string); [reflexivity | ].
    simpl. tauto.
Defined.


Lemma toHex_channel (a b : ascii) :
  Regex.hexAny a = true -> Regex.hexAny b = true ->
  colorConverter.toHex (Num.parseInt (str2 a b) 16) = str2 (Str.lowerChar a) (Str.lowerChar b) /\
  colorConverter.toHex (Num.parseInt (str2 a b) 16 / 255 * 255)%float
  = str2 (Str.lowerChar a) (Str.lowerChar b).
Proof.
  intros Ha Hb. apply hexAny_cases in Ha. apply hexAny_cases in Hb.
  simpl in Ha, Hb.
  repeat (destruct Ha as [Ha | Ha]; [subst a | ]); try contradiction;
  repeat (destruct Hb as [Hb | Hb]; [subst b | ]); try contradiction;
  vm_compute; split; reflexivity.
Qed.

Lemma convertColor_hex_of_parse (now : float) (color : Color)
      (options : colorConverter.ColorConversionOptions) (c : colorConverter.ColorSpace) :
  colorConverter.targetFormat options = "hex"%string ->
  colorConverter.parseColorToRGB (value color) = Some c ->
  colorConverter.convertColor now color options
  = colorConverter.Normal
      {| colorConverter.original := color;
         colorConverter.converted := colorConverter.rgbToHex c options;
         colorConverter.res_format := "hex";
         colorConverter.timestamp := now;
         colorConverter.success := true;
         colorConverter.error := None |}.
Proof.
  intros Ht Hp. unfold colorConverter.convertColor, colorConverter.convertColor_try.
  rewrite Hp. unfold colorConverter.serialize. cbv zeta. rewrite Ht. reflexivity.
Qed.

Lemma rgbToHex_six (l1 l2 l3 l4 l5 l6 : ascii) (alpha : option float)
      (options : colorConverter.ColorConversionOptions) :
  (alpha = None \/ colorConverter.truthy (colorConverter.preserveAlpha options) = false) ->
  forall c : colorConverter.ColorSpace,
  colorConverter.toHex (colorConverter.num (colorConverter.cs_r c)) = str2 l1 l2 ->
  colorConverter.toHex (colorConverter.num (colorConverter.cs_g c)) = str2 l3 l4 ->
  colorConverter.toHex (colorConverter.num (colorConverter.cs_b c)) = str2 l5 l6 ->
  colorConverter.cs_a c = alpha ->
  colorConverter.rgbToHex c options
  = let hex :=
      if colorConverter.truthy (colorConverter.shortHex options)
         && (Ascii.eqb l1 l2 && Ascii.eqb l3 l4 && Ascii.eqb l5 l6)
      then hash3 l1 l3 l5
      else hash6 l1 l2 l3 l4 l5 l6 in
    if colorConverter.truthy (colorConverter.uppercase options)
    then Str.toUpperCase hex else hex.
Proof.
  intros Ha c Hr Hg Hb Hal. unfold colorConverter.rgbToHex.
  rewrite Hr, Hg, Hb, Hal. cbv zeta.
  assert (E : match alpha with
              | Some a =>
                  if colorConverter.truthy (colorConverter.preserveAlpha options)
                  then (("#" ++ str2 l1 l2 ++ str2 l3 l4 ++ str2 l5 l6)
                          ++ colorConverter.toHex (a * 255))%string
                  else ("#" ++ str2 l1 l2 ++ str2 l3 l4 ++ str2 l5 l6)%string
              | None => ("#" ++ str2 l1 l2 ++ str2 l3 l4 ++ str2 l5 l6)%string
              end = hash6 l1 l2 l3 l4 l5 l6).
  { destruct Ha as [-> | ->]; [reflexivity | destruct alpha; reflexivity]. }
  rewrite E.
  destruct (colorConverter.truthy (colorConverter.shortHex options)); [ | reflexivity ].
  cbn [andb]. change (Nat.eqb (String.length (hash6 l1 l2 l3 l4 l5 l6)) 7) with true.
  cbv iota.
  change (colorConverter.sameChars (Str.slice (hash6 l1 l2 l3 l4 l5 l6) 1 3))
    with (Ascii.eqb l1 l2).
  change (colorConverter.sameChars (Str.slice (hash6 l1 l2 l3 l4 l5 l6) 3 5))
    with (Ascii.eqb l3 l4).
  change (colorConverter.sameChars (Str.slice (hash6 l1 l2 l3 l4 l5 l6) 5 7))
    with (Ascii.eqb l5 l6).
  destruct (Ascii.eqb l1 l2 && Ascii.eqb l3 l4 && Ascii.eqb l5 l6); reflexivity.
Qed.

Lemma rgbToHex_eight (l1 l2 l3 l4 l5 l6 l7 l8 : ascii) (a : float)
      (options : colorConverter.ColorConversionOptions) :
  colorConverter.truthy (colorConverter.preserveAlpha options) = true ->
  forall c : colorConverter.ColorSpace,
  colorConverter.toHex (colorConverter.num (colorConverter.cs_r c)) = str2 l1 l2 ->
  colorConverter.toHex (colorConverter.num (colorConverter.cs_g c)) = str2 l3 l4 ->
  colorConverter.toHex (colorConverter.num (colorConverter.cs_b c)) = str2 l5 l6 ->
  colorConverter.cs_a c = Some a ->
  colorConverter.toHex (a * 255) = str2 l7 l8 ->
  colorConverter.rgbToHex c options
  = if colorConverter.truthy (colorConverter.uppercase options)
    then Str.toUpperCase (hash8 l1 l2 l3 l4 l5 l6 l7 l8)
    else hash8 l1 l2 l3 l4 l5 l6 l7 l8.
Proof.
  intros Hp c Hr Hg Hb Hal Ha. unfold colorConverter.rgbToHex.
  rewrite Hr, Hg, Hb, Hal, Hp, Ha. cbv zeta.
  change (Nat.eqb (String.length (("#" ++ str2 l1 l2 ++ str2 l3 l4 ++ str2 l5 l6)
                                    ++ str2 l7 l8)) 7) with false.
  rewrite andb_false_r. reflexivity.
Qed.

(** Converting a hex color to hex normalises it.  For a color of 3, 6 or 8
    hex digits of either case and the target format [hex], [convertColor]
    succeeds and returns the digits in lower case, or in upper case under
    [uppercase]; three digits are doubled to six unless [shortHex] is set;
    six digits are shortened to three exactly when [shortHex] is set and
    each channel has two equal digits; the two alpha digits of an 8-digit
    color are kept exactly when [preserveAlpha] is set, and dropped
    otherwise. *)
Theorem convertColor_hex_normalises (now : float) (color : Color)
        (options : colorConverter.ColorConversionOptions) :
  colorConverter.targetFormat options = "hex"%string ->
  let casing (s : string) :=
    if colorConverter.truthy (colorConverter.uppercase options)
    then Str.toUpperCase s else s in
  let result (s : string) :=
    colorConverter.Normal
      {| colorConverter.original := color;
         colorConverter.converted := casing s;
         colorConverter.res_format := "hex";
         colorConverter.timestamp := now;
         colorConverter.success := true;
         colorConverter.error := None |} in
  let short := colorConverter.truthy (colorConverter.shortHex options) in
  let keepAlpha := colorConverter.truthy (colorConverter.preserveAlpha options) in
  let l := Str.lowerChar in
  (forall a b c : ascii,
      Regex.hexAny a = true -> Regex.hexAny b = true -> Regex.hexAny c = true ->
      value color = hash3 a b c ->
      colorConverter.convertColor now color options
      = result (if short then hash3 (l a) (l b) (l c)
                else hash6 (l a) (l a) (l b) (l b) (l c) (l c))) /\
  (forall c1 c2 c3 c4 c5 c6 : ascii,
      Regex.hexAny c1 = true -> Regex.hexAny c2 = true -> Regex.hexAny c3 = true ->
      Regex.hexAny c4 = true -> Regex.hexAny c5 = true -> Regex.hexAny c6 = true ->
      value color = hash6 c1 c2 c3 c4 c5 c6 ->
      colorConverter.convertColor now color options
      = result (if short && (Ascii.eqb (l c1) (l c2) && Ascii.eqb (l c3) (l c4)
                             && Ascii.eqb (l c5) (l c6))
                then hash3 (l c1) (l c3) (l c5)
                else hash6 (l c1) (l c2) (l c3) (l c4) (l c5) (l c6))) /\
  (forall c1 c2 c3 c4 c5 c6 c7 c8 : ascii,
      Regex.hexAny c1 = true -> Regex.hexAny c2 = true -> Regex.hexAny c3 = true ->
      Regex.hexAny c4 = true -> Regex.hexAny c5 = true -> Regex.hexAny c6 = true ->
      Regex.hexAny c7 = true -> Regex.hexAny c8 = true ->
      value color = hash8 c1 c2 c3 c4 c5 c6 c7 c8 ->
      colorConverter.convertColor now color options
      = result (if keepAlpha
                then hash8 (l c1) (l c2) (l c3) (l c4) (l c5) (l c6) (l c7) (l c8)
                else if short && (Ascii.eqb (l c1) (l c2) && Ascii.eqb (l c3) (l c4)
                                  && Ascii.eqb (l c5) (l c6))
                     then hash3 (l c1) (l c3) (l c5)
                     else hash6 (l c1) (l c2) (l c3) (l c4) (l c5) (l c6))).
Proof.
  intros Ht casing result short keepAlpha l.
  split; [ | split ].
  - intros a b c Ha Hb Hc Hv.
    rewrite (convertColor_hex_of_parse now color options _ Ht
               (eq_trans (f_equal colorConverter.parseColorToRGB Hv)
                         (parseColorToRGB_hash3 a b c Ha Hb Hc))).
    unfold result, casing. do 2 f_equal.
    erewrite (rgbToHex_six (l a) (l a) (l b) (l b) (l c) (l c) None options
                (or_introl eq_refl));
      [ | exact (proj1 (toHex_channel a a Ha Ha)) | exact (proj1 (toHex_channel b b Hb Hb))
        | exact (proj1 (toHex_channel c c Hc Hc)) | reflexivity ].
    cbv zeta. rewrite !Ascii.eqb_refl. cbn [andb]. rewrite andb_true_r. reflexivity.
  - intros c1 c2 c3 c4 c5 c6 H1 H2 H3 H4 H5 H6 Hv.
    rewrite (convertColor_hex_of_parse now color options _ Ht
               (eq_trans (f_equal colorConverter.parseColorToRGB Hv)
                         (parseColorToRGB_hash6 c1 c2 c3 c4 c5 c6 H1 H2 H3 H4 H5 H6))).
    unfold result, casing. do 2 f_equal.
    apply (rgbToHex_six (l c1) (l c2) (l c3) (l c4) (l c5) (l c6) None options
             (or_introl eq_refl));
      [ exact (proj1 (toHex_channel c1 c2 H1 H2)) | exact (proj1 (toHex_channel c3 c4 H3 H4))
        | exact (proj1 (toHex_channel c5 c6 H5 H6)) | reflexivity ].
  - intros c1 c2 c3 c4 c5 c6 c7 c8 H1 H2 H3 H4 H5 H6 H7 H8 Hv.
    rewrite (convertColor_hex_of_parse now color options _ Ht
               (eq_trans (f_equal colorConverter.parseColorToRGB Hv)
                         (parseColorToRGB_hash8 c1 c2 c3 c4 c5 c6 c7 c8
                            H1 H2 H3 H4 H5 H6 H7 H8))).
    unfold result, casing. do 2 f_equal.
    unfold keepAlpha.
    destruct (colorConverter.truthy (colorConverter.preserveAlpha options)) eqn:Hp.
    + eapply (rgbToHex_eight (l c1) (l c2) (l c3) (l c4) (l c5) (l c6) (l c7) (l c8) _
                options Hp);
        [ exact (proj1 (toHex_channel c1 c2 H1 H2)) | exact (proj1 (toHex_channel c3 c4 H3 H4))
          | exact (proj1 (toHex_channel c5 c6 H5 H6)) | reflexivity
          | exact (proj2 (toHex_channel c7 c8 H7 H8)) ].
    + eapply (rgbToHex_six (l c1) (l c2) (l c3) (l c4) (l c5) (l c6) _ options
                (or_intror Hp));
        [ exact (proj1 (toHex_channel c1 c2 H1 H2)) | exact (proj1 (toHex_channel c3 c4 H3 H4))
          | exact (proj1 (toHex_channel c5 c6 H5 H6)) | reflexivity ].
Qed.

Lemma convertColor_hex_normalises_witness :
  let color := {| value := "#FFAA00"; format := hex; position := None; context := None |} in
  let options := {| colorConverter.targetFormat := "hex";
                    colorConverter.preserveAlpha := None;
                    colorConverter.roundValues := None;
                    colorConverter.uppercase := None;
                    colorConverter.shortHex := Some true |} in
  colorConverter.convertColor 0 color options
  = colorConverter.Normal
      {| colorConverter.original := color;
         colorConverter.converted := "#fa0";
         colorConverter.res_format := "hex";
         colorConverter.timestamp := 0;
         colorConverter.success := true;
         colorConverter.error := None |}.
Proof.
  intros color options.
  exact (proj1 (proj2 (convertColor_hex_normalises 0 color options eq_refl))
           "F" "F" "A" "A" "0" "0" eq_refl eq_refl eq_refl eq_refl eq_refl eq_refl eq_refl)%char.
Defined.


Lemma hexAny_accepts (c : ascii) :
  Regex.hexAny c = true -> Regex.classAccepts Regex.flag_i false Regex.hexLower c = true.
Proof.
  intro H. apply hexAny_cases in H. simpl in H.
  repeat (destruct H as [H | H]; [subst c; reflexivity | ]). contradiction.
Qed.

Lemma hexChannels_hash6 (c1 c2 c3 c4 c5 c6 : ascii) :
  Regex.hexAny c1 = true -> Regex.hexAny c2 = true -> Regex.hexAny c3 = true ->
  Regex.hexAny c4 = true -> Regex.hexAny c5 = true -> Regex.hexAny c6 = true ->
  match Regex.exec Regex.flag_i analyzer.hexChannels (hash6 c1 c2 c3 c4 c5 c6) with
  | Some result =>
      analyzer.captures3 (hash6 c1 c2 c3 c4 c5 c6) result
      = Some (str2 c1 c2, str2 c3 c4, str2 c5 c6)
  | None => False
  end.
Proof.
  intros H1 H2 H3 H4 H5 H6.
  apply hexAny_accepts in H1, H2, H3, H4, H5, H6.
  unfold analyzer.hexChannels, Regex.exec, hash6.
  cbn -[Regex.classAccepts]. rewrite H1. cbn -[Regex.classAccepts]. rewrite H2.
  cbn -[Regex.classAccepts]. rewrite H3. cbn -[Regex.classAccepts]. rewrite H4.
  cbn -[Regex.classAccepts]. rewrite H5. cbn -[Regex.classAccepts]. rewrite H6.
  reflexivity.
Qed.

(** On two channel values divided by 255: the larger and the smaller are one
    of the two, and their difference is zero exactly when they are equal. *)
Lemma unit_pairs :
  forallb (fun x => forallb (fun y =>
    let X := (x / 255)%float in
    let Y := (y / 255)%float in
    PrimFloat.Leibniz.eqb (Num.max2 X Y) (if (X <? Y)%float then Y else X)
    && PrimFloat.Leibniz.eqb (Num.min2 X Y) (if (X <? Y)%float then X else Y)
    && Bool.eqb (X - Y =? 0)%float (X =? Y)%float
    && PrimFloat.Leibniz.eqb (Num.max2 neg_infinity X) X
    && PrimFloat.Leibniz.eqb (Num.min2 infinity X) X) channels) channels = true.
Proof. vm_compute. reflexivity. Qed.

Lemma unit_pair (x y : float) :
  isByte x -> isByte y ->
  let X := (x / 255)%float in
  let Y := (y / 255)%float in
  Num.max2 X Y = (if (X <? Y)%float then Y else X) /\
  Num.min2 X Y = (if (X <? Y)%float then X else Y) /\
  (X - Y =? 0)%float = (X =? Y)%float /\
  Num.max2 neg_infinity X = X /\
  Num.min2 infinity X = X.
Proof.
  intros (zx & Hx & ->) (zy & Hy & ->).
  pose proof unit_pairs as H.
  rewrite forallb_forall in H. specialize (H _ (channels_complete zx Hx)).
  rewrite forallb_forall in H. specialize (H _ (channels_complete zy Hy)).
  cbv zeta in H.
  repeat (apply andb_true_iff in H; destruct H as [H ?]).
  repeat split;
    try (apply FloatAxioms.Leibniz.eqb_spec; assumption).
  apply Bool.eqb_prop. assumption.
Qed.

Lemma unit_extremes (r g b : float) :
  isByte r -> isByte g -> isByte b ->
  let R := (r / 255)%float in
  let G := (g / 255)%float in
  let B := (b / 255)%float in
  let max := Num.Math_max [R; G; B] in
  let min := Num.Math_min [R; G; B] in
  (max - min =? 0)%float = (max =? min)%float.
Proof.
  intros Hr Hg Hb R G B max min. subst max min.
  unfold Num.Math_max, Num.Math_min. cbn [fold_left].
  destruct (unit_pair r g Hr Hg) as (M1 & N1 & _ & M0 & N0).
  fold R in M0, N0, M1, N1. fold G in M1, N1.
  rewrite M0, N0, M1, N1.
  destruct (unit_pair r b Hr Hb) as (M2 & N2 & _).
  destruct (unit_pair g b Hg Hb) as (M3 & N3 & _).
  fold R in M2, N2. fold G in M3, N3. fold B in M2, N2, M3, N3.
  assert (D : forall x y, isByte x -> isByte y ->
                          ((x / 255) - (y / 255) =? 0)%float = (x / 255 =? y / 255)%float).
  { intros x y Hx Hy. exact (proj1 (proj2 (proj2 (unit_pair x y Hx Hy)))). }
  destruct (R <? G)%float; rewrite ?M2, ?N2, ?M3, ?N3;
    destruct (R <? B)%float; destruct (G <? B)%float; subst R G B; apply D; assumption.
Qed.

Lemma hexToHSL_hash6 (c1 c2 c3 c4 c5 c6 : ascii) :
  Regex.hexAny c1 = true -> Regex.hexAny c2 = true -> Regex.hexAny c3 = true ->
  Regex.hexAny c4 = true -> Regex.hexAny c5 = true -> Regex.hexAny c6 = true ->
  let x := colorConverter.rgbToHsl
             (colorConverter.mkRgb (Num.parseInt (str2 c1 c2) 16) (Num.parseInt (str2 c3 c4) 16)
                                   (Num.parseInt (str2 c5 c6) 16)) in
  analyzer.hexToHSL (hash6 c1 c2 c3 c4 c5 c6)
  = Some {| analyzer.h := colorConverter.hs_h x; analyzer.s := colorConverter.hs_s x;
            analyzer.l := colorConverter.hs_l x |}.
Proof.
  intros H1 H2 H3 H4 H5 H6 x. subst x.
  pose proof (hexChannels_hash6 c1 c2 c3 c4 c5 c6 H1 H2 H3 H4 H5 H6) as E.
  unfold analyzer.hexToHSL.
  destruct (Regex.exec Regex.flag_i analyzer.hexChannels (hash6 c1 c2 c3 c4 c5 c6))
    as [result | ]; [ | contradiction ].
  rewrite E. clear E.
  pose proof (unit_extremes _ _ _ (proj1 (channel_any c1 c2 H1 H2))
                (proj1 (channel_any c3 c4 H3 H4)) (proj1 (channel_any c5 c6 H5 H6))) as D.
  cbv zeta in D.
  unfold colorConverter.rgbToHsl, colorConverter.mkRgb.
  cbn [colorConverter.cs_r colorConverter.cs_g colorConverter.cs_b colorConverter.cs_a
       colorConverter.num].
  cbv zeta. rewrite D.
  destruct (Num.Math_max _ =? Num.Math_min _)%float; cbn [negb]; cbv beta iota;
    cbn [colorConverter.hs_h colorConverter.hs_s colorConverter.hs_l]; reflexivity.
Qed.

Lemma rgbToHsl_same (r g b : float) (a : option float) :
  let x := colorConverter.rgbToHsl
             {| colorConverter.cs_r := Some r; colorConverter.cs_g := Some g;
                colorConverter.cs_b := Some b; colorConverter.cs_a := a |} in
  colorConversion.rgbToHsl
    {| colorConversion.rgb_r := r; colorConversion.rgb_g := g;
       colorConversion.rgb_b := b; colorConversion.rgb_a := a |}
  = {| colorConversion.hsl_h := colorConverter.hs_h x;
       colorConversion.hsl_s := colorConverter.hs_s x;
       colorConversion.hsl_l := colorConverter.hs_l x;
       colorConversion.hsl_a := a |}.
Proof.
  unfold colorConversion.rgbToHsl, colorConverter.rgbToHsl, colorConversion.strictEq.
  cbn [colorConverter.cs_r colorConverter.cs_g colorConverter.cs_b colorConverter.cs_a
       colorConverter.num colorConversion.rgb_r colorConversion.rgb_g colorConversion.rgb_b
       colorConversion.rgb_a].
  cbv zeta.
  destruct (negb _); [ | reflexivity ].
  destruct (_ =? r / 255)%float; [reflexivity | ].
  destruct (_ =? g / 255)%float; [reflexivity | ].
  destruct (_ =? b / 255)%float; reflexivity.
Qed.

Lemma rgbToHsl_fields (c : colorConverter.ColorSpace) :
  colorConverter.rgbToHsl c
  = {| colorConverter.hs_h := colorConverter.hs_h (colorConverter.rgbToHsl c);
       colorConverter.hs_s := colorConverter.hs_s (colorConverter.rgbToHsl c);
       colorConverter.hs_l := colorConverter.hs_l (colorConverter.rgbToHsl c);
       colorConverter.hs_a := colorConverter.cs_a c |}.
Proof.
  unfold colorConverter.rgbToHsl. cbv zeta. destruct (negb _); reflexivity.
Qed.

(** One HSL for a hex color.  For every color of six hex digits, of either
    case, the analyzer's [hexToHSL], the converter's [rgbToHsl] of
    [parseColorToRGB] and the utility's [rgbToHsl] of [parseColor] all succeed
    and return the same hue, saturation and lightness; and the two [rgbToHsl]
    return the same three numbers on every channel triple, with the alpha
    passed through. *)
Theorem hsl_of_hex_agree :
  (forall c1 c2 c3 c4 c5 c6 : ascii,
      Regex.hexAny c1 = true -> Regex.hexAny c2 = true -> Regex.hexAny c3 = true ->
      Regex.hexAny c4 = true -> Regex.hexAny c5 = true -> Regex.hexAny c6 = true ->
      let color := hash6 c1 c2 c3 c4 c5 c6 in
      exists h s l : float,
        analyzer.hexToHSL color
        = Some {| analyzer.h := h; analyzer.s := s; analyzer.l := l |} /\
        option_map colorConverter.rgbToHsl (colorConverter.parseColorToRGB color)
        = Some {| colorConverter.hs_h := h; colorConverter.hs_s := s;
                  colorConverter.hs_l := l; colorConverter.hs_a := None |} /\
        option_map colorConversion.rgbToHsl (colorConversion.parseColor color)
        = Some {| colorConversion.hsl_h := h; colorConversion.hsl_s := s;
                  colorConversion.hsl_l := l; colorConversion.hsl_a := None |}) /\
  (forall (r g b : float) (a : option float),
      let x := colorConverter.rgbToHsl
                 {| colorConverter.cs_r := Some r; colorConverter.cs_g := Some g;
                    colorConverter.cs_b := Some b; colorConverter.cs_a := a |} in
      colorConversion.rgbToHsl
        {| colorConversion.rgb_r := r; colorConversion.rgb_g := g;
           colorConversion.rgb_b := b; colorConversion.rgb_a := a |}
      = {| colorConversion.hsl_h := colorConverter.hs_h x;
           colorConversion.hsl_s := colorConverter.hs_s x;
           colorConversion.hsl_l := colorConverter.hs_l x;
           colorConversion.hsl_a := a |}).
Proof.
  split; [ | exact rgbToHsl_same ].
  intros c1 c2 c3 c4 c5 c6 H1 H2 H3 H4 H5 H6 color. subst color.
  do 3 eexists. split; [exact (hexToHSL_hash6 c1 c2 c3 c4 c5 c6 H1 H2 H3 H4 H5 H6) | ].
  split.
  - rewrite (parseColorToRGB_hash6 c1 c2 c3 c4 c5 c6 H1 H2 H3 H4 H5 H6).
    cbn [option_map]. f_equal. apply rgbToHsl_fields.
  - rewrite (parseColor_hash6 c1 c2 c3 c4 c5 c6 H6). cbn [option_map].
    f_equal. exact (rgbToHsl_same _ _ _ None).
Qed.

Lemma hsl_of_hex_agree_witness :
  exists h s l : float,
    analyzer.hexToHSL "#FF8040"
    = Some {| analyzer.h := h; analyzer.s := s; analyzer.l := l |} /\
    option_map colorConverter.rgbToHsl (colorConverter.parseColorToRGB "#FF8040")
    = Some {| colorConverter.hs_h := h; colorConverter.hs_s := s;
              colorConverter.hs_l := l; colorConverter.hs_a := None |} /\
    option_map colorConversion.rgbToHsl (colorConversion.parseColor "#FF8040")
    = Some {| colorConversion.hsl_h := h; colorConversion.hsl_s := s;
              colorConversion.hsl_l := l; colorConversion.hsl_a := None |}.
Proof.
  exact (proj1 hsl_of_hex_agree "F" "F" "8" "0" "4" "0"
           eq_refl eq_refl eq_refl eq_refl eq_refl eq_refl)%char.
Defined.
